(** * screw_maker.py: thread cutters, nut threads, recess tools, length parsing

    A shallow embedding of the [Screw] class of [screw_maker.py].

    Numbers.  The geometry code computes with Python floats; its formulas are
    embedded over the real numbers [R] (square roots, trigonometry and floor
    division have their mathematical meaning, rounding is not modelled).
    The one place where the code floors a quotient it has rounded first,
    [math.floor(tipH / p)] in [makeDin7998Thread], rounds the quotient to
    binary64 in the embedding as well.  The length parser [getLength] is
    embedded over IEEE binary64 ([PrimFloat]), the format of a Python
    float, so that its results can be evaluated; a character of a string
    is a code point below 256.

    The B-rep kernel.  [Part], [FreeCAD.Base] and the OpenCASCADE algorithms
    behind them are not part of the program.  A shape is embedded as the term
    of kernel operations that produced it ([Shape]); what only the kernel can
    answer about a shape (its faces, whether a sweep is ready, the map of a
    general fuse, ...) is a field of the record [Kernel], and every function
    that asks such a question takes the kernel as an argument.

    Effects.  A method that calls the kernel runs in the monad [M]: it may
    raise a Python exception of its own, it appends the kernel algorithms
    it runs to a journal, and it reads and writes the process-wide cache
    [FSCache], whose
    entries are references into a store of shape objects (the cache hands
    out the very objects it keeps, so a caller can move them).  The two
    methods that call nothing, [GetInnerThreadMinDiameter] and [getLength],
    are plain functions.  The kernel algorithms are taken to succeed: the
    exceptions the kernel raises on degenerate input are not modelled, and
    a statement about a call is about the call whose kernel algorithms
    succeed.

    Layout.  The embedding of the methods comes first, then names for the
    parts of what they build, then the statements about them. *)

From Stdlib Require Import Floats.
From Stdlib Require Uint63.
From Stdlib Require Import Reals Lra Lia ZArith List String Ascii Bool.
Import ListNotations.

Set Warnings "-register-all,-inexact-float".
Open Scope R_scope.

(** ** Python results *)

Module Py.

Inductive exn : Type :=
| RuntimeError (msg : string)
| ValueError
| ZeroDivisionError
| IndexError
| TypeError
| KeyError (key : string).

Inductive result (A : Type) : Type :=
| Ok (a : A)
| Raise (e : exn).

Arguments Ok {A} a.
Arguments Raise {A} e.

End Py.
Import Py.

(** ** Vectors, placements and shapes *)

(** [FreeCAD.Base.Vector] *)
Record Vector : Type := mkVector { vx : R; vy : R; vz : R }.

(** [FreeCAD.Rotation(q0, q1, q2, q3)], a quaternion. *)
Record Rotation : Type := mkRotation { q0 : R; q1 : R; q2 : R; q3 : R }.

(** [FreeCAD.Placement(Base, Rotation)] *)
Record Placement : Type := mkPlacement { Base : Vector; Rot : Rotation }.

Definition origin : Vector := mkVector 0 0 0.
Definition identityRotation : Rotation := mkRotation 0 0 0 1.
Definition identityPlacement : Placement := mkPlacement origin identityRotation.

(** A shape is the term of the kernel calls that made it.  [Translated],
    [Rotated] and [Reversed] are the in-place methods [translate], [rotate]
    and [reverse]; the Python variable is rebound to the moved term.
    [Located] is a shape handed to the kernel under the placement it had at
    that moment. *)
Inductive Shape : Type :=
| Line (p q : Vector)
| Arc (p m q : Vector)
| Circle (radius : R) (center : Vector)
| Polygon (pts : list Vector)
| LongHelix (pitch height radius angle : R) (leftHanded : bool)
| Box (lx ly lz : R)
| Wire (edges : list Shape)
| Face (wire : Shape)
| Shell (faces : list Shape)
| Solid (shell : Shape)
| Revolve (profile : Shape) (center axis : Vector) (angle : R)
| Extrude (base : Shape) (dir : Vector)
| PipeShell (spine : Shape) (sections : list Shape) (makeSolid isFrenet : bool)
| MakePipeShell (spine : Shape) (sections : list Shape)
                (frenet : bool) (transition : Z) (solid : bool)
| Cut (a b : Shape)
| Common (a b : Shape)
| Fuse (a b : Shape)
| GeneralFuse (a : Shape) (others : list Shape) (tol : R)
| Translated (v : Vector) (s : Shape)
| Rotated (center axis : Vector) (angle : R) (s : Shape)
| Reversed (s : Shape)
| Located (pl : Placement) (s : Shape)
| SubShape (s : Shape) (i : nat).

(** What the program asks the kernel about shapes. *)
Record Kernel : Type := mkKernel {
  (** [sweep.isReady()] of a [MakePipeShell] with this spine and sections *)
  isReady : Shape -> list Shape -> bool;
  (** [s.Faces], [s.Edges] *)
  Faces : Shape -> list Shape;
  Edges : Shape -> list Shape;
  (** [e.Vertexes[i].Point] *)
  Vertexes : Shape -> list Vector;
  (** [f.CenterOfMass] *)
  CenterOfMass : Shape -> Vector;
  (** the second component of [a.generalFuse(others, tol)] *)
  generalFuseMap : Shape -> list Shape -> R -> list (list Shape);
  (** [Part.__sortEdges__] *)
  sortEdges : list Shape -> list Shape
}.

(** ** The world: object store, cache and journal *)

(** A shape object that outlives a call: the geometry and its mutable
    [Placement] attribute. *)
Record Obj : Type := mkObj { geom : Shape; obj_Placement : Placement }.

Definition ref : Type := nat.

(** One argument of a cache key. *)
Inductive KeyArg : Type :=
| KStr (s : string)
| KNum (x : R).

Definition Key : Type := list KeyArg.

(** What the cache keeps under a key: one shape ([cutChamfer]) or a pair of
    shapes (the recess tools). *)
Inductive CacheVal : Type :=
| COne (r : ref)
| CPair (r0 r1 : ref).

Record World : Type := mkWorld {
  objects : list Obj;
  FSCache : list (Key * CacheVal);
  journal : list Shape
}.

Definition emptyWorld : World := mkWorld [] [] [].

Definition M (A : Type) : Type := World -> result A * World.

Definition ret {A : Type} (a : A) : M A := fun w => (Ok a, w).

Definition raise {A : Type} (e : exn) : M A := fun w => (Raise e, w).

Definition bind {A B : Type} (m : M A) (k : A -> M B) : M B :=
  fun w =>
    match m w with
    | (Ok a, w') => k a w'
    | (Raise e, w') => (Raise e, w')
    end.

Notation "x <- m ;; k" := (bind m (fun x => k))
  (at level 61, m at next level, right associativity).
Notation "' pat <- m ;; k" := (bind m (fun x => match x with pat => k end))
  (at level 61, pat pattern, m at next level, right associativity).
Notation "m ;;; k" := (bind m (fun _ => k))
  (at level 61, right associativity).

(** Run a kernel algorithm (revolve, extrude, sweep, boolean operation,
    general fuse, solid construction): the shape is entered in the
    journal, most recent first.  The algorithm is taken to succeed: the
    exceptions of the kernel itself ([Part.OCCError] on degenerate input)
    are not part of the model, so what is proved of a call is proved of
    the call whose kernel algorithms succeed. *)
Definition run (s : Shape) : M Shape :=
  fun w => (Ok s, mkWorld (objects w) (FSCache w) (s :: journal w)).

(** Python's [seq[i]]. *)
Definition index {A : Type} (l : list A) (i : nat) : M A :=
  match nth_error l i with
  | Some a => ret a
  | None => raise IndexError
  end.

(** Python's [a // b] on numbers. *)
Definition floordiv (a b : R) : M R :=
  if Req_dec_T b 0 then raise ZeroDivisionError
  else ret (IZR (Zfloor (a / b))).

(** Python's [a / b] on numbers. *)
Definition truediv (a b : R) : M R :=
  if Req_dec_T b 0 then raise ZeroDivisionError
  else ret (a / b).

(** [math.radians] *)
Definition radians (deg : R) : R := deg * PI / 180.

(** ** Module constants *)

Definition sqrt3 : R := sqrt 3.
Definition cos30 : R := cos (radians 30).

(** ** FastenerBase.FSFaceMaker *)

(** Modelled from the spec: [FastenerBase.FSFaceMaker] is not among the
    sources.  The spec's profile builder "constructs closed/open planar
    cross-section curves from 2D points and arcs" in the (radius, axial)
    plane: a point [(x, z)] is the vector [(x, 0, z)], consecutive points
    are joined by lines, an arc runs from the last point through a middle
    point to an end point. *)
Record FSFaceMaker : Type := mkFaceMaker {
  fm_edges : list Shape;
  firstPoint : option Vector;
  lastPoint : option Vector
}.

(** Modelled from the spec: [FSFaceMaker.Reset], an empty profile. *)
Definition Reset : FSFaceMaker := mkFaceMaker [] None None.

(** Modelled from the spec: [FSFaceMaker.AddPoint], the first point or a
    line from the last point to the new one. *)
Definition AddPoint (fm : FSFaceMaker) (x z : R) : FSFaceMaker :=
  let curPoint := mkVector x 0 z in
  match firstPoint fm, lastPoint fm with
  | Some _, Some lp =>
      mkFaceMaker (fm_edges fm ++ [Line lp curPoint]) (firstPoint fm) (Some curPoint)
  | _, _ => mkFaceMaker (fm_edges fm) (Some curPoint) (Some curPoint)
  end.

(** Modelled from the spec: [FSFaceMaker.AddPoints], the points one after
    the other. *)
Definition AddPoints (fm : FSFaceMaker) (pts : list (R * R)) : FSFaceMaker :=
  fold_left (fun f p => AddPoint f (fst p) (snd p)) pts fm.

(** Modelled from the spec: [FSFaceMaker.StartPoint], a new profile that
    starts at the point. *)
Definition StartPoint (x z : R) : FSFaceMaker := AddPoint Reset x z.

(** Modelled from the spec: [FSFaceMaker.AddArc], an arc from the last
    point through [(x1, z1)] to [(x2, z2)]. *)
Definition AddArc (fm : FSFaceMaker) (x1 z1 x2 z2 : R) : FSFaceMaker :=
  let midPoint := mkVector x1 0 z1 in
  let endPoint := mkVector x2 0 z2 in
  match lastPoint fm with
  | Some lp =>
      mkFaceMaker (fm_edges fm ++ [Arc lp midPoint endPoint]) (firstPoint fm) (Some endPoint)
  | None => mkFaceMaker (fm_edges fm) (firstPoint fm) (Some endPoint)
  end.

(** Modelled from the spec: [FSFaceMaker.GetWire], the open curve. *)
Definition GetWire (fm : FSFaceMaker) : Shape := Wire (fm_edges fm).

(** Modelled from the spec: the edges of the profile and the line that
    closes it. *)
Definition closingEdges (fm : FSFaceMaker) : list Shape :=
  match firstPoint fm, lastPoint fm with
  | Some fp, Some lp => fm_edges fm ++ [Line lp fp]
  | _, _ => fm_edges fm
  end.

(** Modelled from the spec: [FSFaceMaker.GetClosedWire], the closed curve. *)
Definition GetClosedWire (fm : FSFaceMaker) : Shape := Wire (closingEdges fm).

(** Modelled from the spec: [FSFaceMaker.GetFace], the face the closed
    curve bounds. *)
Definition GetFace (fm : FSFaceMaker) : Shape := Face (GetClosedWire fm).

(** ** The Screw object *)

Record Screw : Type := mkScrew {
  objAvailable : bool;
  Tuner : R;
  leftHanded : bool;
  sm3DPrintMode : bool;
  smNutThrScaleA : R;
  smNutThrScaleB : R;
  smScrewThrScaleA : R;
  smScrewThrScaleB : R
}.

(** [Screw.__init__] *)
Definition Screw_init : Screw := mkScrew true 510 false false 1 0 1 0.

(** [Screw.GetInnerThreadMinDiameter]; [addEpsilon = None] is the call that
    leaves the keyword argument at its default [0.001]. *)
Definition GetInnerThreadMinDiameter (self : Screw) (dia P : R)
    (addEpsilon : option R) : R :=
  let addEpsilon := match addEpsilon with Some e => e | None => 0.001 end in
  let H := P * cos30 in
  dia - H * 5 / 4 + addEpsilon.

(** [Screw.RevolveZ]; [angle = None] is the default of 360 degrees. *)
Definition RevolveZ (self : Screw) (profile : Shape) (angle : option R) : M Shape :=
  let angle := match angle with Some a => a | None => 360 end in
  run (Revolve profile (mkVector 0 0 0) (mkVector 0 0 1) angle).

(** [Screw.CreateThreadCutter] *)
Definition CreateThreadCutter (self : Screw) (K : Kernel) (dia P blen : R) : M Shape :=
  let H := sqrt 3 / 2 * P in
  q <- floordiv blen P ;;
  let trotations := q + 1 in
  let fillet_r := P * sqrt 3 / 12 in
  let helix_height := trotations * P in
  let dia2 := dia / 2 in
  let fm := Reset in
  let fm := AddPoint fm (dia2 + sqrt3 * 3 / 80 * P) (-0.475 * P) in
  let fm := AddPoint fm (dia2 - 0.625 * H) (-1 * P / 8) in
  let fm := AddArc fm (dia2 - 0.625 * H - 0.5 * fillet_r) 0 (dia2 - 0.625 * H) (P / 8) in
  let fm := AddPoint fm (dia2 + sqrt3 * 3 / 80 * P) (0.475 * P) in
  let thread_profile_wire := GetClosedWire fm in
  let thread_profile_wire :=
    Translated (mkVector 0 0 (-1 * helix_height)) thread_profile_wire in
  let main_helix := LongHelix P helix_height (dia / 2) 0 (leftHanded self) in
  let lead_out_helix :=
    LongHelix P (P / 2) (dia / 2 + 0.5 * (5 / 8 * H + 0.5 * fillet_r)) 0
              (leftHanded self) in
  let main_helix := Rotated (mkVector 0 0 0) (mkVector 1 0 0) 180 main_helix in
  let lead_out_helix :=
    Translated (mkVector (0.5 * (-1 * (5 / 8 * H + 0.5 * fillet_r))) 0 0)
               lead_out_helix in
  let sweep_path := Wire [main_helix; lead_out_helix] in
  if isReady K sweep_path [thread_profile_wire] then
    _ <- run (MakePipeShell sweep_path [thread_profile_wire] true 1 false) ;;
    run (MakePipeShell sweep_path [thread_profile_wire] true 1 true)
  else
    raise (RuntimeError "Failed to create shell thread: could not sweep thread").

(** [Screw.makeShellthread]; [tlen = None] is the default [-1]. *)
Definition makeShellthread (self : Screw) (K : Kernel)
    (dia P blen : R) (withcham : bool) (ztop : R) (tlen : option R) : M Shape :=
  let tlen := match tlen with Some t => t | None => -1 end in
  let correction := 1e-5 in
  let tlen := if Rlt_dec tlen 0 then blen else tlen in
  let dia2 := dia / 2 in
  let corr_blen := blen - correction in
  let pnt0 := (dia2, 0) in
  let pnt1 := (dia2, - blen + P / 2) in
  let pnt2 := (dia2 - P / 2, - corr_blen) in
  let pnt3 := (0, - corr_blen) in
  let pnt4 := (0, 0) in
  let pnt5 := (dia2, - corr_blen) in
  let fm := Reset in
  let fm := AddPoints fm [pnt0] in
  let fm := if withcham then AddPoints fm [pnt1; pnt2] else AddPoints fm [pnt5] in
  let fm := AddPoints fm [pnt3; pnt4] in
  let base_profile := GetClosedWire fm in
  base_shell <- RevolveZ self base_profile None ;;
  base_body <- run (Solid base_shell) ;;
  swept_solid <- CreateThreadCutter self K dia P blen ;;
  let toffset := blen - tlen + P / 2 in
  let minoffset := 5 * P / 8 in
  let toffset := if Rlt_dec toffset minoffset then minoffset else toffset in
  let swept_solid := Translated (mkVector 0 0 (- toffset)) swept_solid in
  let base_body := Rotated (mkVector 0 0 0) (mkVector 0 0 1) 90 base_body in
  threaded_solid <- run (Cut base_body swept_solid) ;;
  (if Rlt_dec toffset 0 then
     let fm := Reset in
     let fm := AddPoints fm [pnt4; pnt0; (0, - dia2)] in
     let cap_profile := GetClosedWire fm in
     cap_shell <- RevolveZ self cap_profile None ;;
     cap_solid <- run (Solid cap_shell) ;;
     ret tt
   else ret tt) ;;;
  let result :=
    Shell (filter (fun x => if Rlt_dec (Rabs (vz (CenterOfMass K x))) 1e-7
                            then false else true)
                  (Faces K threaded_solid)) in
  let result := Translated (mkVector 0 0 ztop) result in
  ret result.

(** [a.generalFuse(others, tol)]: the fused shape and the map. *)
Definition generalFuse (K : Kernel) (a : Shape) (others : list Shape) (tol : R)
  : M (Shape * list (list Shape)) :=
  fused <- run (GeneralFuse a others tol) ;;
  ret (fused, generalFuseMap K a others tol).

(** The loop
    [for _ in range(n): TheShell.translate(v); for f in TheShell.Faces: acc.append(f)],
    which stacks [n] more turns of the strip.  It gives the moved strip and
    the grown list. *)
Fixpoint stack_turns (K : Kernel) (n : nat) (v : Vector)
    (TheShell : Shape) (acc : list Shape) : Shape * list Shape :=
  match n with
  | O => (TheShell, acc)
  | S n' =>
      let TheShell := Translated v TheShell in
      stack_turns K n' v TheShell (acc ++ Faces K TheShell)
  end.

(** The loop [for kante in edges: if test(kante.Vertexes[0].Point.z) and
    test(kante.Vertexes[1].Point.z): acc.append(kante)]; the second vertex
    is read only when the first passes. *)
Fixpoint edges_on_plane (K : Kernel) (test : R -> bool) (edges : list Shape)
    (acc : list Shape) : M (list Shape) :=
  match edges with
  | [] => ret acc
  | kante :: rest =>
      v0 <- index (Vertexes K kante) 0 ;;
      if test (vz v0) then
        v1 <- index (Vertexes K kante) 1 ;;
        if test (vz v1) then edges_on_plane K test rest (acc ++ [kante])
        else edges_on_plane K test rest acc
      else edges_on_plane K test rest acc
  end.

(** [Screw.makeInnerThread_2]; [da = None] makes a screw tap, [da = Some _]
    the thread shell of a nut.  The result [None] is Python's [None].  The
    diameter [d] is a number, which [float(d)] leaves as it is. *)
Definition makeInnerThread_2 (self : Screw) (K : Kernel)
    (d P : R) (rotations : Z) (da : option R) (l : R) : M (option Shape) :=
  let bot_off := 0 in
  let fuzzyValue := 5e-4 in
  let H := P * cos30 in
  let r := d / 2 in
  let helix := LongHelix P P (d * Tuner self / 1000) 0 (leftHanded self) in
  let helix := Translated (mkVector 0 0 (- P * 9 / 16)) helix in
  let fm := Reset in
  let fm := AddPoint fm r 0 in
  let fm := AddPoint fm (r - H * 5 / 8) (- P * 5 / 16) in
  let fm := AddPoint fm (r - H * 5 / 8) (- P * 9 / 16) in
  let fm := AddPoint fm r (- P * 14 / 16) in
  let fm := AddArc fm (r + H * 1 / 24) (- P * 31 / 32) r (- P) in
  let W0 := GetWire fm in
  TheShell <- run (PipeShell (Wire [helix]) [W0] false true) ;;
  let TheFaces := Faces K TheShell in
  match da with
  | None =>
      let commonbox := Box (d + 4 * P) (d + 4 * P) (3 * P) in
      let commonbox :=
        Translated (mkVector (- (d + 4 * P) / 2) (- (d + 4 * P) / 2) (- 3 * P))
                   commonbox in
      topShell <- run (Common TheShell commonbox) ;;
      let top_z := - 1e-5 in
      top_edges <- edges_on_plane K
                     (fun z => if Rge_dec z top_z then true else false)
                     (Edges K topShell) [] ;;
      let top_wire := Wire (sortEdges K top_edges) in
      let top_face := Face top_wire in
      f0 <- index (Faces K top_face) 0 ;;
      let TheFaces := [f0] in
      let TheFaces := TheFaces ++ Faces K topShell in
      let '(TheShell, TheFaces) :=
        stack_turns K (Z.to_nat (rotations - 2)) (mkVector 0 0 (- P))
                    TheShell TheFaces in
      let '(TheShell, botFaces) :=
        stack_turns K (Z.to_nat (rotations - (rotations - 2))) (mkVector 0 0 (- P))
                    TheShell [] in
      let commonbox := Box (d + 4 * P) (d + 4 * P) (3 * P) in
      let commonbox :=
        Translated (mkVector (- (d + 4 * P) / 2) (- (d + 4 * P) / 2)
                             (- IZR rotations * P + bot_off))
                   commonbox in
      let BotShell := Shell botFaces in
      BotShell <- run (Common BotShell commonbox) ;;
      let bot_z := 1e-5 - IZR rotations * P + bot_off in
      bot_edges <- edges_on_plane K
                     (fun z => if Rle_dec z bot_z then true else false)
                     (Edges K BotShell) [] ;;
      let bot_wire := Wire (sortEdges K bot_edges) in
      let bot_face := Face bot_wire in
      let bot_face := Reversed bot_face in
      let TheFaces := TheFaces ++ Faces K BotShell in
      let TheFaces := TheFaces ++ [bot_face] in
      let TheShell := Shell TheFaces in
      TheSolid <- run (Solid TheShell) ;;
      ret (Some TheSolid)
  | Some da =>
      let cham_i := 2 * H * tan (radians 15) in
      let fm := Reset in
      let da2 := da / 2 in
      let fm := AddPoint fm (da2 - 2 * H) cham_i in
      let fm := AddPoint fm da2 0 in
      let fm := AddPoint fm da2 (- 2.1 * P) in
      let fm := AddPoint fm (da2 - 2 * H) (- 2.1 * P) in
      let bottom_Face := GetFace fm in
      bottom_Solid <- RevolveZ self bottom_Face None ;;
      bottomChamferFace <- index (Faces K bottom_Solid) 0 ;;
      let fm := StartPoint (da / 2 - 2 * H) (l - cham_i) in
      let fm := AddPoint fm (da / 2) l in
      let fm := AddPoint fm (da / 2) (l + 4 * P) in
      let fm := AddPoint fm (da / 2 - 2 * H) (l + 4 * P) in
      let top_Face := GetFace fm in
      top_Solid <- RevolveZ self top_Face None ;;
      topChamferFace <- index (Faces K top_Solid) 0 ;;
      let threeThreadFaces := TheFaces in
      let '(TheShell, threeThreadFaces) :=
        stack_turns K 1 (mkVector 0 0 P) TheShell threeThreadFaces in
      let chamferShell := Shell threeThreadFaces in
      bottomPart <- run (Cut chamferShell bottom_Solid) ;;
      '(bottomFuse, bottomMap) <-
         generalFuse K bottomChamferFace [chamferShell] fuzzyValue ;;
      bottomMap0 <- index bottomMap 0 ;;
      if (List.length bottomMap0 <? 2)%nat then ret None
      else
        bottomMap01 <- index bottomMap0 1 ;;
        let innerThreadFaces := [bottomMap01] in
        let innerThreadFaces := innerThreadFaces ++ Faces K bottomPart in
        let '(TheShell, innerThreadFaces) :=
          stack_turns K (Z.to_nat (rotations - 2 - 1)) (mkVector 0 0 P)
                      TheShell innerThreadFaces in
        let testShell := Shell innerThreadFaces in
        let chamferShell :=
          Translated (mkVector 0 0 ((IZR rotations - 1) * P)) chamferShell in
        topPart <- run (Cut chamferShell top_Solid) ;;
        if (List.length (Faces K chamferShell) <? List.length (Faces K topPart))%nat
        then ret None
        else
          let innerThreadFaces := innerThreadFaces ++ Faces K topPart in
          '(topFuse, topMap) <-
             generalFuse K topChamferFace [chamferShell] fuzzyValue ;;
          topMap0 <- index topMap 0 ;;
          if (List.length topMap0 <? 2)%nat then ret None
          else
            topMap01 <- index topMap0 1 ;;
            let innerThreadFaces := innerThreadFaces ++ [topMap01] in
            let threadShell := Shell innerThreadFaces in
            ret (Some threadShell)
  end.

(** ** FastenerBase.FSGetKey and FastenerBase.FSCache *)

Definition KeyArg_eq_dec (a b : KeyArg) : {a = b} + {a <> b}.
Proof.
  destruct a as [s | x], b as [t | y]; try (right; discriminate).
  - destruct (string_dec s t); [left; congruence | right; congruence].
  - destruct (Req_dec_T x y); [left; congruence | right; congruence].
Defined.

Definition Key_eq_dec (a b : Key) : {a = b} + {a <> b} :=
  list_eq_dec KeyArg_eq_dec a b.

(** Modelled from the spec: the dictionary [FastenerBase.FSCache] is not
    among the sources.  It is the spec's geometry cache, a "mapping from a
    structural key (operation name + ordered parameter values) to a
    previously built shape/pair"; a later entry for a key replaces the
    earlier one.  A key holds real numbers, so the cache is an association
    list searched with the decision of equality on keys. *)
Fixpoint cache_get (c : list (Key * CacheVal)) (key : Key) : option CacheVal :=
  match c with
  | [] => None
  | (k, v) :: c' => if Key_eq_dec k key then Some v else cache_get c' key
  end.

(** Modelled from the spec: [FastenerBase.FSGetKey] is not among the
    sources.  "Each factory call first derives a structural key from
    (operation name, all parameters)"; the call gives the key and the cached
    value, or [None] on a miss.  "Cache lookups never error". *)
Definition FSGetKey (args : list KeyArg) : M (Key * option CacheVal) :=
  fun w => (Ok (args, cache_get (FSCache w) args), w).

(** Modelled from the spec: the assignment [FastenerBase.FSCache[key] = value]. *)
Definition FSCache_set (key : Key) (value : CacheVal) : M unit :=
  fun w => (Ok tt, mkWorld (objects w) ((key, value) :: FSCache w) (journal w)).

(** A shape that is kept beyond the call becomes an object of the store. *)
Definition new_object (o : Obj) : M ref :=
  fun w => (Ok (List.length (objects w)),
            mkWorld (objects w ++ [o]) (FSCache w) (journal w)).

Fixpoint update_nth {A : Type} (n : nat) (f : A -> A) (l : list A) : list A :=
  match l, n with
  | [], _ => []
  | a :: l', O => f a :: l'
  | a :: l', S n' => a :: update_nth n' f l'
  end.

(** [obj.Placement = pl] on a stored object. *)
Definition set_Placement (r : ref) (pl : Placement) : M unit :=
  fun w => (Ok tt,
            mkWorld (update_nth r (fun o => mkObj (geom o) pl) (objects w))
                    (FSCache w) (journal w)).

(** [obj.translate(v)] on a stored object: the base of its placement moves
    by [v]. *)
Definition translate_object (r : ref) (v : Vector) : M unit :=
  fun w =>
    (Ok tt,
     mkWorld
       (update_nth r
          (fun o =>
             mkObj (geom o)
               (mkPlacement
                  (mkVector (vx (Base (obj_Placement o)) + vx v)
                            (vy (Base (obj_Placement o)) + vy v)
                            (vz (Base (obj_Placement o)) + vz v))
                  (Rot (obj_Placement o))))
          (objects w))
       (FSCache w) (journal w)).

(** The object behind a reference. *)
Definition object (w : World) (r : ref) : option Obj := nth_error (objects w) r.

(** [Screw.cutChamfer]; the result is the cached object. *)
Definition cutChamfer (self : Screw) (dia_cC P_cC l_cC : R) : M CacheVal :=
  '(key, res) <- FSGetKey [KStr "CrhamferTool"; KNum dia_cC; KNum P_cC; KNum l_cC] ;;
  match res with
  | Some res => ret res
  | None =>
      let cham_t := P_cC * sqrt3 / 2 * 17 / 24 in
      let dia_cC2 := dia_cC / 2 in
      let fm := Reset in
      let fm := AddPoint fm 0 (- l_cC) in
      let fm := AddPoint fm (dia_cC2 - cham_t) (- l_cC) in
      let fm := AddPoint fm (dia_cC2 + cham_t) (- l_cC + cham_t + cham_t) in
      let fm := AddPoint fm (dia_cC2 + cham_t) (- l_cC - P_cC - cham_t) in
      let fm := AddPoint fm 0 (- l_cC - P_cC - cham_t) in
      let CFace := GetFace fm in
      cyl <- RevolveZ self CFace None ;;
      cyl <- new_object (mkObj cyl identityPlacement) ;;
      FSCache_set key (COne cyl) ;;;
      ret (COne cyl)
  end.

(** ** The recess tools *)

(** The dimension tables [FsData] the recess tools read; they are data of
    the workbench, outside the program.  A size code that a table does not
    hold is a [KeyError]. *)
Record FsDataTables : Type := mkTables {
  (** [FsData["iso10664def"]]: A, B, Re *)
  iso10664def : string -> option (R * R * R);
  (** [FsData["iso4757def"]]: b, e_mean, g, f_mean, r, t1, alpha, beta *)
  iso4757def : string -> option (R * R * R * R * R * R * R * R)
}.

Definition table_get {A : Type} (table : string -> option A) (code : string) : M A :=
  match table code with
  | Some row => ret row
  | None => raise (KeyError code)
  end.

(** The value of an argument that has a default. *)
Definition arg {A : Type} (given : option A) (default : A) : A :=
  match given with Some a => a | None => default end.

(** [math.acos]: a [ValueError] outside of [[-1, 1]]. *)
Definition math_acos (x : R) : M R :=
  if Rlt_dec 1 (Rabs x) then raise ValueError else ret (acos x).

(** [Base.Matrix().rotateZ(a)] applied with [multiply] to a vector. *)
Definition rotateZ (a : R) (v : Vector) : Vector :=
  mkVector (cos a * vx v - sin a * vy v) (sin a * vx v + cos a * vy v) (vz v).

(** [Rotation.multiply]: the product of quaternions. *)
Definition Rotation_multiply (a b : Rotation) : Rotation :=
  mkRotation
    (q3 a * q0 b + q0 a * q3 b + q1 a * q2 b - q2 a * q1 b)
    (q3 a * q1 b - q0 a * q2 b + q1 a * q3 b + q2 a * q0 b)
    (q3 a * q2 b + q0 a * q1 b - q1 a * q0 b + q2 a * q3 b)
    (q3 a * q3 b - q0 a * q0 b - q1 a * q1 b - q2 a * q2 b).

(** A reset of the placement of both members of a cached pair; a cached
    value that is no pair cannot be indexed. *)
Definition reset_pair (res : CacheVal) (pl : Placement) : M unit :=
  match res with
  | CPair r0 r1 => set_Placement r0 pl ;;; set_Placement r1 pl
  | COne _ => raise TypeError
  end.

(** The loop [for i in range(n): polygon.append(vhex); vhex = mhex.multiply(vhex)]. *)
Fixpoint hexagon_points (n : nat) (a : R) (vhex : Vector) (polygon : list Vector)
  : Vector * list Vector :=
  match n with
  | O => (vhex, polygon)
  | S n' => hexagon_points n' a (rotateZ a vhex) (polygon ++ [vhex])
  end.

(** [Screw.makeAllen2] *)
Definition makeAllen2 (self : Screw) (K : Kernel)
    (s_a t_a h_a t_2 : option R) : M CacheVal :=
  let s_a := arg s_a 3 in
  let t_a := arg t_a 1.5 in
  let h_a := arg h_a 2 in
  let t_2 := arg t_2 0 in
  '(key, res) <- FSGetKey [KStr "Allen2Tool"; KNum s_a; KNum t_a; KNum h_a; KNum t_2] ;;
  match res with
  | Some res =>
      reset_pair res (mkPlacement (mkVector 0 0 h_a) (mkRotation 0 0 0 1)) ;;;
      ret res
  | None =>
      let fm := Reset in
      '(fm, hex_depth) <-
        (if Req_dec_T t_2 0 then
           let depth := s_a / 3 in
           let e_cham := 2 * s_a / sqrt 3 in
           let rCone := e_cham / 4 in
           ratio <- truediv (e_cham ^ 2) (depth ^ 2) ;;
           hyp <- truediv (depth * sqrt (ratio + 1) * rCone) e_cham ;;
           slope <- truediv e_cham depth ;;
           let radAlpha := atan slope in
           let radBeta := PI / 2 - radAlpha in
           let zrConeCenter := hyp - depth - t_a in
           let xArc1 := sin radBeta * rCone in
           let zArc1 := zrConeCenter - cos radBeta * rCone in
           let xArc2 := sin (radBeta / 2) * rCone in
           let zArc2 := zrConeCenter - cos (radBeta / 2) * rCone in
           let zArc3 := zrConeCenter - rCone in
           let fm := AddPoint fm 0 (- t_a - depth - depth) in
           let fm := AddPoint fm e_cham (- t_a - depth - depth) in
           let fm := AddPoint fm e_cham (- t_a + depth) in
           let fm := AddPoint fm xArc1 zArc1 in
           let fm := AddArc fm xArc2 zArc2 0 zArc3 in
           let hex_depth := -1 - t_a - depth * 1.1 in
           ret (fm, hex_depth)
         else
           let e_cham := 2 * s_a / sqrt 3 in
           let d_cent := s_a / 3 in
           let depth_cent := d_cent * tan (PI / 6) in
           let depth_cham := (e_cham - d_cent) * tan (PI / 6) in
           let fm := AddPoint fm 0 (- t_2 - depth_cent) in
           let fm := AddPoint fm 0 (- t_2 - depth_cent - depth_cent) in
           let fm := AddPoint fm e_cham (- t_2 - depth_cent - depth_cent) in
           let fm := AddPoint fm e_cham (- t_a + depth_cham) in
           let fm := AddPoint fm d_cent (- t_a) in
           let fm := AddPoint fm d_cent (- t_2) in
           let hex_depth := -1 - t_2 - depth_cent * 1.1 in
           ret (fm, hex_depth)) ;;
      let hFace := GetFace fm in
      roundtool <- RevolveZ self hFace None ;;
      let vhex := mkVector (s_a / sqrt 3) 0 1 in
      let '(vhex, polygon) := hexagon_points 6 (radians 60) vhex [] in
      let polygon := polygon ++ [vhex] in
      let hexagon := Polygon polygon in
      let hexFace := Face hexagon in
      solidHex <- run (Extrude hexFace (mkVector 0 0 hex_depth)) ;;
      allen <- run (Cut solidHex roundtool) ;;
      allen0 <- index (Faces K allen) 0 ;;
      let allenFaces := [allen0] in
      let allenFaces := allenFaces ++ skipn 2 (Faces K allen) in
      let allenShell := Shell allenFaces in
      solidHex <- new_object (mkObj solidHex (mkPlacement (mkVector 0 0 h_a) identityRotation)) ;;
      allenShell <- new_object (mkObj allenShell (mkPlacement (mkVector 0 0 h_a) identityRotation)) ;;
      FSCache_set key (CPair solidHex allenShell) ;;;
      ret (CPair solidHex allenShell)
  end.

(** The loop [for i in range(n)] of [makeIso10664_3] that adds the two arcs
    of each further lobe; the test [i == 5] of the source is never true for
    [i] in [range(5)]. *)
Fixpoint lobe_arcs (n : nat) (a : R) (PntRe1 PntRe2 PntRi PntRi2 : Vector)
    (hexlobWireList : list Shape) : list Shape :=
  match n with
  | O => hexlobWireList
  | S n' =>
      let PntRe1 := rotateZ a PntRe1 in
      let PntRe2' := rotateZ a PntRe2 in
      let edge0 := Arc PntRi2 PntRe1 PntRe2' in
      let PntRi := rotateZ a PntRi in
      let PntRi2 := rotateZ a PntRi2 in
      let edge1 := Arc PntRe2' PntRi PntRi2 in
      lobe_arcs n' a PntRe1 PntRe2' PntRi PntRi2 (hexlobWireList ++ [edge0; edge1])
  end.

(** The loop [for i in range(first, first + n): acc.append(faces[i])]. *)
Fixpoint faces_from (faces : list Shape) (first n : nat) (acc : list Shape)
  : M (list Shape) :=
  match n with
  | O => ret acc
  | S n' =>
      f <- index faces first ;;
      faces_from faces (S first) n' (acc ++ [f])
  end.

(** [Screw.makeIso10664_3] *)
Definition makeIso10664_3 (self : Screw) (K : Kernel) (T : FsDataTables)
    (RType : option string) (t_hl h_hl : option R) : M CacheVal :=
  let RType := arg RType "T20"%string in
  let t_hl := arg t_hl 3 in
  let h_hl := arg h_hl 0 in
  '(key, res) <- FSGetKey [KStr "HexalobularTool"; KStr RType; KNum t_hl; KNum h_hl] ;;
  match res with
  | Some res => ret res
  | None =>
      '(A, B, Re) <- table_get (iso10664def T) RType ;;
      let sqrt_3 := sqrt 3 in
      let depth := A / 4 in
      let offSet := 1 in
      let rCone := A / 4 in
      ratio <- truediv (A ^ 2) (depth ^ 2) ;;
      hyp <- truediv (depth * sqrt (ratio + 1) * rCone) A ;;
      slope <- truediv A depth ;;
      let radAlpha := atan slope in
      let radBeta := PI / 2 - radAlpha in
      let zrConeCenter := hyp - depth - t_hl in
      let xArc1 := sin radBeta * rCone in
      let zArc1 := zrConeCenter - cos radBeta * rCone in
      let xArc2 := sin (radBeta / 2) * rCone in
      let zArc2 := zrConeCenter - cos (radBeta / 2) * rCone in
      let zArc3 := zrConeCenter - rCone in
      let fm := Reset in
      let fm := AddPoint fm 0 (- t_hl - depth - 1) in
      let fm := AddPoint fm A (- t_hl - depth - 1) in
      let fm := AddPoint fm A (- t_hl + depth) in
      let fm := AddPoint fm xArc1 zArc1 in
      let fm := AddArc fm xArc2 zArc2 0 zArc3 in
      let hFace := GetFace fm in
      cutTool <- RevolveZ self hFace None ;;
      Ri <- truediv (- ((B + sqrt_3 * (2 * Re - A)) * B + (A - 4 * Re) * A))
                    (4 * B - 2 * sqrt_3 * A + (4 * sqrt_3 - 8) * Re) ;;
      c1 <- truediv A (4 * Ri + 4 * Re) ;;
      c2 <- truediv (2 * Re) (4 * Ri + 4 * Re) ;;
      ac <- math_acos (c1 - c2) ;;
      let beta := ac - PI / 6 in
      let Rh := (sqrt_3 * (A / 2 - Re)) / 2 in
      let Re_x := A / 2 - Re + Re * sin beta in
      let Re_y := Re * cos beta in
      let Ri_y := B / 4 in
      let Ri_x := sqrt_3 * B / 4 in
      let a60 := radians 60 in
      let hexlobWireList := [] in
      let PntRe0 := mkVector Re_x (- Re_y) offSet in
      let PntRe1 := mkVector (A / 2) 0 offSet in
      let PntRe2 := mkVector Re_x Re_y offSet in
      let edge0 := Arc PntRe0 PntRe1 PntRe2 in
      let hexlobWireList := hexlobWireList ++ [edge0] in
      let PntRi := mkVector Ri_x Ri_y offSet in
      let PntRi2 := rotateZ a60 PntRe0 in
      let edge1 := Arc PntRe2 PntRi PntRi2 in
      let hexlobWireList := hexlobWireList ++ [edge1] in
      let hexlobWireList :=
        lobe_arcs 5 a60 PntRe1 PntRe2 PntRi PntRi2 hexlobWireList in
      let hexlobWire := Wire hexlobWireList in
      let face := Face hexlobWire in
      Helo <- run (Extrude face (mkVector 0 0 (- t_hl - depth - offSet))) ;;
      hexlob <- run (Cut Helo cutTool) ;;
      hexlob0 <- index (Faces K hexlob) 0 ;;
      hexlobFaces <- faces_from (Faces K hexlob) 2 13 [hexlob0] ;;
      let hexlobShell := Shell hexlobFaces in
      hexlobShell <- new_object (mkObj hexlobShell (mkPlacement (mkVector 0 0 h_hl) identityRotation)) ;;
      Helo <- new_object (mkObj Helo (mkPlacement (mkVector 0 0 h_hl) identityRotation)) ;;
      FSCache_set key (CPair Helo hexlobShell) ;;;
      ret (CPair Helo hexlobShell)
  end.

(** The loop [for i in range(n)] of [makeCross_H3]: the corner is turned a
    quarter further and cut out of the cross shell, and the corner shell is
    turned likewise and its faces are collected.  [cutplace] and [addPlace]
    are the placement objects the source reuses in every round. *)
Fixpoint cut_corners (K : Kernel) (n : nat) (pl_rot : Placement)
    (corner : Shape) (corner_Placement cutplace : Placement)
    (cornerShell : Shape) (cornerShell_Placement addPlace : Placement)
    (crossShell : Shape) (crossFaces : list Shape)
  : M (Shape * list Shape) :=
  match n with
  | O => ret (crossShell, crossFaces)
  | S n' =>
      let cutplace :=
        mkPlacement (Base cutplace)
                    (Rotation_multiply (Rot pl_rot) (Rot corner_Placement)) in
      let corner_Placement := cutplace in
      crossShell <- run (Cut crossShell (Located corner_Placement corner)) ;;
      let addPlace :=
        mkPlacement (Base addPlace)
                    (Rotation_multiply (Rot pl_rot) (Rot cornerShell_Placement)) in
      let cornerShell_Placement := addPlace in
      let crossFaces :=
        crossFaces ++ Faces K (Located cornerShell_Placement cornerShell) in
      cut_corners K n' pl_rot corner corner_Placement cutplace
                  cornerShell cornerShell_Placement addPlace crossShell crossFaces
  end.

(** [Screw.makeCross_H3] *)
Definition makeCross_H3 (self : Screw) (K : Kernel) (T : FsDataTables)
    (CrossType : option string) (m h : option R) : M CacheVal :=
  let CrossType := arg CrossType "2"%string in
  let m := arg m 6.9 in
  let h := arg h 0 in
  '(key, res) <- FSGetKey [KStr "CrossRecess"; KStr CrossType; KNum m; KNum h] ;;
  match res with
  | Some res => ret res
  | None =>
      '(b, e_mean, g, f_mean, r, t1, alpha, beta) <-
         table_get (iso4757def T) CrossType ;;
      let rad265 := radians 26.5 in
      let rad28 := radians 28 in
      let tg := (m - g) / 2 / tan rad265 in
      let t_tot := tg + g / 2 * tan rad28 in
      let hm := m / 4 in
      let hmc := m / 2 in
      let rmax := m / 2 + hm * tan rad265 in
      let fm := Reset in
      let fm := AddPoints fm [(0, hm); (rmax, hm); (g / 2, - tg); (0, - t_tot)] in
      let aWire := GetWire fm in
      crossShell <- RevolveZ self aWire None ;;
      cross <- run (Solid crossShell) ;;
      let rad_alpha := radians (alpha / 2) in
      let rad92 := radians (92 / 2) in
      let rad_beta := radians beta in
      ta <- truediv (tan rad_alpha) (cos rad_beta) ;;
      let rad_alpha_p := atan ta in
      t92 <- truediv (tan rad92) (cos rad_beta) ;;
      let rad92_p := atan t92 in
      let tb := tg + (g - b) / 2 * tan rad28 in
      let rbtop := b / 2 + (hmc + tb) * tan rad_beta in
      let rbtot := b / 2 - (t_tot - tb) * tan rad_beta in
      dre <- truediv (e_mean / 2) (tan rad_alpha_p) ;;
      let dx := m / 2 * cos rad92_p in
      let dy := m / 2 * sin rad92_p in
      let PntC0 := mkVector rbtop 0 hmc in
      let PntC1 := mkVector rbtot 0 (- t_tot) in
      let PntC3 := mkVector (rbtot + dre) (e_mean / 2) (- t_tot) in
      let PntC5 := mkVector (rbtot + dre) (- e_mean / 2) (- t_tot) in
      let PntC7 := mkVector (rbtot + dre + 2 * dx) (e_mean + 2 * dy) (- t_tot) in
      let PntC9 := mkVector (rbtot + dre + 2 * dx) (- e_mean - 2 * dy) (- t_tot) in
      let wire_t_tot := Polygon [PntC1; PntC3; PntC7; PntC9; PntC5; PntC1] in
      let edgeC1 := Line PntC0 PntC1 in
      corner <- run (PipeShell (Wire [edgeC1]) [wire_t_tot] true false) ;;
      let rot_axis := mkVector 0 0 1 in
      let sin_res := sin (radians 90 / 2) in
      let cos_res := cos (radians 90 / 2) in
      let rot_axis :=
        mkVector (vx rot_axis * - sin_res) (vy rot_axis * - sin_res)
                 (vz rot_axis * - sin_res) in
      let pl_rot :=
        mkPlacement (Base identityPlacement)
                    (mkRotation (vx rot_axis) (vy rot_axis) (vz rot_axis) cos_res) in
      let corner_Placement := identityPlacement in
      crossShell <- run (Cut crossShell (Located corner_Placement corner)) ;;
      let cutplace := corner_Placement in
      c0 <- index (Faces K corner) 0 ;;
      c1 <- index (Faces K corner) 1 ;;
      c3 <- index (Faces K corner) 3 ;;
      c4 <- index (Faces K corner) 4 ;;
      let cornerFaces := [c0; c1; c3; c4] in
      let cornerShell := Shell cornerFaces in
      cornerShell <- run (Common cornerShell cross) ;;
      let cornerShell_Placement := identityPlacement in
      let addPlace := cornerShell_Placement in
      let crossFaces := Faces K cornerShell in
      '(crossShell, crossFaces) <-
         cut_corners K 3 pl_rot corner corner_Placement cutplace
                     cornerShell cornerShell_Placement addPlace
                     crossShell crossFaces ;;
      crossFaces <- faces_from (Faces K crossShell) 1 5 crossFaces ;;
      let crossShell0 := Shell crossFaces in
      f0 <- index (Faces K crossShell) 0 ;;
      let crossFaces := crossFaces ++ [f0] in
      let crossShell := Shell crossFaces in
      cross <- run (Solid crossShell) ;;
      cross <- new_object (mkObj cross (mkPlacement (mkVector 0 0 h) identityRotation)) ;;
      crossShell0 <-
        new_object (mkObj crossShell0 (mkPlacement (mkVector 0 0 h) identityRotation)) ;;
      FSCache_set key (CPair cross crossShell0) ;;;
      ret (CPair cross crossShell0)
  end.

(** ** Python strings and floats for the length parser *)

(** The values [getLength] is called with and returns. *)
Inductive PyVal : Type :=
| PyInt (z : Z)
| PyFloat (f : float)
| PyStr (s : string).

Definition and_then {A B : Type} (r : result A) (k : A -> result B) : result B :=
  match r with
  | Ok a => k a
  | Raise e => Raise e
  end.

Notation "x <~ r ;; k" := (and_then r (fun x => k))
  (at level 61, r at next level, right associativity).

(** [sub in s] *)
Fixpoint contains (sub s : string) : bool :=
  if String.prefix sub s then true
  else match s with
       | EmptyString => false
       | String _ s' => contains sub s'
       end.

Fixpoint char_in (c : ascii) (chars : string) : bool :=
  match chars with
  | EmptyString => false
  | String c' chars' => if Ascii.eqb c c' then true else char_in c chars'
  end.

Fixpoint lstrip (drop : ascii -> bool) (s : string) : string :=
  match s with
  | EmptyString => EmptyString
  | String c s' => if drop c then lstrip drop s' else s
  end.

Fixpoint rstrip (drop : ascii -> bool) (s : string) : string :=
  match s with
  | EmptyString => EmptyString
  | String c s' =>
      match rstrip drop s' with
      | EmptyString => if drop c then EmptyString else String c EmptyString
      | rest => String c rest
      end
  end.

(** [s.strip(chars)]: the characters of [chars] are removed from both ends. *)
Definition strip (chars : string) (s : string) : string :=
  rstrip (fun c => char_in c chars) (lstrip (fun c => char_in c chars) s).

(** [s.split(sep)] for a separator of one character. *)
Fixpoint split (sep : ascii) (s : string) : list string :=
  match s with
  | EmptyString => [EmptyString]
  | String c s' =>
      if Ascii.eqb c sep then EmptyString :: split sep s'
      else match split sep s' with
           | [] => [String c EmptyString]
           | word :: words => String c word :: words
           end
  end.

(** The decimal number [(-1)^sign * m * 10^e] rounded to the nearest
    binary64 number, ties to even: the value Python gives a decimal
    literal. *)
Definition round_decimal (sign : bool) (m e : Z) : float :=
  match m with
  | Zpos mp =>
      match e with
      | Zneg ep =>
          SF2Prim (SFdiv prec emax (S754_finite sign mp 0)
                         (S754_finite false (Pos.pow 10 ep) 0))
      | _ =>
          let n := (m * 10 ^ e)%Z in
          SF2Prim (binary_normalize prec emax (if sign then (- n)%Z else n) 0 sign)
      end
  | _ => if sign then (- 0)%float else 0%float
  end.

Definition digit_of (c : ascii) : option Z :=
  let n := nat_of_ascii c in
  if ((48 <=? n) && (n <=? 57))%nat then Some (Z.of_nat (n - 48)) else None.

(** The rest of a digit part: digits, each of which a single underscore may
    precede.  Gives the number read, how many digits it has, and what
    follows. *)
Fixpoint digits_rest (l : list ascii) (acc count : Z) : Z * Z * list ascii :=
  match l with
  | c :: l' =>
      match digit_of c with
      | Some d => digits_rest l' (10 * acc + d) (count + 1)
      | None =>
          if Ascii.eqb c "_" then
            match l' with
            | c2 :: l'' =>
                match digit_of c2 with
                | Some d => digits_rest l'' (10 * acc + d) (count + 1)
                | None => (acc, count, l)
                end
            | [] => (acc, count, l)
            end
          else (acc, count, l)
      end
  | [] => (acc, count, l)
  end.

(** A digit part that continues the number [acc]. *)
Definition digitpart (l : list ascii) (acc : Z) : option (Z * Z * list ascii) :=
  match l with
  | c :: l' =>
      match digit_of c with
      | Some d => Some (digits_rest l' (10 * acc + d) 1)
      | None => None
      end
  | [] => None
  end.

(** An optional sign: [true] for a minus. *)
Definition sign_of (l : list ascii) : bool * list ascii :=
  match l with
  | c :: l' =>
      if Ascii.eqb c "-" then (true, l')
      else if Ascii.eqb c "+" then (false, l')
      else (false, l)
  | [] => (false, l)
  end.

(** The optional exponent and the end of the literal. *)
Definition exponent_of (l : list ascii) : option Z :=
  match l with
  | [] => Some 0%Z
  | c :: l' =>
      if (Ascii.eqb c "e" || Ascii.eqb c "E")%bool then
        let '(neg, l'') := sign_of l' in
        match digitpart l'' 0 with
        | Some (x, _, []) => Some (if neg then (- x)%Z else x)
        | _ => None
        end
      else None
  end.

(** A decimal literal without its sign: mantissa and exponent. *)
Definition decimal_of (l : list ascii) : option (Z * Z) :=
  match l with
  | c :: l' =>
      if Ascii.eqb c "." then
        match digitpart l' 0 with
        | Some (m, n, rest) =>
            match exponent_of rest with
            | Some x => Some (m, (x - n)%Z)
            | None => None
            end
        | None => None
        end
      else
        match digitpart l 0 with
        | Some (i, _, rest) =>
            match rest with
            | dot :: rest' =>
                if Ascii.eqb dot "." then
                  match digitpart rest' i with
                  | Some (m, n, rest'') =>
                      match exponent_of rest'' with
                      | Some x => Some (m, (x - n)%Z)
                      | None => None
                      end
                  | None =>
                      match exponent_of rest' with
                      | Some x => Some (i, x)
                      | None => None
                      end
                  end
                else
                  match exponent_of rest with
                  | Some x => Some (i, x)
                  | None => None
                  end
            | [] => Some (i, 0%Z)
            end
        | None => None
        end
  | [] => None
  end.

Definition lower (c : ascii) : ascii :=
  let n := nat_of_ascii c in
  if ((65 <=? n) && (n <=? 90))%nat then ascii_of_nat (n + 32) else c.

(** The characters [float] drops around a literal.  A character of a
    string is a code point below 256: of those below 127 the C white space
    (9 to 13, and 32; not the separators 28 to 31, which [str.strip] would
    drop), of the others the Unicode white space (133 and 160), which
    [float] turns into spaces first. *)
Definition is_space (c : ascii) : bool :=
  let n := nat_of_ascii c in
  (((9 <=? n) && (n <=? 13)) || (n =? 32) || (n =? 133) || (n =? 160))%nat.

(** Python's [float(s)] on a string: white space around the literal is
    dropped; the literal is a signed decimal number with an optional
    fraction and exponent, or a signed [inf], [infinity] or [nan] in any
    case; anything else is a [ValueError]. *)
Definition py_float (s : string) : result float :=
  let body := list_ascii_of_string (rstrip is_space (lstrip is_space s)) in
  let '(neg, l) := sign_of body in
  let word := string_of_list_ascii (map lower l) in
  if (String.eqb word "inf" || String.eqb word "infinity")%bool then
    Ok (if neg then neg_infinity else infinity)
  else if String.eqb word "nan" then Ok nan
  else
    match decimal_of l with
    | Some (m, e) => Ok (round_decimal neg m e)
    | None => Raise ValueError
    end.

(** The loop of [getLength] over the components of an inch expression. *)
Fixpoint sum_components (components : list string) (total : float) : result float :=
  match components with
  | [] => Ok total
  | item :: rest =>
      if contains "/" item then
        let subcmpts := split "/" item in
        match subcmpts with
        | s0 :: s1 :: _ =>
            a <~ py_float s0 ;;
            b <~ py_float s1 ;;
            if (b =? 0)%float then Raise ZeroDivisionError
            else sum_components rest (total + a / b)%float
        | _ => Raise IndexError
        end
      else
        a <~ py_float item ;;
        sum_components rest (total + a)%float
  end.

(** [Screw.getLength] *)
Definition getLength (LenStr : PyVal) : result PyVal :=
  match LenStr with
  | PyInt z => Ok (PyInt z)
  | PyFloat _ => Raise TypeError
  | PyStr LenStr =>
      if negb (contains "in" LenStr) then
        LenFloat <~ py_float LenStr ;;
        Ok (PyFloat LenFloat)
      else
        let components := split " " (strip "in" LenStr) in
        total <~ sum_components components 0%float ;;
        let LenFloat := (total * 25.4)%float in
        Ok (PyFloat LenFloat)
  end.

(** The reading of an inch expression in the words of the spec: the terms
    are separated by spaces; a term is a whole number or a fraction,
    numerator and denominator separated by [/]; the sum of the terms, taken
    from left to right, is multiplied by 25.4. *)
Definition term_value (term : string) : result float :=
  match split "/" term with
  | numerator :: denominator :: _ =>
      a <~ py_float numerator ;;
      b <~ py_float denominator ;;
      if (b =? 0)%float then Raise ZeroDivisionError else Ok (a / b)%float
  | [whole] => py_float whole
  | [] => Raise IndexError
  end.

Fixpoint sum_terms (terms : list string) (total : float) : result float :=
  match terms with
  | [] => Ok total
  | term :: rest =>
      v <~ term_value term ;;
      sum_terms rest (total + v)%float
  end.

Definition inch_length (s : string) : result PyVal :=
  total <~ sum_terms (split " " (strip "in" s)) 0%float ;;
  Ok (PyFloat (total * 25.4)%float).

Definition plain_decimal (s : string) : result PyVal :=
  f <~ py_float s ;;
  Ok (PyFloat f).

(** A plain decimal of digits only, in the words of the spec: the string
    of the decimal digits [ds], and the whole number it writes. *)
Definition digit_char (d : nat) : ascii := ascii_of_nat (48 + d).

Definition digits_string (ds : list nat) : string :=
  string_of_list_ascii (map digit_char ds).

Definition digits_value (ds : list nat) : Z :=
  fold_left (fun a d => (10 * a + Z.of_nat d)%Z) ds 0%Z.

(** ** Reading the axial extent of a shape from its term *)

Definition Vector_eq_dec (u v : Vector) : {u = v} + {u <> v}.
Proof.
  destruct u as [ux uy uz], v as [wx wy wz].
  destruct (Req_dec_T ux wx); [| right; congruence].
  destruct (Req_dec_T uy wy); [| right; congruence].
  destruct (Req_dec_T uz wz); [| right; congruence].
  left; congruence.
Defined.

Definition hull (i j : R * R) : R * R :=
  (Rmin (fst i) (fst j), Rmax (snd i) (snd j)).

(** The interval of z the shape spans, for the terms where the interval can
    be read off: segments, helices (from 0 to their height), wires and faces
    of those, a revolution about the z axis, a translation, and the half
    turn about the x axis. *)
Fixpoint zspan (s : Shape) : option (R * R) :=
  match s with
  | Line p q => Some (Rmin (vz p) (vz q), Rmax (vz p) (vz q))
  | LongHelix _ height _ _ _ => Some (Rmin 0 height, Rmax 0 height)
  | Wire edges =>
      (fix spans (l : list Shape) : option (R * R) :=
         match l with
         | [] => None
         | [e] => zspan e
         | e :: l' =>
             match zspan e, spans l' with
             | Some i, Some j => Some (hull i j)
             | _, _ => None
             end
         end) edges
  | Face w => zspan w
  | Revolve profile center axis _ =>
      if Vector_eq_dec center (mkVector 0 0 0) then
        if Vector_eq_dec axis (mkVector 0 0 1) then zspan profile else None
      else None
  | Translated v s' =>
      match zspan s' with
      | Some (lo, hi) => Some (lo + vz v, hi + vz v)
      | None => None
      end
  | Rotated center axis angle s' =>
      if Vector_eq_dec center (mkVector 0 0 0) then
        if Vector_eq_dec axis (mkVector 1 0 0) then
          if Req_dec_T angle 180 then
            match zspan s' with
            | Some (lo, hi) => Some (- hi, - lo)
            | None => None
            end
          else None
        else None
      else None
  | _ => None
  end.

(** The axial extent: the length of the interval. *)
Definition axial_extent (s : Shape) : option R :=
  match zspan s with
  | Some (lo, hi) => Some (hi - lo)
  | None => None
  end.

(** ** Named parts of the thread builders

    The profile and the sweep path of [CreateThreadCutter] and the blank and
    the cap profile of [makeShellthread], as the source builds them, under
    names of their own so that statements can refer to them. *)

Definition thread_turns (P blen : R) : R := IZR (Zfloor (blen / P)) + 1.

Definition thread_profile_wire (dia P blen : R) : Shape :=
  let H := sqrt 3 / 2 * P in
  let fillet_r := P * sqrt 3 / 12 in
  let dia2 := dia / 2 in
  Translated (mkVector 0 0 (-1 * (thread_turns P blen * P)))
    (Wire [ Line (mkVector (dia2 + sqrt3 * 3 / 80 * P) 0 (-0.475 * P))
                 (mkVector (dia2 - 0.625 * H) 0 (-1 * P / 8));
            Arc (mkVector (dia2 - 0.625 * H) 0 (-1 * P / 8))
                (mkVector (dia2 - 0.625 * H - 0.5 * fillet_r) 0 0)
                (mkVector (dia2 - 0.625 * H) 0 (P / 8));
            Line (mkVector (dia2 - 0.625 * H) 0 (P / 8))
                 (mkVector (dia2 + sqrt3 * 3 / 80 * P) 0 (0.475 * P));
            Line (mkVector (dia2 + sqrt3 * 3 / 80 * P) 0 (0.475 * P))
                 (mkVector (dia2 + sqrt3 * 3 / 80 * P) 0 (-0.475 * P)) ]).

Definition main_helix (self : Screw) (dia P blen : R) : Shape :=
  Rotated (mkVector 0 0 0) (mkVector 1 0 0) 180
    (LongHelix P (thread_turns P blen * P) (dia / 2) 0 (leftHanded self)).

Definition lead_out_helix (self : Screw) (dia P : R) : Shape :=
  let H := sqrt 3 / 2 * P in
  let fillet_r := P * sqrt 3 / 12 in
  Translated (mkVector (0.5 * (-1 * (5 / 8 * H + 0.5 * fillet_r))) 0 0)
    (LongHelix P (P / 2) (dia / 2 + 0.5 * (5 / 8 * H + 0.5 * fillet_r)) 0
               (leftHanded self)).

Definition sweep_path (self : Screw) (dia P blen : R) : Shape :=
  Wire [main_helix self dia P blen; lead_out_helix self dia P].

(** The value [sweep.shape()] of a sweep that was built and made solid. *)
Definition thread_cutter (self : Screw) (dia P blen : R) : Shape :=
  MakePipeShell (sweep_path self dia P blen) [thread_profile_wire dia P blen]
                true 1 true.

Definition sweep_error : exn :=
  RuntimeError "Failed to create shell thread: could not sweep thread".

Definition base_profile (dia P blen : R) (withcham : bool) : Shape :=
  let dia2 := dia / 2 in
  let corr_blen := blen - 1e-5 in
  let p0 := mkVector dia2 0 0 in
  let p3 := mkVector 0 0 (- corr_blen) in
  let p4 := mkVector 0 0 0 in
  if withcham then
    let p1 := mkVector dia2 0 (- blen + P / 2) in
    let p2 := mkVector (dia2 - P / 2) 0 (- corr_blen) in
    Wire [Line p0 p1; Line p1 p2; Line p2 p3; Line p3 p4; Line p4 p0]
  else
    let p5 := mkVector dia2 0 (- corr_blen) in
    Wire [Line p0 p5; Line p5 p3; Line p3 p4; Line p4 p0].

Definition base_body (dia P blen : R) (withcham : bool) : Shape :=
  Solid (Revolve (base_profile dia P blen withcham)
                 (mkVector 0 0 0) (mkVector 0 0 1) 360).

Definition cap_shell (dia : R) : Shape :=
  let dia2 := dia / 2 in
  Revolve (Wire [ Line (mkVector 0 0 0) (mkVector dia2 0 0);
                  Line (mkVector dia2 0 0) (mkVector 0 0 (- dia2));
                  Line (mkVector 0 0 (- dia2)) (mkVector 0 0 0) ])
          (mkVector 0 0 0) (mkVector 0 0 1) 360.

(** The threaded length [makeShellthread] works with: the body length when
    the argument is absent or negative. *)
Definition threaded_length (blen : R) (tlen : option R) : R :=
  let t := match tlen with Some t => t | None => -1 end in
  if Rlt_dec t 0 then blen else t.

(** The top faces [makeShellthread] drops. *)
Definition not_on_top (K : Kernel) (x : Shape) : bool :=
  if Rlt_dec (Rabs (vz (CenterOfMass K x))) 1e-7 then false else true.

(** Entering shapes in the journal, the last one of the list first. *)
Definition journalled (new : list Shape) (w : World) : World :=
  mkWorld (objects w) (FSCache w) (new ++ journal w).

(** The offset by which [makeShellthread] lowers the cutter. *)
Definition cutter_offset (P blen : R) (tlen : option R) : R :=
  Rmax (blen - threaded_length blen tlen + P / 2) (5 * P / 8).

Definition threaded_solid (self : Screw) (dia P blen : R) (withcham : bool)
    (tlen : option R) : Shape :=
  Cut (Rotated (mkVector 0 0 0) (mkVector 0 0 1) 90 (base_body dia P blen withcham))
      (Translated (mkVector 0 0 (- cutter_offset P blen tlen))
                  (thread_cutter self dia P blen)).

(** ** Named parts of the nut thread

    The shapes the nut branch of [makeInnerThread_2] builds and the three
    tests it makes, under names of their own. *)

(** One turn of the internal profile, swept along one turn of the helix. *)
Definition thread_strip (self : Screw) (d P : R) : Shape :=
  let H := P * cos30 in
  let r := d / 2 in
  PipeShell
    (Wire [Translated (mkVector 0 0 (- P * 9 / 16))
             (LongHelix P P (d * Tuner self / 1000) 0 (leftHanded self))])
    [Wire [ Line (mkVector r 0 0) (mkVector (r - H * 5 / 8) 0 (- P * 5 / 16));
            Line (mkVector (r - H * 5 / 8) 0 (- P * 5 / 16))
                 (mkVector (r - H * 5 / 8) 0 (- P * 9 / 16));
            Line (mkVector (r - H * 5 / 8) 0 (- P * 9 / 16))
                 (mkVector r 0 (- P * 14 / 16));
            Arc (mkVector r 0 (- P * 14 / 16))
                (mkVector (r + H * 1 / 24) 0 (- P * 31 / 32))
                (mkVector r 0 (- P)) ]]
    false true.

(** The length of the inner chamfer. *)
Definition cham_i (P : R) : R := 2 * (P * cos30) * tan (radians 15).

Definition bottom_Solid (P da : R) : Shape :=
  let H := P * cos30 in
  let da2 := da / 2 in
  let p0 := mkVector (da2 - 2 * H) 0 (cham_i P) in
  let p1 := mkVector da2 0 0 in
  let p2 := mkVector da2 0 (- 2.1 * P) in
  let p3 := mkVector (da2 - 2 * H) 0 (- 2.1 * P) in
  Revolve (Face (Wire [Line p0 p1; Line p1 p2; Line p2 p3; Line p3 p0]))
          (mkVector 0 0 0) (mkVector 0 0 1) 360.

Definition top_Solid (P da l : R) : Shape :=
  let H := P * cos30 in
  let p0 := mkVector (da / 2 - 2 * H) 0 (l - cham_i P) in
  let p1 := mkVector (da / 2) 0 l in
  let p2 := mkVector (da / 2) 0 (l + 4 * P) in
  let p3 := mkVector (da / 2 - 2 * H) 0 (l + 4 * P) in
  Revolve (Face (Wire [Line p0 p1; Line p1 p2; Line p2 p3; Line p3 p0]))
          (mkVector 0 0 0) (mkVector 0 0 1) 360.

(** The first face of a shape, [s.Faces[0]], where there is one. *)
Definition first_face (K : Kernel) (s : Shape) : Shape := nth 0 (Faces K s) s.

(** Two turns of the strip, the shell the chamfers are cut from. *)
Definition chamferShell (self : Screw) (K : Kernel) (d P : R) : Shape :=
  Shell (Faces K (thread_strip self d P)
         ++ Faces K (Translated (mkVector 0 0 P) (thread_strip self d P))).

(** The same shell, raised to the top of the nut. *)
Definition top_chamferShell (self : Screw) (K : Kernel) (d P : R) (rotations : Z)
  : Shape :=
  Translated (mkVector 0 0 ((IZR rotations - 1) * P)) (chamferShell self K d P).

(** The pieces the bottom general fuse maps the chamfer face to. *)
Definition bottomMap0 (self : Screw) (K : Kernel) (d P da : R) : list Shape :=
  nth 0 (generalFuseMap K (first_face K (bottom_Solid P da))
                        [chamferShell self K d P] 5e-4) [].

(** The pieces the top general fuse maps the chamfer face to. *)
Definition topMap0 (self : Screw) (K : Kernel) (d P : R) (rotations : Z) (da l : R)
  : list Shape :=
  nth 0 (generalFuseMap K (first_face K (top_Solid P da l))
                        [top_chamferShell self K d P rotations] 5e-4) [].

(** The bottom general fuse maps fewer than two shapes. *)
Definition bottom_fuse_fails (self : Screw) (K : Kernel) (d P da : R) : Prop :=
  (List.length (bottomMap0 self K d P da) < 2)%nat.

(** The top chamfer cut has more faces than the shell it cuts. *)
Definition top_cut_fails (self : Screw) (K : Kernel) (d P : R) (rotations : Z)
    (da l : R) : Prop :=
  (List.length (Faces K (top_chamferShell self K d P rotations))
   < List.length (Faces K (Cut (top_chamferShell self K d P rotations)
                               (top_Solid P da l))))%nat.

(** The top general fuse maps fewer than two shapes. *)
Definition top_fuse_fails (self : Screw) (K : Kernel) (d P : R) (rotations : Z)
    (da l : R) : Prop :=
  (List.length (topMap0 self K d P rotations da l) < 2)%nat.

(** The kernel algorithms of the nut branch, in the order they run. *)
Definition nut_bottom_steps (self : Screw) (K : Kernel) (d P da l : R) : list Shape :=
  [ thread_strip self d P;
    bottom_Solid P da;
    top_Solid P da l;
    Cut (chamferShell self K d P) (bottom_Solid P da);
    GeneralFuse (first_face K (bottom_Solid P da)) [chamferShell self K d P] 5e-4 ].

Definition nut_top_cut_step (self : Screw) (K : Kernel) (d P : R) (rotations : Z)
    (da l : R) : Shape :=
  Cut (top_chamferShell self K d P rotations) (top_Solid P da l).

Definition nut_top_fuse_step (self : Screw) (K : Kernel) (d P : R) (rotations : Z)
    (da l : R) : Shape :=
  GeneralFuse (first_face K (top_Solid P da l))
              [top_chamferShell self K d P rotations] 5e-4.

(** The general-fuse entries of a journal, with their tolerances. *)
Definition fuse_tolerances (j : list Shape) : list R :=
  flat_map (fun s => match s with GeneralFuse _ _ tol => [tol] | _ => [] end) j.

(** ** Named parts of the chamfer cutter *)

Definition cham_t (P : R) : R := P * sqrt3 / 2 * 17 / 24.

Definition chamfer_key (dia P l : R) : Key :=
  [KStr "CrhamferTool"; KNum dia; KNum P; KNum l].

(** The solid [cutChamfer] revolves. *)
Definition chamfer_cutter (dia P l : R) : Shape :=
  let c := cham_t P in
  let p0 := mkVector 0 0 (- l) in
  let p1 := mkVector (dia / 2 - c) 0 (- l) in
  let p2 := mkVector (dia / 2 + c) 0 (- l + c + c) in
  let p3 := mkVector (dia / 2 + c) 0 (- l - P - c) in
  let p4 := mkVector 0 0 (- l - P - c) in
  Revolve (Face (Wire [Line p0 p1; Line p1 p2; Line p2 p3; Line p3 p4; Line p4 p0]))
          (mkVector 0 0 0) (mkVector 0 0 1) 360.

(** A shape made with a boolean operation at its root. *)
Definition is_boolean (s : Shape) : bool :=
  match s with
  | Cut _ _ | Common _ _ | Fuse _ _ | GeneralFuse _ _ _ => true
  | _ => false
  end.

(** ** Named parts of the recess tools *)

Definition allen_key (s_a t_a h_a t_2 : R) : Key :=
  [KStr "Allen2Tool"; KNum s_a; KNum t_a; KNum h_a; KNum t_2].

Definition hexalobular_key (RType : string) (t_hl h_hl : R) : Key :=
  [KStr "HexalobularTool"; KStr RType; KNum t_hl; KNum h_hl].

Definition cross_key (CrossType : string) (m h : R) : Key :=
  [KStr "CrossRecess"; KStr CrossType; KNum m; KNum h].

(** The placement at height [h], unrotated. *)
Definition at_height (h : R) : Placement :=
  mkPlacement (mkVector 0 0 h) (mkRotation 0 0 0 1).

(** The height a stored object is placed at. *)
Definition height (w : World) (r : ref) : option R :=
  match object w r with
  | Some o => Some (vz (Base (obj_Placement o)))
  | None => None
  end.

(** Tables for examples, with a row for the hexalobular size T20
    (A, B, Re in millimetres). *)
Definition exampleTables : FsDataTables :=
  mkTables (fun code => if string_dec code "T20" then Some (3.95, 2.85, 0.305) else None)
           (fun _ => None).

(** A kernel for examples: every sweep is ready, a shape has sixteen faces,
    and a general fuse maps each argument to two pieces. *)
Definition exampleKernel : Kernel :=
  mkKernel (fun _ _ => true)
           (fun s => map (SubShape s) (seq 0 16))
           (fun s => [SubShape s 0])
           (fun _ => [origin; origin])
           (fun _ => mkVector 0 0 1)
           (fun a others _ => map (fun s => [SubShape s 0; SubShape s 1]) (a :: others))
           (fun l => l).

(** A kernel whose general fuse finds no shared piece: each argument is
    mapped to itself alone. *)
Definition looseKernel : Kernel :=
  mkKernel (isReady exampleKernel)
           (Faces exampleKernel) (Edges exampleKernel) (Vertexes exampleKernel)
           (CenterOfMass exampleKernel)
           (fun a others _ => map (fun s => [s]) (a :: others))
           (sortEdges exampleKernel).

(** A kernel whose sweeps are never ready. *)
Definition stuckKernel : Kernel :=
  mkKernel (fun _ _ => false)
           (Faces exampleKernel) (Edges exampleKernel) (Vertexes exampleKernel)
           (CenterOfMass exampleKernel) (generalFuseMap exampleKernel)
           (sortEdges exampleKernel).

(** ** The other methods of the class *)

Definition tip_error : exn := RuntimeError "Failed to create woodscrew tip thread".
Definition body_error : exn := RuntimeError "Failed to create woodscrew body thread".

(** *** The rounded quotient

    The geometry is over the real numbers, but [math.floor(tipH / p)]
    floors the quotient Python has rounded to binary64, and the floor can
    differ from that of the exact quotient (for the doubles next to 7.8
    and 2.6 the quotient is below 3 and rounds to 3).  [binary64 x] is the
    number with 53 significant bits nearest to [x], ties to even; the
    exponent range of binary64 (overflow, subnormal numbers) is left out. *)

Definition round_half_even (y : R) : Z :=
  let f := Zfloor y in
  if Rlt_dec (y - IZR f) (1 / 2) then f
  else if Rlt_dec (1 / 2) (y - IZR f) then (f + 1)%Z
  else if Z.even f then f else (f + 1)%Z.

(** The exponent [e] of the leading bit: [2^e <= |x| < 2^(e+1)]. *)
Definition leading_bit (x : R) : Z := Zfloor (ln (Rabs x) / ln 2).

Definition binary64 (x : R) : R :=
  if Req_dec_T x 0 then 0
  else
    let e := leading_bit x in
    IZR (round_half_even (x * powerRZ 2 (52 - e))) * powerRZ 2 (e - 52).

(** [Screw.makeDin7998Thread] *)
Definition makeDin7998Thread (self : Screw) (K : Kernel)
    (zs ze zt ri ro p : R) : M Shape :=
  let epsilon := 0.03 in
  let tph := ro - ri in
  let tphb := tph / tan (radians 60) in
  let tpratio := 0.5 in
  let tph2 := tph * tpratio in
  let tphb2 := tphb * tpratio in
  let tipH := ze - zt in
  let fm := Reset in
  let fm := AddPoints fm [(0, - tphb2); (0, tphb2); (2 * tphb2, tphb2)] in
  let aWire := GetClosedWire fm in
  let aWire := Translated (mkVector epsilon 0 (3 * tphb2)) aWire in
  let fm := Reset in
  let fm := AddPoints fm [(0, - tphb); (0, tphb); (tph, 0)] in
  let bWire := GetClosedWire fm in
  let bWire := Translated (mkVector (ri - epsilon) 0 (tphb + tipH)) bWire in
  q <- truediv tipH p ;;
  let numTurns := IZR (Zfloor (binary64 q)) in
  let hlx := LongHelix p (numTurns * p) 5 0 (leftHanded self) in
  tip_solid <-
    (if isReady K hlx [aWire; bWire] then
       _ <- run (MakePipeShell hlx [aWire; bWire] true 1 false) ;;
       tip_solid <- run (MakePipeShell hlx [aWire; bWire] true 1 true) ;;
       ret (Translated (mkVector 0 0 zt) tip_solid)
     else raise tip_error) ;;
  let hlx := LongHelix p (zs - ze) 5 0 (leftHanded self) in
  let hlx := Translated (mkVector 0 0 tipH) hlx in
  body_solid <-
    (if isReady K hlx [bWire] then
       _ <- run (MakePipeShell hlx [bWire] true 1 false) ;;
       body_solid <- run (MakePipeShell hlx [bWire] true 1 true) ;;
       ret (Translated (mkVector 0 0 zt) body_solid)
     else raise body_error) ;;
  thread_solid <- run (Fuse body_solid tip_solid) ;;
  let thread_solid :=
    Rotated (mkVector 0 0 0) (mkVector 0 0 1) 180 thread_solid in
  ret thread_solid.

(** [Screw.makeHextool] *)
Definition makeHextool (self : Screw) (s_hex k_hex cir_hex : R) : M Shape :=
  let vhex := mkVector (s_hex / sqrt 3) 0 (- k_hex * 0.1) in
  let '(vhex, polygon) := hexagon_points 6 (radians 60) vhex [] in
  let polygon := polygon ++ [vhex] in
  let hexagon := Polygon polygon in
  let hexagon := Face hexagon in
  let circ := Circle (cir_hex / 2) (mkVector 0 0 (- k_hex * 0.1)) in
  let circ := Face (Wire [circ]) in
  face <- run (Cut circ hexagon) ;;
  exHex <- run (Extrude face (mkVector 0 0 (k_hex * 1.2))) ;;
  ret exHex.

(** [Screw.CreateInnerThreadCutter] *)
Definition CreateInnerThreadCutter (self : Screw) (dia P blen : R) : M Shape :=
  let H := P * cos30 in
  let r := dia / 2 in
  q <- floordiv blen P ;;
  let height := q + 2 in
  let helix := LongHelix P height (dia * Tuner self / 1000) 0 (leftHanded self) in
  let helix := Translated (mkVector 0 0 (- P * 9 / 16)) helix in
  let fm := Reset in
  let fm := AddPoint fm (r - H * 5 / 8) (P * 7 / 16) in
  let fm := AddPoint fm r (P * 2 / 16) in
  let fm := AddArc fm (r + H * 1 / 24) (P * 2 / 32) r 0 in
  let fm := AddPoint fm (r - H * 5 / 8) (- P * 5 / 16) in
  let W0 := GetClosedWire fm in
  let W0 := Translated (mkVector 0 0 (- P)) W0 in
  let makeSolid := true in
  let isFrenet := true in
  cutTool <- run (PipeShell (Wire [helix]) [W0] makeSolid isFrenet) ;;
  ret cutTool.

(** [Screw.setTuner]; [myTuner = None] is the default [511].  The method
    assigns to [self.Tuner]: the object after the call is returned. *)
Definition setTuner (self : Screw) (myTuner : option R) : Screw :=
  mkScrew (objAvailable self) (arg myTuner 511) (leftHanded self)
          (sm3DPrintMode self) (smNutThrScaleA self) (smNutThrScaleB self)
          (smScrewThrScaleA self) (smScrewThrScaleB self).

(** The argument [ThreadDiam] of [getDia]: a size label or a number. *)
Inductive DiaArg : Type :=
| DiaLabel (s : string)
| DiaNumber (x : R).

(** [Screw.getDia].  [DiaList] is the table [FsData["DiaList"]], data of the
    workbench outside the program: a label it does not hold is a
    [KeyError], and the diameter is the first entry of the row. *)
Definition getDia (self : Screw) (DiaList : string -> option (list R))
    (ThreadDiam : DiaArg) (isNut : bool) : result R :=
  dia <~ match ThreadDiam with
         | DiaLabel s =>
             let threadstring := strip "()" s in
             match DiaList threadstring with
             | Some row =>
                 match row with
                 | d :: _ => Ok d
                 | [] => Raise IndexError
                 end
             | None => Raise (KeyError threadstring)
             end
         | DiaNumber x => Ok x
         end ;;
  if sm3DPrintMode self then
    if isNut then Ok (smNutThrScaleA self * dia + smNutThrScaleB self)
    else Ok (smScrewThrScaleA self * dia + smScrewThrScaleB self)
  else Ok dia.

(** ** createScrew *)

(** The object [fastenerAttribs] as far as [createScrew] reads and writes
    it. *)
Record FastenerAttribs : Type := mkAttribs {
  calc_len : option PyVal;
  fa_type : string;
  diameter : string;
  fa_leftHanded : bool;
  dimTable : option (list R)
}.

(** What a called method hands back: a shape, [None], or another value,
    each of which [createScrew] returns as it is. *)
Inductive Value : Type :=
| VShape (s : Shape)
| VNone
| VOther (v : PyVal).

(** A builder of the package [FsFunctions], or a method of the class, called
    as [self.name(fastenerAttribs)]: it works on the world and returns a
    value or raises.  What a method writes to the object or to the
    attributes is not modelled (the builders of [FsFunctions] are not among
    the sources; of the methods of the class, [setTuner] called this way
    stores the attributes as the tuner and returns [None]). *)
Definition Builder : Type := Screw -> FastenerAttribs -> M Value.

(** An attribute: a method that can be called, or a value that cannot. *)
Inductive Attr : Type :=
| Method (b : Builder)
| Data.

(** What [getattr(importlib.import_module("FsFunctions.FS" + name), name)]
    gives. *)
Inductive Import : Type :=
| Loaded (a : Attr)
| NoAttribute
| NoModule.

(** What [createScrew] finds around it: the attributes of the object and
    its class (which [setattr] extends), the package [FsFunctions], the
    tables [FsData] and the console. *)
Record Host : Type := mkHost {
  attrs : string -> option Attr;
  FsFunctions : string -> Import;
  FsData : string -> option (string -> option (list R));
  Console : list string
}.

(** The exceptions of [createScrew]: those of the class and the two of a
    failed import. *)
Inductive raised : Type :=
| Exn (e : exn)
| ModuleNotFoundError (name : string)
| AttributeError (name : string).

(** What a call of [createScrew] leaves behind. *)
Record Session : Type := mkSession {
  the_screw : Screw;
  the_attribs : FastenerAttribs;
  the_host : Host;
  the_world : World
}.

(** The outcome of [createScrew]: [Returns None] is Python's [None],
    [Returns (Some screw)] a shape, [ReturnsOther] any other value. *)
Inductive outcome : Type :=
| Returns (screw : option Shape)
| ReturnsOther (v : PyVal)
| Raises (e : raised).

Definition newline : string := String (ascii_of_nat 10) EmptyString.

Definition length_message : string :=
  "Error! nom_dia and length values must be valid numbers!" ++ newline.

Definition no_function_message (type : string) : string :=
  "No suitable function for " ++ type ++ " Screw Type!" ++ newline.

Definition PrintMessage (msg : string) (h : Host) : Host :=
  mkHost (attrs h) (FsFunctions h) (FsData h) (Console h ++ [msg]).

(** [setattr(Screw, name, a)] *)
Definition setattr (name : string) (a : Attr) (h : Host) : Host :=
  mkHost (fun n => if String.eqb n name then Some a else attrs h n)
         (FsFunctions h) (FsData h) (Console h).

Definition with_calc_len (fa : FastenerAttribs) (len : option PyVal) : FastenerAttribs :=
  mkAttribs len (fa_type fa) (diameter fa) (fa_leftHanded fa) (dimTable fa).

Definition with_dimTable (fa : FastenerAttribs) (row : option (list R)) : FastenerAttribs :=
  mkAttribs (calc_len fa) (fa_type fa) (diameter fa) (fa_leftHanded fa) row.

Definition with_leftHanded (self : Screw) (lh : bool) : Screw :=
  mkScrew (objAvailable self) (Tuner self) lh
          (sm3DPrintMode self) (smNutThrScaleA self) (smNutThrScaleB self)
          (smScrewThrScaleA self) (smScrewThrScaleB self).

(** The statements of [createScrew] after the [try] block. *)
Definition createScrew_body (function : string) (s : Session) : outcome * Session :=
  let self := the_screw s in
  let fa := the_attribs s in
  let h := the_host s in
  let w := the_world s in
  let row :=
    if String.eqb (diameter fa) "Custom" then Ok None
    else match FsData h (fa_type fa ++ "def") with
         | None => Raise (KeyError (fa_type fa ++ "def"))
         | Some table =>
             match table (diameter fa) with
             | None => Raise (KeyError (diameter fa))
             | Some row => Ok (Some row)
             end
         end in
  match row with
  | Raise e => (Raises (Exn e), s)
  | Ok row =>
      let fa := with_dimTable fa row in
      let self := with_leftHanded self (fa_leftHanded fa) in
      if negb (String.eqb function "") then
        match attrs h function with
        | Some (Method b) =>
            match b self fa w with
            | (Ok (VShape screw), w') => (Returns (Some screw), mkSession self fa h w')
            | (Ok VNone, w') => (Returns None, mkSession self fa h w')
            | (Ok (VOther v), w') => (ReturnsOther v, mkSession self fa h w')
            | (Raise e, w') => (Raises (Exn e), mkSession self fa h w')
            end
        | Some Data => (Raises (Exn TypeError), mkSession self fa h w)
        | None => (Raises (AttributeError function), mkSession self fa h w)
        end
      else
        (Returns None,
         mkSession self fa (PrintMessage (no_function_message (fa_type fa)) h) w)
  end.

(** [Screw.createScrew].  The name [function] is the name of a method:
    [eval("self." + function + "(fastenerAttribs)")] is the call of that
    attribute, and its value is returned whatever it is. *)
Definition createScrew (function : string) (s : Session) : outcome * Session :=
  let self := the_screw s in
  let fa := the_attribs s in
  let h := the_host s in
  let w := the_world s in
  if negb (objAvailable self) then (Returns None, s)
  else
    let parsed :=
      match calc_len fa with
      | Some len =>
          match getLength len with
          | Ok v => Ok (with_calc_len fa (Some v))
          | Raise e => Raise e
          end
      | None => Ok fa
      end in
    match parsed with
    | Raise ValueError =>
        (Returns None, mkSession self fa (PrintMessage length_message h) w)
    | Raise e => (Raises (Exn e), s)
    | Ok fa =>
        match attrs h function with
        | Some _ => createScrew_body function (mkSession self fa h w)
        | None =>
            match FsFunctions h function with
            | Loaded a =>
                createScrew_body function (mkSession self fa (setattr function a h) w)
            | NoAttribute =>
                (Raises (AttributeError function), mkSession self fa h w)
            | NoModule =>
                (Raises (ModuleNotFoundError ("FsFunctions.FS" ++ function)),
                 mkSession self fa h w)
            end
        end
    end.

(** ** Names and examples for the further properties *)

(** No character of the string is one to drop. *)
Fixpoint keeps (drop : ascii -> bool) (s : string) : Prop :=
  match s with
  | EmptyString => True
  | String c s' => drop c = false /\ keeps drop s'
  end.

(** A session for examples: the attributes of an M5 screw of the given
    length, a host whose class has the method [makeScrew], which cuts the
    thread of the screw, and whose table holds the size. *)
Definition exampleBuilder : Builder :=
  fun self fa =>
    screw <- makeShellthread self exampleKernel 5 0.8 16 true 0 None ;;
    ret (VShape screw).

Definition exampleHost : Host :=
  mkHost (fun n => if String.eqb n "makeScrew" then Some (Method exampleBuilder) else None)
         (fun _ => NoModule)
         (fun t => if String.eqb t "ISO4017def"
                   then Some (fun d => if String.eqb d "M5" then Some [0.8; 3.5] else None)
                   else None)
         [].

Definition exampleSession (len : PyVal) : Session :=
  mkSession Screw_init (mkAttribs (Some len) "ISO4017" "M5" true None)
            exampleHost emptyWorld.


(** The attribute [createScrew] calls: that of the object or its class,
    or else the one it loads from [FsFunctions]. *)
Definition resolve (function : string) (h : Host) : option Attr :=
  match attrs h function with
  | Some a => Some a
  | None =>
      match FsFunctions h function with
      | Loaded a => Some a
      | _ => None
      end
  end.

(** A host whose class has the method [setTuner], which returns [None]. *)
Definition tunerHost : Host :=
  mkHost (fun n => if String.eqb n "setTuner" then Some (Method (fun _ _ => ret VNone))
                   else None)
         (fun _ => NoModule)
         (fun _ => None)
         [].

(** The same session with another handedness of the object. *)
Definition handed (lh : bool) (s : Session) : Session :=
  mkSession (with_leftHanded (the_screw s) lh) (the_attribs s) (the_host s)
            (the_world s).

(** The first character of the string, if there is one, is kept. *)
Definition head_kept (drop : ascii -> bool) (s : string) : Prop :=
  match s with
  | EmptyString => True
  | String c _ => drop c = false
  end.

(** A [Screw] object in the print mode with the given coefficients. *)
Definition printing (self : Screw) (nutA nutB screwA screwB : R) : Screw :=
  mkScrew (objAvailable self) (Tuner self) (leftHanded self) true
          nutA nutB screwA screwB.

(** A table of diameters for examples. *)
Definition exampleDiaList : string -> option (list R) :=
  fun label => if String.eqb label "M5" then Some [5; 0.8] else None.

(** ** Named parts of the other thread builders

    The helix and the profile of [CreateInnerThreadCutter] and the profiles
    and helices of [makeDin7998Thread], as the source builds them. *)

Definition inner_cutter_height (P blen : R) : R := IZR (Zfloor (blen / P)) + 2.

Definition inner_cutter_helix (self : Screw) (dia P blen : R) : Shape :=
  Translated (mkVector 0 0 (- P * 9 / 16))
    (LongHelix P (inner_cutter_height P blen) (dia * Tuner self / 1000) 0
               (leftHanded self)).

Definition inner_cutter_profile (dia P : R) : Shape :=
  let H := P * cos30 in
  let r := dia / 2 in
  let fm := Reset in
  let fm := AddPoint fm (r - H * 5 / 8) (P * 7 / 16) in
  let fm := AddPoint fm r (P * 2 / 16) in
  let fm := AddArc fm (r + H * 1 / 24) (P * 2 / 32) r 0 in
  let fm := AddPoint fm (r - H * 5 / 8) (- P * 5 / 16) in
  Translated (mkVector 0 0 (- P)) (GetClosedWire fm).

Definition inner_cutter (self : Screw) (dia P blen : R) : Shape :=
  PipeShell (Wire [inner_cutter_helix self dia P blen])
            [inner_cutter_profile dia P] true true.

Definition wood_tip_profile (ri ro : R) : Shape :=
  let tphb2 := (ro - ri) / tan (radians 60) * 0.5 in
  Translated (mkVector 0.03 0 (3 * tphb2))
    (GetClosedWire (AddPoints Reset [(0, - tphb2); (0, tphb2); (2 * tphb2, tphb2)])).

Definition wood_top_profile (ze zt ri ro : R) : Shape :=
  let tph := ro - ri in
  let tphb := tph / tan (radians 60) in
  Translated (mkVector (ri - 0.03) 0 (tphb + (ze - zt)))
    (GetClosedWire (AddPoints Reset [(0, - tphb); (0, tphb); (tph, 0)])).








(** The square of the distance of two points. *)
Definition dist2 (a b : Vector) : R :=
  (vx a - vx b) ^ 2 + (vy a - vy b) ^ 2 + (vz a - vz b) ^ 2.


(** The closed outline of the regular hexagon of width [s] across flats at
    the height [z], first corner on the x axis, counter-clockwise, the
    first corner repeated at the end. *)
Definition regular_hexagon (s z : R) : list Vector :=
  [ mkVector (s / sqrt 3) 0 z;
    mkVector (s / sqrt 3 / 2) (s / 2) z;
    mkVector (- (s / sqrt 3 / 2)) (s / 2) z;
    mkVector (- (s / sqrt 3)) 0 z;
    mkVector (- (s / sqrt 3 / 2)) (- (s / 2)) z;
    mkVector (s / sqrt 3 / 2) (- (s / 2)) z;
    mkVector (s / sqrt 3) 0 z ].

(** The face [makeHextool] extrudes: a disc with the hexagon as a hole. *)
Definition hextool_face (s_hex k_hex cir_hex : R) : Shape :=
  Cut (Face (Wire [Circle (cir_hex / 2) (mkVector 0 0 (- k_hex * 0.1))]))
      (Face (Polygon (regular_hexagon s_hex (- k_hex * 0.1)))).

(** ** Named parts of the tap thread *)

(** The box [makeInnerThread_2] cuts the ends of a tap thread with, its
    bottom at the height [z]. *)
Definition tap_box (d P z : R) : Shape :=
  Translated (mkVector (- (d + 4 * P) / 2) (- (d + 4 * P) / 2) z)
             (Box (d + 4 * P) (d + 4 * P) (3 * P)).

(** ** What a tool factory may change

    The objects of the store keep their geometry (their placement may
    change, and new objects may be stored after them); the journal only
    grows. *)

Definition keeps_geometry (w w' : World) : Prop :=
  exists new, map geom (objects w') = map geom (objects w) ++ new.

Definition journal_grows (w w' : World) : Prop :=
  exists new, journal w' = new ++ journal w.

(** A computation that touches neither the objects nor the cache. *)
Definition silent {A : Type} (m : M A) : Prop :=
  forall w, objects (snd (m w)) = objects w
            /\ FSCache (snd (m w)) = FSCache w
            /\ journal_grows w (snd (m w)).

(** A computation that writes the cache under [key] at most, and only when
    it returns; when it raises, objects and cache are as before. *)
Definition careful {A : Type} (key : Key) (m : M A) : Prop :=
  forall w,
    journal_grows w (snd (m w))
    /\ match fst (m w) with
       | Ok _ =>
           keeps_geometry w (snd (m w))
           /\ (FSCache (snd (m w)) = FSCache w
               \/ exists v, FSCache (snd (m w)) = (key, v) :: FSCache w)
       | Raise _ =>
           objects (snd (m w)) = objects w /\ FSCache (snd (m w)) = FSCache w
       end.

(** The outcome [out] of a call made in the world [w] has left every other
    key of the cache and the geometry of every stored object alone, has
    only added to the journal, and has changed neither objects nor cache
    if it raised. *)
Definition frame {A : Type} (key : Key) (w : World) (out : result A * World) : Prop :=
  (forall k, k <> key -> cache_get (FSCache (snd out)) k = cache_get (FSCache w) k)
  /\ (forall r o, object w r = Some o ->
        exists o', object (snd out) r = Some o' /\ geom o' = geom o)
  /\ journal_grows w (snd out)
  /\ (forall e, fst out = Raise e ->
        objects (snd out) = objects w /\ FSCache (snd out) = FSCache w).

(** Tables for examples with a row for the cross recess of size 2
    (b, e_mean, g, f_mean, r, t1 in millimetres, alpha and beta in
    degrees). *)
Definition crossTables : FsDataTables :=
  mkTables (iso10664def exampleTables)
           (fun code =>
              if string_dec code "2"
              then Some (1.47, 1.17, 2.29, 0.78, 0.6, 0.61, 140, 5.75)
              else None).
(** * Theorems *)

Lemma thread_turns_cover (P blen : R) :
  0 < P -> blen < thread_turns P blen * P.
Proof.
  intros HP. unfold thread_turns.
  destruct (Zfloor_bound (blen / P)) as [_ Hlt].
  apply Rmult_lt_compat_r with (r := P) in Hlt; [| exact HP].
  replace (blen / P * P) with blen in Hlt by (field; lra).
  exact Hlt.
Qed.

Lemma thread_turns_pos (P blen : R) :
  0 < P -> 0 <= blen -> 0 < thread_turns P blen * P.
Proof.
  intros HP Hb. pose proof (thread_turns_cover P blen HP). lra.
Qed.

(** What [CreateThreadCutter] does for a pitch other than zero: it asks
    the kernel whether the sweep is ready, then builds it and makes it
    solid, or raises. *)
Lemma CreateThreadCutter_eq (self : Screw) (K : Kernel) (dia P blen : R) (w : World) :
  P <> 0 ->
  CreateThreadCutter self K dia P blen w =
    if isReady K (sweep_path self dia P blen) [thread_profile_wire dia P blen]
    then (Ok (thread_cutter self dia P blen),
          journalled [thread_cutter self dia P blen;
                      MakePipeShell (sweep_path self dia P blen)
                                    [thread_profile_wire dia P blen] true 1 false] w)
    else (Raise sweep_error, w).
Proof.
  intros HP.
  unfold CreateThreadCutter, floordiv, bind.
  destruct (Req_dec_T P 0) as [E | _]; [contradiction |].
  cbn.
  unfold sweep_path, main_helix, lead_out_helix, thread_profile_wire,
    thread_cutter, thread_turns, sweep_error.
  destruct (isReady K _ _); reflexivity.
Qed.

Lemma clamp_Rmax (x y : R) : (if Rlt_dec x y then y else x) = Rmax x y.
Proof.
  destruct (Rlt_dec x y) as [H | H].
  - symmetry. apply Rmax_right. lra.
  - symmetry. apply Rmax_left. lra.
Qed.

Lemma cutter_offset_floor (P blen : R) (tlen : option R) :
  5 * P / 8 <= cutter_offset P blen tlen.
Proof. unfold cutter_offset. apply Rmax_r. Qed.

(** The closed wire [makeShellthread] draws for the blank. *)
Lemma blank_profile (dia P blen : R) (withcham : bool) :
  GetClosedWire
    (AddPoints
       (if withcham
        then AddPoints (AddPoints Reset [(dia / 2, 0)])
               [(dia / 2, - blen + P / 2); (dia / 2 - P / 2, - (blen - 1e-5))]
        else AddPoints (AddPoints Reset [(dia / 2, 0)]) [(dia / 2, - (blen - 1e-5))])
       [(0, - (blen - 1e-5)); (0, 0)])
  = base_profile dia P blen withcham.
Proof. unfold base_profile. destruct withcham; reflexivity. Qed.

(** An exception of [CreateThreadCutter] ends [makeShellthread]. *)
Lemma makeShellthread_passes_on (self : Screw) (K : Kernel) (dia P blen : R)
    (withcham : bool) (ztop : R) (tlen : option R) (w w2 : World) (e : exn) :
  CreateThreadCutter self K dia P blen
    (journalled [ base_body dia P blen withcham;
                  Revolve (base_profile dia P blen withcham)
                          (mkVector 0 0 0) (mkVector 0 0 1) 360 ] w)
    = (Raise e, w2) ->
  makeShellthread self K dia P blen withcham ztop tlen w = (Raise e, w2).
Proof.
  intros Hraise.
  unfold makeShellthread, RevolveZ.
  unfold bind at 1. unfold run at 1. unfold bind at 1. unfold run at 1.
  unfold bind at 1.
  rewrite blank_profile.
  unfold journalled, base_body in Hraise. cbn [app objects FSCache journal] in Hraise.
  cbn [objects FSCache journal].
  rewrite Hraise. reflexivity.
Qed.

(** [makeShellthread] for a positive pitch, step by step: the blank is
    revolved and made solid, the cutter is swept (or the sweep raises), the
    lowered cutter is cut from the turned blank, and the faces off the top
    plane are returned as a shell at [ztop].  No other kernel algorithm
    runs. *)
Lemma makeShellthread_eq (self : Screw) (K : Kernel) (dia P blen : R)
    (withcham : bool) (ztop : R) (tlen : option R) (w : World) :
  0 < P ->
  makeShellthread self K dia P blen withcham ztop tlen w =
    let blank := [ base_body dia P blen withcham;
                   Revolve (base_profile dia P blen withcham)
                           (mkVector 0 0 0) (mkVector 0 0 1) 360 ] in
    let threaded := threaded_solid self dia P blen withcham tlen in
    if isReady K (sweep_path self dia P blen) [thread_profile_wire dia P blen]
    then (Ok (Translated (mkVector 0 0 ztop)
                (Shell (filter (not_on_top K) (Faces K threaded)))),
          journalled ([ threaded;
                        thread_cutter self dia P blen;
                        MakePipeShell (sweep_path self dia P blen)
                                      [thread_profile_wire dia P blen] true 1 false ]
                      ++ blank) w)
    else (Raise sweep_error, journalled blank w).
Proof.
  intros HP.
  pose proof (cutter_offset_floor P blen tlen) as Hfloor.
  unfold makeShellthread, RevolveZ.
  unfold bind at 1. unfold run at 1. unfold bind at 1. unfold run at 1.
  unfold bind at 1.
  rewrite CreateThreadCutter_eq by lra.
  rewrite blank_profile.
  destruct (isReady K _ _); [| reflexivity].
  cbv zeta.
  rewrite clamp_Rmax.
  fold (threaded_length blen tlen).
  fold (cutter_offset P blen tlen).
  unfold bind at 1. unfold run at 1.
  destruct (Rlt_dec (cutter_offset P blen tlen) 0) as [Hneg | _]; [lra |].
  reflexivity.
Qed.

Ltac decide_same :=
  repeat match goal with
    | |- context [Vector_eq_dec ?u ?u] =>
        destruct (Vector_eq_dec u u) as [_ | Hne]; [| exfalso; apply Hne; reflexivity]
    | |- context [Req_dec_T ?x ?x] =>
        destruct (Req_dec_T x x) as [_ | Hne]; [| exfalso; apply Hne; reflexivity]
    end.

Lemma zspan_sweep_path (self : Screw) (dia P blen : R) :
  0 < P -> 0 <= blen ->
  zspan (sweep_path self dia P blen) = Some (- (thread_turns P blen * P), P / 2).
Proof.
  intros HP Hb.
  pose proof (thread_turns_pos P blen HP Hb) as Hh.
  unfold sweep_path, main_helix, lead_out_helix.
  cbn [zspan]. decide_same. cbn [zspan vz].
  rewrite (Rmax_right 0 (thread_turns P blen * P)) by lra.
  rewrite (Rmin_left 0 (thread_turns P blen * P)) by lra.
  rewrite (Rmin_left 0 (P / 2)) by lra.
  rewrite (Rmax_right 0 (P / 2)) by lra.
  unfold hull. cbn [fst snd].
  rewrite Rmin_left by lra. rewrite Rmax_right by lra.
  f_equal. f_equal; lra.
Qed.

Lemma axial_extent_main_helix (self : Screw) (dia P blen : R) :
  0 < P -> 0 <= blen ->
  axial_extent (main_helix self dia P blen) = Some (thread_turns P blen * P).
Proof.
  intros HP Hb.
  pose proof (thread_turns_pos P blen HP Hb) as Hh.
  unfold axial_extent, main_helix.
  cbn [zspan]. decide_same.
  rewrite Rmax_right by lra. rewrite Rmin_left by lra.
  f_equal. lra.
Qed.

(** C1.  For a diameter [dia > 0], a pitch [P > 0] and a body length
    [blen > P], [CreateThreadCutter] sweeps the thread profile along a path
    whose main helix has [floor (blen / P) + 1] turns, that is the height
    [(floor (blen / P) + 1) * P]; this height and the axial extent of the
    whole path are at least [blen].  The result is the solid swept along
    that path whenever the kernel reports the sweep ready. *)
Theorem CreateThreadCutter_coverage
    (self : Screw) (K : Kernel) (dia P blen : R) (w : World) :
  0 < dia -> 0 < P -> P < blen ->
  let turns := IZR (Zfloor (blen / P)) + 1 in
  let path :=
    Wire [ Rotated (mkVector 0 0 0) (mkVector 1 0 0) 180
             (LongHelix P (turns * P) (dia / 2) 0 (leftHanded self));
           lead_out_helix self dia P ] in
  fst (CreateThreadCutter self K dia P blen w) =
    (if isReady K path [thread_profile_wire dia P blen]
     then Ok (MakePipeShell path [thread_profile_wire dia P blen] true 1 true)
     else Raise sweep_error)
  /\ axial_extent (Rotated (mkVector 0 0 0) (mkVector 1 0 0) 180
                     (LongHelix P (turns * P) (dia / 2) 0 (leftHanded self)))
     = Some (turns * P)
  /\ blen <= turns * P
  /\ exists e, axial_extent path = Some e /\ blen <= e.
Proof.
  intros Hd HP Hlt turns path.
  assert (Hb : 0 <= blen) by lra.
  pose proof (thread_turns_cover P blen HP) as Hcov.
  fold (thread_turns P blen) in turns.
  repeat split.
  - rewrite CreateThreadCutter_eq by lra.
    change (sweep_path self dia P blen) with path.
    unfold thread_cutter. change (sweep_path self dia P blen) with path.
    destruct (isReady K path _); reflexivity.
  - exact (axial_extent_main_helix self dia P blen HP Hb).
  - subst turns. lra.
  - exists (P / 2 + turns * P). split.
    + unfold axial_extent.
      change path with (sweep_path self dia P blen).
      rewrite zspan_sweep_path by assumption.
      f_equal. subst turns. lra.
    + subst turns. lra.
Qed.

Lemma CreateThreadCutter_coverage_witness :
  let turns := IZR (Zfloor (20 / 1)) + 1 in
  let path :=
    Wire [ Rotated (mkVector 0 0 0) (mkVector 1 0 0) 180
             (LongHelix 1 (turns * 1) (10 / 2) 0 (leftHanded Screw_init));
           lead_out_helix Screw_init 10 1 ] in
  fst (CreateThreadCutter Screw_init exampleKernel 10 1 20 emptyWorld) =
    (if isReady exampleKernel path [thread_profile_wire 10 1 20]
     then Ok (MakePipeShell path [thread_profile_wire 10 1 20] true 1 true)
     else Raise sweep_error)
  /\ axial_extent (Rotated (mkVector 0 0 0) (mkVector 1 0 0) 180
                     (LongHelix 1 (turns * 1) (10 / 2) 0 (leftHanded Screw_init)))
     = Some (turns * 1)
  /\ 20 <= turns * 1
  /\ exists e, axial_extent path = Some e /\ 20 <= e.
Proof.
  apply (CreateThreadCutter_coverage Screw_init exampleKernel 10 1 20 emptyWorld); lra.
Defined.

(** C4.  For a pitch [P > 0], [makeShellthread] lowers the swept cutter by
    [max (blen - tlen + P/2) (5P/8)], with [tlen] replaced by [blen] when
    it is negative or absent, and only then cuts it from the turned blank:
    the cut is the last kernel algorithm run, and the returned shell is
    made of its faces.  When the sweep is not ready the call raises. *)
Theorem makeShellthread_cutter_offset
    (self : Screw) (K : Kernel) (dia P blen : R)
    (withcham : bool) (ztop : R) (tlen : option R) (w : World) :
  0 < P ->
  let tl := match tlen with
            | Some t => if Rlt_dec t 0 then blen else t
            | None => blen
            end in
  let toffset := Rmax (blen - tl + P / 2) (5 * P / 8) in
  let threaded :=
    Cut (Rotated (mkVector 0 0 0) (mkVector 0 0 1) 90 (base_body dia P blen withcham))
        (Translated (mkVector 0 0 (- toffset)) (thread_cutter self dia P blen)) in
  if isReady K (sweep_path self dia P blen) [thread_profile_wire dia P blen]
  then exists w',
         makeShellthread self K dia P blen withcham ztop tlen w =
           (Ok (Translated (mkVector 0 0 ztop)
                  (Shell (filter (not_on_top K) (Faces K threaded)))), w')
         /\ hd_error (journal w') = Some threaded
  else fst (makeShellthread self K dia P blen withcham ztop tlen w) = Raise sweep_error.
Proof.
  intros HP tl toffset threaded.
  assert (Htl : tl = threaded_length blen tlen).
  { unfold tl, threaded_length. destruct tlen as [t |]; [reflexivity |].
    destruct (Rlt_dec (-1) 0) as [_ | Hn]; [reflexivity | lra]. }
  assert (Hth : threaded = threaded_solid self dia P blen withcham tlen).
  { unfold threaded, threaded_solid, toffset, cutter_offset. rewrite Htl. reflexivity. }
  rewrite makeShellthread_eq by exact HP.
  cbv zeta.
  destruct (isReady K _ _).
  - eexists. split.
    + rewrite Hth. reflexivity.
    + rewrite Hth. reflexivity.
  - reflexivity.
Qed.

Lemma makeShellthread_cutter_offset_witness :
  exists w',
    makeShellthread Screw_init exampleKernel 10 1 20 true 0 (Some 12) emptyWorld =
      (Ok (Translated (mkVector 0 0 0)
             (Shell (filter (not_on_top exampleKernel)
                (Faces exampleKernel
                   (Cut (Rotated (mkVector 0 0 0) (mkVector 0 0 1) 90
                                 (base_body 10 1 20 true))
                        (Translated
                           (mkVector 0 0
                              (- Rmax (20 - (if Rlt_dec 12 0 then 20 else 12) + 1 / 2)
                                      (5 * 1 / 8)))
                           (thread_cutter Screw_init 10 1 20))))))), w')
    /\ hd_error (journal w') =
         Some (Cut (Rotated (mkVector 0 0 0) (mkVector 0 0 1) 90
                            (base_body 10 1 20 true))
                   (Translated
                      (mkVector 0 0
                         (- Rmax (20 - (if Rlt_dec 12 0 then 20 else 12) + 1 / 2)
                                 (5 * 1 / 8)))
                      (thread_cutter Screw_init 10 1 20))).
Proof.
  apply (makeShellthread_cutter_offset Screw_init exampleKernel 10 1 20 true 0
           (Some 12) emptyWorld).
  lra.
Defined.

(** C5.  When the kernel reports the sweep of [CreateThreadCutter] not
    ready, the call raises and returns no shape, whatever the arguments;
    the journal is left as it was, so no sweep was built and none was
    tried again.  For a pitch other than zero the exception is the
    construction error of the sweep (for a zero pitch the floor division
    has raised before the sweep is set up).  [makeShellthread] passes the
    exception on: it returns no shell, and after the blank no sweep and no
    cut was run. *)
Theorem sweep_failure_is_fatal
    (self : Screw) (K : Kernel) (dia P blen : R) (w : World) :
  isReady K (sweep_path self dia P blen) [thread_profile_wire dia P blen] = false ->
  (exists e,
      CreateThreadCutter self K dia P blen w = (Raise e, w)
      /\ (P <> 0 -> e = sweep_error))
  /\ (forall withcham ztop tlen,
      exists e,
        makeShellthread self K dia P blen withcham ztop tlen w =
          (Raise e,
           journalled [ base_body dia P blen withcham;
                        Revolve (base_profile dia P blen withcham)
                                (mkVector 0 0 0) (mkVector 0 0 1) 360 ] w)
        /\ (P <> 0 -> e = sweep_error)).
Proof.
  intros Hstuck.
  assert (Hcut : forall w0, exists e,
             CreateThreadCutter self K dia P blen w0 = (Raise e, w0)
             /\ (P <> 0 -> e = sweep_error)).
  { intros w0. destruct (Req_dec_T P 0) as [E | HP].
    - exists ZeroDivisionError. split; [| intros HP; contradiction].
      unfold CreateThreadCutter, floordiv, bind.
      destruct (Req_dec_T P 0) as [_ | Hn]; [reflexivity | contradiction].
    - exists sweep_error. split; [| reflexivity].
      rewrite CreateThreadCutter_eq by exact HP.
      rewrite Hstuck. reflexivity. }
  split; [apply Hcut |].
  intros withcham ztop tlen.
  destruct (Hcut (journalled [ base_body dia P blen withcham;
                               Revolve (base_profile dia P blen withcham)
                                       (mkVector 0 0 0) (mkVector 0 0 1) 360 ] w))
    as (e & Hraise & He).
  exists e. split; [| exact He].
  apply makeShellthread_passes_on. exact Hraise.
Qed.

Lemma sweep_failure_is_fatal_witness :
  (exists e,
      CreateThreadCutter Screw_init stuckKernel 10 1 20 emptyWorld = (Raise e, emptyWorld)
      /\ (1 <> 0 -> e = sweep_error))
  /\ (forall withcham ztop tlen,
      exists e,
        makeShellthread Screw_init stuckKernel 10 1 20 withcham ztop tlen emptyWorld =
          (Raise e,
           journalled [ base_body 10 1 20 withcham;
                        Revolve (base_profile 10 1 20 withcham)
                                (mkVector 0 0 0) (mkVector 0 0 1) 360 ] emptyWorld)
        /\ (1 <> 0 -> e = sweep_error)).
Proof.
  apply (sweep_failure_is_fatal Screw_init stuckKernel 10 1 20 emptyWorld).
  reflexivity.
Defined.

(** C9.  For a pitch [P > 0] the clamped offset of [makeShellthread] is at
    least [5P/8], which is positive, so the branch guarded by
    [toffset < 0] does not run: in every outcome the kernel algorithms
    the call has added to the journal contain neither the revolved cap
    profile nor a solid made of it. *)
Theorem makeShellthread_cap_unreachable
    (self : Screw) (K : Kernel) (dia P blen : R)
    (withcham : bool) (ztop : R) (tlen : option R) (w : World) :
  0 < P ->
  5 * P / 8 <= cutter_offset P blen tlen
  /\ 0 < 5 * P / 8
  /\ exists new,
       journal (snd (makeShellthread self K dia P blen withcham ztop tlen w))
         = new ++ journal w
       /\ (fst (makeShellthread self K dia P blen withcham ztop tlen w) <> Raise sweep_error ->
           hd_error new = Some (threaded_solid self dia P blen withcham tlen))
       /\ ~ In (cap_shell dia) new
       /\ ~ In (Solid (cap_shell dia)) new.
Proof.
  intros HP.
  split; [apply cutter_offset_floor |].
  split; [lra |].
  rewrite makeShellthread_eq by exact HP.
  cbv zeta.
  assert (Hbase : forall s, s = base_body dia P blen withcham
                    \/ s = Revolve (base_profile dia P blen withcham)
                                   (mkVector 0 0 0) (mkVector 0 0 1) 360 ->
                    s <> cap_shell dia /\ s <> Solid (cap_shell dia)).
  { intros s [-> | ->]; unfold base_body, cap_shell, base_profile;
      destruct withcham; split; discriminate. }
  destruct (isReady K _ _); cbn [fst snd journalled journal].
  - eexists. split; [reflexivity |].
    split; [intros _; reflexivity |].
    split; intros Hin; cbn in Hin;
      destruct Hin as [E | [E | [E | [E | [E | []]]]]];
      try discriminate E;
      try (destruct (Hbase _ (or_introl eq_refl)) as [H1 H2];
           first [ apply H1; exact E | apply H2; exact E ]);
      try (destruct (Hbase _ (or_intror eq_refl)) as [H1 H2];
           first [ apply H1; exact E | apply H2; exact E ]).
  - eexists. split; [reflexivity |].
    split; [intros Hne; exfalso; apply Hne; reflexivity |].
    split; intros Hin; cbn in Hin;
      destruct Hin as [E | [E | []]];
      try (destruct (Hbase _ (or_introl eq_refl)) as [H1 H2];
           first [ apply H1; exact E | apply H2; exact E ]);
      try (destruct (Hbase _ (or_intror eq_refl)) as [H1 H2];
           first [ apply H1; exact E | apply H2; exact E ]).
Qed.

Lemma makeShellthread_cap_unreachable_witness :
  5 * 1 / 8 <= cutter_offset 1 20 None
  /\ 0 < 5 * 1 / 8
  /\ exists new,
       journal (snd (makeShellthread Screw_init exampleKernel 10 1 20 false 0 None emptyWorld))
         = new ++ journal emptyWorld
       /\ (fst (makeShellthread Screw_init exampleKernel 10 1 20 false 0 None emptyWorld)
             <> Raise sweep_error ->
           hd_error new = Some (threaded_solid Screw_init 10 1 20 false None))
       /\ ~ In (cap_shell 10) new
       /\ ~ In (Solid (cap_shell 10)) new.
Proof.
  apply (makeShellthread_cap_unreachable Screw_init exampleKernel 10 1 20 false 0 None
           emptyWorld).
  lra.
Defined.

(** ** The nut branch of the inner thread *)

Lemma index_nil {A : Type} (w : World) : index (@nil A) 0 w = (Raise IndexError, w).
Proof. reflexivity. Qed.

Lemma index_head {A : Type} (l : list A) (w : World) :
  l <> [] -> forall dflt, index l 0 w = (Ok (nth 0 l dflt), w).
Proof.
  intros Hne dflt. destruct l as [| a l']; [contradiction | reflexivity].
Qed.

Lemma nil_or_not {A : Type} (l : list A) : l = [] \/ l <> [].
Proof. destruct l; [left; reflexivity | right; discriminate]. Qed.

Lemma index_second {A : Type} (l : list A) (w : World) :
  (List.length l <? 2)%nat = false ->
  exists x, index l 1 w = (Ok x, w).
Proof.
  intros Hlen. apply Nat.ltb_ge in Hlen.
  destruct l as [| a [| b l']]; cbn in Hlen; try lia.
  exists b. reflexivity.
Qed.

(** The nut branch of [makeInnerThread_2], for any kernel.  Either one of
    the four subscripts [Faces[0]] and [Map[0]] finds an empty list and the
    call raises [IndexError], or the strip is swept, both chamfer solids
    are revolved, the bottom chamfer is cut and fused, and the three tests
    decide in this order whether the call returns [None] or goes on;
    nothing is run after a failed test. *)
Lemma makeInnerThread_2_nut_cases (self : Screw) (K : Kernel) (d P : R) (rotations : Z)
    (da l : R) (w : World) :
  let bottom := rev (nut_bottom_steps self K d P da l) in
  let cut := nut_top_cut_step self K d P rotations da l in
  let fuse := nut_top_fuse_step self K d P rotations da l in
  let out := makeInnerThread_2 self K d P rotations (Some da) l w in
  (exists new,
      (Faces K (bottom_Solid P da) = []
       \/ Faces K (top_Solid P da l) = []
       \/ generalFuseMap K (first_face K (bottom_Solid P da))
                         [chamferShell self K d P] 5e-4 = []
       \/ generalFuseMap K (first_face K (top_Solid P da l))
                         [top_chamferShell self K d P rotations] 5e-4 = [])
      /\ out = (Raise IndexError, journalled new w)
      /\ (forall tol, In tol (fuse_tolerances new) -> tol = 5e-4)
      /\ (List.length (fuse_tolerances new) <= 2)%nat)
  \/ (exists threadShell,
        out =
          if (List.length (bottomMap0 self K d P da) <? 2)%nat
          then (Ok None, journalled bottom w)
          else if (List.length (Faces K (top_chamferShell self K d P rotations))
                   <? List.length (Faces K cut))%nat
          then (Ok None, journalled (cut :: bottom) w)
          else if (List.length (topMap0 self K d P rotations da l) <? 2)%nat
          then (Ok None, journalled (fuse :: cut :: bottom) w)
          else (Ok (Some threadShell), journalled (fuse :: cut :: bottom) w)).
Proof.
  intros bottom cut fuse out. subst bottom cut fuse.
  remember (makeInnerThread_2 self K d P rotations (Some da) l w) as res eqn:E.
  subst out.
  unfold makeInnerThread_2, RevolveZ, generalFuse in E.
  cbv zeta in E.
  change (PipeShell _ _ false true) with (thread_strip self d P) in E.
  change (Revolve (GetFace (AddPoint (AddPoint (AddPoint (AddPoint Reset _ _) _ _) _ _) _ _))
                  _ _ 360)
    with (bottom_Solid P da) in E.
  change (Revolve (GetFace (AddPoint (AddPoint (AddPoint (StartPoint _ _) _ _) _ _) _ _))
                  _ _ 360)
    with (top_Solid P da l) in E.
  unfold bind at 1 in E. unfold run at 1 in E.
  unfold bind at 1 in E. unfold run at 1 in E.
  unfold bind at 1 in E.
  destruct (nil_or_not (Faces K (bottom_Solid P da))) as [Hb0 | Hb0].
  { left. pose proof Hb0 as Hcause. rewrite Hb0, index_nil in E. subst res.
    exists [bottom_Solid P da; thread_strip self d P].
    split; [left; exact Hcause |].
    split; [reflexivity |].
    unfold thread_strip, bottom_Solid. cbn.
    split; [intros tol [] | lia]. }
  rewrite (index_head _ _ Hb0 (bottom_Solid P da)) in E.
  fold (first_face K (bottom_Solid P da)) in E.
  unfold bind at 1 in E. unfold run at 1 in E.
  unfold bind at 1 in E.
  destruct (nil_or_not (Faces K (top_Solid P da l))) as [Ht0 | Ht0].
  { left. pose proof Ht0 as Hcause. rewrite Ht0, index_nil in E. subst res.
    exists [top_Solid P da l; bottom_Solid P da; thread_strip self d P].
    split; [right; left; exact Hcause |].
    split; [reflexivity |].
    unfold thread_strip, bottom_Solid, top_Solid. cbn.
    split; [intros tol [] | lia]. }
  rewrite (index_head _ _ Ht0 (top_Solid P da l)) in E.
  fold (first_face K (top_Solid P da l)) in E.
  cbn [stack_turns] in E.
  change (Shell (Faces K (thread_strip self d P) ++ _)) with (chamferShell self K d P) in E.
  unfold bind at 1 in E. unfold run at 1 in E.
  unfold bind at 1 in E. unfold bind at 1 in E. unfold run at 1 in E. unfold ret at 1 in E.
  unfold bind at 1 in E.
  cbn [objects FSCache journal] in E.
  destruct (nil_or_not (generalFuseMap K (first_face K (bottom_Solid P da))
                          [chamferShell self K d P] 5e-4)) as [Hbm | Hbm].
  { left. pose proof Hbm as Hcause. rewrite Hbm, index_nil in E. subst res.
    exists (rev (nut_bottom_steps self K d P da l)).
    split; [right; right; left; exact Hcause |].
    split; [reflexivity |].
    unfold nut_bottom_steps, thread_strip, bottom_Solid, top_Solid. cbn.
    split; [intros tol [<- | []]; reflexivity | lia]. }
  rewrite (index_head _ _ Hbm []) in E.
  fold (bottomMap0 self K d P da) in E.
  unfold nut_bottom_steps, journalled. cbn [rev app].
  destruct (List.length (bottomMap0 self K d P da) <? 2)%nat eqn:Hb.
  { right. exists (Shell []). exact E. }
  unfold bind at 1 in E.
  destruct (index_second (bottomMap0 self K d P da)
              (mkWorld (objects w) (FSCache w)
                 (GeneralFuse (first_face K (bottom_Solid P da))
                              [chamferShell self K d P] 5e-4
                  :: Cut (chamferShell self K d P) (bottom_Solid P da)
                  :: top_Solid P da l :: bottom_Solid P da
                  :: thread_strip self d P :: journal w)) Hb) as [m01 Hm01].
  rewrite Hm01 in E.
  destruct (stack_turns K (Z.to_nat _) _ _ _) as [TheShell innerThreadFaces].
  change (Translated (mkVector 0 0 ((IZR rotations - 1) * P)) (chamferShell self K d P))
    with (top_chamferShell self K d P rotations) in E.
  unfold bind at 1 in E. unfold run at 1 in E.
  fold (nut_top_cut_step self K d P rotations da l) in E.
  cbn [objects FSCache journal] in E.
  destruct (List.length (Faces K (top_chamferShell self K d P rotations))
            <? List.length (Faces K (nut_top_cut_step self K d P rotations da l)))%nat.
  { right. exists (Shell []). exact E. }
  unfold bind at 1 in E. unfold bind at 1 in E. unfold run at 1 in E. unfold ret at 1 in E.
  unfold bind at 1 in E.
  cbn [objects FSCache journal] in E.
  destruct (nil_or_not (generalFuseMap K (first_face K (top_Solid P da l))
                          [top_chamferShell self K d P rotations] 5e-4)) as [Htm | Htm].
  { left. pose proof Htm as Hcause. rewrite Htm, index_nil in E. subst res.
    exists (nut_top_fuse_step self K d P rotations da l
            :: nut_top_cut_step self K d P rotations da l
            :: rev (nut_bottom_steps self K d P da l)).
    split; [right; right; right; exact Hcause |].
    split; [reflexivity |].
    unfold nut_top_fuse_step, nut_top_cut_step, nut_bottom_steps,
      thread_strip, bottom_Solid, top_Solid. cbn.
    split; [intros tol [<- | [<- | []]]; reflexivity | lia]. }
  rewrite (index_head _ _ Htm []) in E.
  fold (topMap0 self K d P rotations da l) in E.
  fold (nut_top_fuse_step self K d P rotations da l) in E.
  destruct (List.length (topMap0 self K d P rotations da l) <? 2)%nat eqn:Ht.
  { right. exists (Shell []). exact E. }
  unfold bind at 1 in E.
  destruct (index_second (topMap0 self K d P rotations da l)
              (mkWorld (objects w) (FSCache w)
                 (nut_top_fuse_step self K d P rotations da l
                  :: nut_top_cut_step self K d P rotations da l
                  :: GeneralFuse (first_face K (bottom_Solid P da))
                                 [chamferShell self K d P] 5e-4
                  :: Cut (chamferShell self K d P) (bottom_Solid P da)
                  :: top_Solid P da l :: bottom_Solid P da
                  :: thread_strip self d P :: journal w)) Ht) as [t01 Ht01].
  rewrite Ht01 in E.
  right. eexists. exact E.
Qed.

(** With a kernel whose general fuse maps the chamfer face to one piece
    only, the nut thread is [None]. *)
Example nut_thread_none :
  fst (makeInnerThread_2 Screw_init looseKernel 10 1.5 6 (Some 10.5) 8 emptyWorld)
  = Ok None.
Proof.
  destruct (makeInnerThread_2_nut_cases Screw_init looseKernel 10 1.5 6 10.5 8 emptyWorld)
    as [(new & Hcause & _) | (shell & E)].
  - exfalso. destruct Hcause as [H | [H | [H | H]]]; cbn in H; discriminate H.
  - rewrite E. reflexivity.
Qed.

(** With a kernel whose general fuse maps the chamfer face to two pieces
    and whose cut adds no face, the nut thread is a shell. *)
Example nut_thread_shell :
  exists threadShell,
    fst (makeInnerThread_2 Screw_init exampleKernel 10 1.5 6 (Some 10.5) 8 emptyWorld)
    = Ok (Some threadShell).
Proof.
  destruct (makeInnerThread_2_nut_cases Screw_init exampleKernel 10 1.5 6 10.5 8 emptyWorld)
    as [(new & Hcause & _) | (shell & E)].
  - exfalso. destruct Hcause as [H | [H | [H | H]]]; cbn in H; discriminate H.
  - exists shell. rewrite E. reflexivity.
Qed.

(** A kernel that revolves a solid without faces: the subscript
    [bottom_Solid.Faces[0]] raises. *)
Example nut_thread_index_error :
  fst (makeInnerThread_2 Screw_init
         (mkKernel (isReady exampleKernel) (fun _ => [])
                   (Edges exampleKernel) (Vertexes exampleKernel)
                   (CenterOfMass exampleKernel) (generalFuseMap exampleKernel)
                   (sortEdges exampleKernel))
         10 1.5 6 (Some 10.5) 8 emptyWorld)
  = Raise IndexError.
Proof. reflexivity. Qed.

(** ** The minimum bore *)

Lemma cos30_value : cos30 = sqrt 3 / 2.
Proof.
  unfold cos30, radians.
  replace (30 * PI / 180) with (PI / 6) by lra.
  exact cos_PI6.
Qed.

Lemma sqrt3_pos : 0 < sqrt 3.
Proof. apply sqrt_lt_R0. lra. Qed.

(** C7.  [GetInnerThreadMinDiameter dia P epsilon] is
    [dia - (5/4) * H + epsilon] with [H = P * cos 30 degrees]
    [= P * sqrt 3 / 2]; the epsilon left out is [0.001]; the value depends
    on nothing but the three arguments (not on the [Screw] object, and the
    function does not run in the world). *)
Theorem GetInnerThreadMinDiameter_formula (self : Screw) (dia P epsilon : R) :
  GetInnerThreadMinDiameter self dia P (Some epsilon)
    = dia - 5 / 4 * (P * cos (radians 30)) + epsilon
  /\ cos (radians 30) = sqrt 3 / 2
  /\ GetInnerThreadMinDiameter self dia P None
    = dia - 5 / 4 * (P * cos (radians 30)) + 0.001
  /\ forall (other : Screw) (eps : option R),
       GetInnerThreadMinDiameter other dia P eps
       = GetInnerThreadMinDiameter self dia P eps.
Proof.
  split; [| split; [| split]].
  - unfold GetInnerThreadMinDiameter, cos30. lra.
  - exact cos30_value.
  - unfold GetInnerThreadMinDiameter, cos30. lra.
  - intros other eps. reflexivity.
Qed.

(** ** The chamfer cutter *)

Lemma cham_t_pos (P : R) : 0 < P -> 0 < cham_t P.
Proof.
  intros HP. unfold cham_t, sqrt3. pose proof sqrt3_pos as Hs.
  assert (0 < P * sqrt 3) by (apply Rmult_lt_0_compat; assumption).
  lra.
Qed.

Ltac minmax :=
  repeat match goal with
    | |- context [Rmin ?a ?b] =>
        first [ rewrite (Rmin_left a b) by lra | rewrite (Rmin_right a b) by lra ]
    | |- context [Rmax ?a ?b] =>
        first [ rewrite (Rmax_left a b) by lra | rewrite (Rmax_right a b) by lra ]
    end.

Lemma zspan_chamfer_cutter (dia P l : R) :
  0 < P ->
  zspan (chamfer_cutter dia P l)
  = Some (- l - P - cham_t P, - l + cham_t P + cham_t P).
Proof.
  intros HP. pose proof (cham_t_pos P HP) as Hc.
  unfold chamfer_cutter. cbn [zspan]. decide_same. cbn [zspan vz].
  unfold hull. cbn [fst snd].
  minmax. reflexivity.
Qed.

Lemma cutChamfer_miss (self : Screw) (dia P l : R) (w : World) :
  cache_get (FSCache w) (chamfer_key dia P l) = None ->
  cutChamfer self dia P l w =
    (Ok (COne (List.length (objects w))),
     mkWorld (objects w ++ [mkObj (chamfer_cutter dia P l) identityPlacement])
             ((chamfer_key dia P l, COne (List.length (objects w))) :: FSCache w)
             (chamfer_cutter dia P l :: journal w)).
Proof.
  intros Hmiss.
  unfold cutChamfer, FSGetKey, bind at 1.
  fold (chamfer_key dia P l). rewrite Hmiss.
  reflexivity.
Qed.

Lemma cutChamfer_hit (self : Screw) (dia P l : R) (w : World) (v : CacheVal) :
  cache_get (FSCache w) (chamfer_key dia P l) = Some v ->
  cutChamfer self dia P l w = (Ok v, w).
Proof.
  intros Hhit.
  unfold cutChamfer, FSGetKey, bind at 1.
  fold (chamfer_key dia P l). rewrite Hhit.
  reflexivity.
Qed.

Lemma cache_get_head (c : list (Key * CacheVal)) (key : Key) (v : CacheVal) :
  cache_get ((key, v) :: c) key = Some v.
Proof.
  cbn. destruct (Key_eq_dec key key) as [_ | Hne]; [reflexivity | contradiction].
Qed.

Lemma nth_error_new {A : Type} (l : list A) (a : A) :
  nth_error (l ++ [a]) (List.length l) = Some a.
Proof.
  rewrite nth_error_app2 by lia. rewrite Nat.sub_diag. reflexivity.
Qed.

(** The claim of C6 as stated fails: for diameter 10, pitch 1 and length 5
    the returned solid does not have the axial extent
    [1 * sqrt 3 / 2 * 17 / 24]. *)
Lemma cutChamfer_extent_counterexample :
  exists r w' o e,
    cutChamfer Screw_init 10 1 5 emptyWorld = (Ok (COne r), w')
    /\ object w' r = Some o
    /\ axial_extent (geom o) = Some e
    /\ e <> 1 * sqrt 3 / 2 * 17 / 24.
Proof.
  exists 0%nat.
  eexists. eexists. eexists.
  split; [apply cutChamfer_miss; reflexivity |].
  split; [reflexivity |].
  cbn [geom]. unfold axial_extent.
  rewrite zspan_chamfer_cutter by lra.
  split; [reflexivity |].
  pose proof (cham_t_pos 1 ltac:(lra)) as Hc.
  unfold cham_t, sqrt3 in *. lra.
Qed.

(** C6, amended.  For a pitch [P > 0] and a key not yet cached,
    [cutChamfer] builds one solid, a profile revolved about the z axis, by
    a single kernel algorithm that is no boolean operation.  With
    [cham_t = P * sqrt 3 / 2 * 17 / 24] the solid spans the z interval from
    [- l - P - cham_t] to [- l + 2 * cham_t]: its axial extent is
    [P + 3 * cham_t].  The solid is stored under the key of the operation
    name and the three arguments, and the same call made again returns the
    stored object and changes nothing. *)
Theorem cutChamfer_extent (self : Screw) (dia P l : R) (w : World) :
  0 < P ->
  cache_get (FSCache w) [KStr "CrhamferTool"; KNum dia; KNum P; KNum l] = None ->
  let c := P * sqrt 3 / 2 * 17 / 24 in
  exists r solid w',
    cutChamfer self dia P l w = (Ok (COne r), w')
    /\ object w' r = Some (mkObj solid identityPlacement)
    /\ (exists profile,
          solid = Revolve profile (mkVector 0 0 0) (mkVector 0 0 1) 360)
    /\ zspan solid = Some (- l - P - c, - l + 2 * c)
    /\ axial_extent solid = Some (P + 3 * c)
    /\ journal w' = solid :: journal w
    /\ is_boolean solid = false
    /\ cache_get (FSCache w') [KStr "CrhamferTool"; KNum dia; KNum P; KNum l]
       = Some (COne r)
    /\ cutChamfer self dia P l w' = (Ok (COne r), w').
Proof.
  intros HP Hmiss c.
  exists (List.length (objects w)), (chamfer_cutter dia P l).
  eexists.
  split; [apply cutChamfer_miss; exact Hmiss |].
  assert (Hz : zspan (chamfer_cutter dia P l) = Some (- l - P - c, - l + 2 * c)).
  { rewrite zspan_chamfer_cutter by exact HP.
    unfold cham_t, sqrt3. subst c. f_equal. f_equal; lra. }
  split; [unfold object; cbn [objects]; apply nth_error_new |].
  split; [eexists; reflexivity |].
  split; [exact Hz |].
  split; [unfold axial_extent; rewrite Hz; f_equal; lra |].
  split; [reflexivity |].
  split; [reflexivity |].
  split; [cbn [FSCache]; apply cache_get_head |].
  apply cutChamfer_hit. cbn [FSCache]. apply cache_get_head.
Qed.

Lemma cutChamfer_extent_witness :
  let c := 1 * sqrt 3 / 2 * 17 / 24 in
  exists r solid w',
    cutChamfer Screw_init 10 1 5 emptyWorld = (Ok (COne r), w')
    /\ object w' r = Some (mkObj solid identityPlacement)
    /\ (exists profile,
          solid = Revolve profile (mkVector 0 0 0) (mkVector 0 0 1) 360)
    /\ zspan solid = Some (- 5 - 1 - c, - 5 + 2 * c)
    /\ axial_extent solid = Some (1 + 3 * c)
    /\ journal w' = solid :: journal emptyWorld
    /\ is_boolean solid = false
    /\ cache_get (FSCache w') [KStr "CrhamferTool"; KNum 10; KNum 1; KNum 5]
       = Some (COne r)
    /\ cutChamfer Screw_init 10 1 5 w' = (Ok (COne r), w').
Proof.
  apply (cutChamfer_extent Screw_init 10 1 5 emptyWorld).
  - lra.
  - reflexivity.
Defined.

(** ** The recess tools and the cache *)

(** A hit in [makeIso10664_3] returns the cached value and leaves the world
    as it is: nothing is built, and no placement is touched. *)
Lemma makeIso10664_3_hit (self : Screw) (K : Kernel) (T : FsDataTables)
    (RType : string) (t_hl h_hl : R) (w : World) (v : CacheVal) :
  cache_get (FSCache w) (hexalobular_key RType t_hl h_hl) = Some v ->
  makeIso10664_3 self K T (Some RType) (Some t_hl) (Some h_hl) w = (Ok v, w).
Proof.
  intros Hhit.
  unfold makeIso10664_3, FSGetKey, bind at 1. cbn [arg].
  fold (hexalobular_key RType t_hl h_hl). rewrite Hhit. reflexivity.
Qed.

(** The same for [makeCross_H3]. *)
Lemma makeCross_H3_hit (self : Screw) (K : Kernel) (T : FsDataTables)
    (CrossType : string) (m h : R) (w : World) (v : CacheVal) :
  cache_get (FSCache w) (cross_key CrossType m h) = Some v ->
  makeCross_H3 self K T (Some CrossType) (Some m) (Some h) w = (Ok v, w).
Proof.
  intros Hhit.
  unfold makeCross_H3, FSGetKey, bind at 1. cbn [arg].
  fold (cross_key CrossType m h). rewrite Hhit. reflexivity.
Qed.

(** A hit in [makeAllen2] returns the cached pair after it has put both
    members back at the requested height; nothing is built. *)
Lemma makeAllen2_hit (self : Screw) (K : Kernel)
    (s_a t_a h_a t_2 : R) (w : World) (r0 r1 : ref) :
  cache_get (FSCache w) (allen_key s_a t_a h_a t_2) = Some (CPair r0 r1) ->
  makeAllen2 self K (Some s_a) (Some t_a) (Some h_a) (Some t_2) w =
    (Ok (CPair r0 r1),
     mkWorld (update_nth r1 (fun o => mkObj (geom o) (at_height h_a))
                (update_nth r0 (fun o => mkObj (geom o) (at_height h_a)) (objects w)))
             (FSCache w) (journal w)).
Proof.
  intros Hhit.
  unfold makeAllen2, FSGetKey, bind at 1. cbn [arg].
  fold (allen_key s_a t_a h_a t_2). rewrite Hhit. reflexivity.
Qed.

Lemma bind_returns {A B : Type} (m : M A) (k : A -> M B) (w w' : World) (b : B) :
  bind m k w = (Ok b, w') ->
  exists a w1, m w = (Ok a, w1) /\ k a w1 = (Ok b, w').
Proof.
  unfold bind. intros H.
  destruct (m w) as [[a | e] w1]; [| discriminate].
  exists a, w1. split; [reflexivity | exact H].
Qed.

(** Follow a run that returned down to the step that writes the cache. *)
Ltac to_the_end H :=
  repeat (cbv beta zeta in H;
          match type of H with
          | bind (FSCache_set _ _) _ _ = _ => fail 1
          | bind _ _ _ = (Ok _, _) =>
              apply bind_returns in H; destruct H as (? & ? & _ & H)
          | (let (_, _) := ?x in _) _ = _ => destruct x
          | (match ?x with _ => _ end) _ = _ => destruct x
          end).

Ltac cache_written H :=
  unfold bind, FSCache_set, ret in H; injection H as <- <-;
  cbn [FSCache]; apply cache_get_head.

(** Whatever a recess tool returns is in the cache under its key
    afterwards. *)
Lemma makeIso10664_3_caches (self : Screw) (K : Kernel) (T : FsDataTables)
    (RType : string) (t_hl h_hl : R) (w w' : World) (v : CacheVal) :
  makeIso10664_3 self K T (Some RType) (Some t_hl) (Some h_hl) w = (Ok v, w') ->
  cache_get (FSCache w') (hexalobular_key RType t_hl h_hl) = Some v.
Proof.
  intros H.
  destruct (cache_get (FSCache w) (hexalobular_key RType t_hl h_hl)) as [c |] eqn:Hc.
  - rewrite (makeIso10664_3_hit self K T RType t_hl h_hl w c Hc) in H.
    injection H as <- <-. exact Hc.
  - unfold makeIso10664_3 in H. cbn [arg] in H.
    unfold bind at 1, FSGetKey in H.
    fold (hexalobular_key RType t_hl h_hl) in H. rewrite Hc in H.
    to_the_end H. cache_written H.
Qed.

Lemma makeCross_H3_caches (self : Screw) (K : Kernel) (T : FsDataTables)
    (CrossType : string) (m h : R) (w w' : World) (v : CacheVal) :
  makeCross_H3 self K T (Some CrossType) (Some m) (Some h) w = (Ok v, w') ->
  cache_get (FSCache w') (cross_key CrossType m h) = Some v.
Proof.
  intros H.
  destruct (cache_get (FSCache w) (cross_key CrossType m h)) as [c |] eqn:Hc.
  - rewrite (makeCross_H3_hit self K T CrossType m h w c Hc) in H.
    injection H as <- <-. exact Hc.
  - unfold makeCross_H3 in H. cbn [arg] in H.
    unfold bind at 1, FSGetKey in H.
    fold (cross_key CrossType m h) in H. rewrite Hc in H.
    to_the_end H. cache_written H.
Qed.

Lemma makeAllen2_caches (self : Screw) (K : Kernel)
    (s_a t_a h_a t_2 : R) (w w' : World) (v : CacheVal) :
  makeAllen2 self K (Some s_a) (Some t_a) (Some h_a) (Some t_2) w = (Ok v, w') ->
  cache_get (FSCache w') (allen_key s_a t_a h_a t_2) = Some v
  /\ exists r0 r1, v = CPair r0 r1.
Proof.
  intros H.
  destruct (cache_get (FSCache w) (allen_key s_a t_a h_a t_2)) as [c |] eqn:Hc.
  - destruct c as [r | r0 r1].
    + unfold makeAllen2 in H. cbn [arg] in H.
      unfold bind at 1, FSGetKey in H.
      fold (allen_key s_a t_a h_a t_2) in H. rewrite Hc in H.
      discriminate H.
    + rewrite (makeAllen2_hit self K s_a t_a h_a t_2 w r0 r1 Hc) in H.
      injection H as <- <-. cbn [FSCache]. split; [exact Hc | eauto].
  - unfold makeAllen2 in H. cbn [arg] in H.
    unfold bind at 1, FSGetKey in H.
    fold (allen_key s_a t_a h_a t_2) in H. rewrite Hc in H.
    to_the_end H.
    split; [| unfold bind, FSCache_set, ret in H; injection H as <- _; eauto].
    cache_written H.
Qed.

(** Built once.  When a call of a recess tool has returned, the same call
    made next finds the key and returns the same pair; no kernel algorithm
    runs and the cache is not written.  [makeIso10664_3] and
    [makeCross_H3] leave the whole world as it is; [makeAllen2] resets the
    two placements. *)
Lemma hexalobular_built_once (self : Screw) (K : Kernel) (T : FsDataTables)
    (RType : string) (t_hl h_hl : R) (w w' : World) (v : CacheVal) :
  makeIso10664_3 self K T (Some RType) (Some t_hl) (Some h_hl) w = (Ok v, w') ->
  makeIso10664_3 self K T (Some RType) (Some t_hl) (Some h_hl) w' = (Ok v, w').
Proof.
  intros H. apply makeIso10664_3_hit.
  exact (makeIso10664_3_caches self K T RType t_hl h_hl w w' v H).
Qed.

Lemma cross_built_once (self : Screw) (K : Kernel) (T : FsDataTables)
    (CrossType : string) (m h : R) (w w' : World) (v : CacheVal) :
  makeCross_H3 self K T (Some CrossType) (Some m) (Some h) w = (Ok v, w') ->
  makeCross_H3 self K T (Some CrossType) (Some m) (Some h) w' = (Ok v, w').
Proof.
  intros H. apply makeCross_H3_hit.
  exact (makeCross_H3_caches self K T CrossType m h w w' v H).
Qed.

Lemma allen_built_once (self : Screw) (K : Kernel)
    (s_a t_a h_a t_2 : R) (w w' : World) (v : CacheVal) :
  makeAllen2 self K (Some s_a) (Some t_a) (Some h_a) (Some t_2) w = (Ok v, w') ->
  exists w'',
    makeAllen2 self K (Some s_a) (Some t_a) (Some h_a) (Some t_2) w' = (Ok v, w'')
    /\ journal w'' = journal w'
    /\ FSCache w'' = FSCache w'.
Proof.
  intros H.
  destruct (makeAllen2_caches self K s_a t_a h_a t_2 w w' v H) as (Hc & r0 & r1 & ->).
  eexists. split; [apply makeAllen2_hit; exact Hc |].
  split; reflexivity.
Qed.

Lemma sqrt3_bounds : 1.732 < sqrt 3 < 1.7321.
Proof.
  pose proof sqrt3_pos as Hs.
  pose proof (sqrt_sqrt 3 ltac:(lra)) as Hsq.
  split; nra.
Qed.

Lemma quotient_lower (n d c : R) : d < 0 -> n <= c * d -> c <= n / d.
Proof.
  intros Hd Hn.
  assert (E : n / d * d = n) by (field; lra).
  nra.
Qed.

Lemma ratio_in_unit (a b den : R) : 0 <= a - b -> a - b <= den -> 0 < den ->
  ~ 1 < Rabs (a / den - b / den).
Proof.
  intros H0 H1 Hden.
  assert (E : a / den - b / den = (a - b) / den) by (field; lra).
  rewrite E.
  assert (0 <= (a - b) / den).
  { apply Rmult_le_pos; [exact H0 |]. apply Rlt_le, Rinv_0_lt_compat, Hden. }
  assert ((a - b) / den <= 1).
  { apply Rmult_le_reg_r with (r := den); [exact Hden |].
    replace ((a - b) / den * den) with (a - b) by (field; lra). lra. }
  rewrite Rabs_right by lra. lra.
Qed.

(** The first call for the size T20, depth 3 and height 0 in the empty
    world builds the tool: three kernel algorithms run, two objects are
    stored at height 0 and the pair is cached under the key. *)
Lemma hexalobular_T20_first_call :
  exists helo shell new,
    makeIso10664_3 Screw_init exampleKernel exampleTables
                   (Some "T20"%string) (Some 3) (Some 0) emptyWorld =
      (Ok (CPair 1%nat 0%nat),
       mkWorld [mkObj shell (at_height 0); mkObj helo (at_height 0)]
               [(hexalobular_key "T20" 3 0, CPair 1%nat 0%nat)] new)
    /\ List.length new = 3%nat.
Proof.
  pose proof sqrt3_bounds as Hs.
  unfold makeIso10664_3. cbn [arg].
  unfold bind at 1, FSGetKey. cbn [FSCache emptyWorld cache_get].
  unfold bind at 1, table_get. cbn [iso10664def exampleTables].
  destruct (string_dec "T20" "T20") as [_ | Hne]; [| exfalso; apply Hne; reflexivity].
  unfold ret at 1.
  unfold bind at 1, truediv at 1.
  destruct (Req_dec_T _ 0) as [E | _]; [exfalso; cbn [pow] in E; lra |].
  unfold ret at 1.
  unfold bind at 1, truediv at 1.
  destruct (Req_dec_T 3.95 0) as [E | _]; [exfalso; lra |].
  unfold ret at 1.
  unfold bind at 1, truediv at 1.
  destruct (Req_dec_T _ 0) as [E | _]; [exfalso; lra |].
  unfold ret at 1. cbv zeta.
  unfold bind at 1, RevolveZ, run at 1.
  set (N := - ((2.85 + sqrt 3 * (2 * 0.305 - 3.95)) * 2.85 + (3.95 - 4 * 0.305) * 3.95)).
  set (D := 4 * 2.85 - 2 * sqrt 3 * 3.95 + (4 * sqrt 3 - 8) * 0.305).
  assert (HD : D < 0) by (subst D; lra).
  assert (HRi : 0.53 <= N / D) by (apply quotient_lower; [exact HD | subst N D; lra]).
  unfold bind at 1, truediv at 1.
  destruct (Req_dec_T D 0) as [E | _]; [exfalso; lra |].
  unfold ret at 1.
  unfold bind at 1, truediv at 1.
  destruct (Req_dec_T (4 * (N / D) + 4 * 0.305) 0) as [E | _]; [exfalso; lra |].
  unfold ret at 1.
  unfold bind at 1, truediv at 1.
  destruct (Req_dec_T (4 * (N / D) + 4 * 0.305) 0) as [E | _]; [exfalso; lra |].
  unfold ret at 1.
  unfold bind at 1, math_acos.
  destruct (Rlt_dec 1 _) as [Hbad | _];
    [exfalso; revert Hbad; apply ratio_in_unit; lra |].
  unfold ret at 1.
  unfold bind at 1, run at 1.
  unfold bind at 1, run at 1.
  cbn [Faces exampleKernel map seq].
  unfold bind at 1, index at 1. cbn [nth_error]. unfold ret at 1.
  cbn [faces_from index nth_error bind ret app].
  unfold bind, new_object, FSCache_set, ret.
  cbn [objects FSCache journal emptyWorld app List.length].
  do 3 eexists. split; reflexivity.
Qed.

Lemma nth_error_update_nth {A : Type} (f : A -> A) (l : list A) (n k : nat) :
  nth_error (update_nth n f l) k
  = if Nat.eqb n k then option_map f (nth_error l k) else nth_error l k.
Proof.
  revert n k. induction l as [| a l IH]; intros n k.
  - destruct n, k; cbn; try reflexivity. destruct (Nat.eqb n k); reflexivity.
  - destruct n as [| n], k as [| k]; cbn; try reflexivity.
    apply IH.
Qed.

(** On a hit [makeAllen2] hands out both members of the pair at the
    requested height, wherever a caller has moved them. *)
Lemma makeAllen2_hit_resets_height (self : Screw) (K : Kernel)
    (s_a t_a h_a t_2 : R) (w : World) (r0 r1 : ref) (o0 o1 : Obj) :
  cache_get (FSCache w) (allen_key s_a t_a h_a t_2) = Some (CPair r0 r1) ->
  object w r0 = Some o0 -> object w r1 = Some o1 ->
  let out := makeAllen2 self K (Some s_a) (Some t_a) (Some h_a) (Some t_2) w in
  fst out = Ok (CPair r0 r1)
  /\ journal (snd out) = journal w
  /\ height (snd out) r0 = Some h_a
  /\ height (snd out) r1 = Some h_a.
Proof.
  intros Hhit H0 H1 out. subst out.
  rewrite (makeAllen2_hit self K s_a t_a h_a t_2 w r0 r1 Hhit).
  cbn [fst snd journal]. unfold height, object in *. cbn [objects].
  repeat split.
  - rewrite !nth_error_update_nth.
    destruct (Nat.eqb r1 r0) eqn:E1; rewrite Nat.eqb_refl, H0; reflexivity.
  - rewrite !nth_error_update_nth. rewrite Nat.eqb_refl.
    destruct (Nat.eqb r0 r1) eqn:E0; rewrite H1; reflexivity.
Qed.

(** C3, the failing input.  The hexalobular tool T20 (depth 3, height 0)
    is built by a first call, which runs three kernel algorithms and
    places the pair at height 0; the caller moves the solid it was handed, the
    very object the cache keeps, up by 5; the same call made again finds
    the key, runs no kernel algorithm and leaves the world as it is, and
    returns the cached pair with the solid at height 5, not at the
    requested height 0. *)
Theorem hexalobular_hit_keeps_moved_placement :
  exists w1 w2 : World,
    makeIso10664_3 Screw_init exampleKernel exampleTables
                   (Some "T20"%string) (Some 3) (Some 0) emptyWorld
      = (Ok (CPair 1%nat 0%nat), w1)
    /\ List.length (journal w1) = 3%nat
    /\ height w1 1%nat = Some 0
    /\ translate_object 1%nat (mkVector 0 0 5) w1 = (Ok tt, w2)
    /\ makeIso10664_3 Screw_init exampleKernel exampleTables
                      (Some "T20"%string) (Some 3) (Some 0) w2
       = (Ok (CPair 1%nat 0%nat), w2)
    /\ journal w2 = journal w1
    /\ exists z, height w2 1%nat = Some z /\ z <> 0.
Proof.
  destruct hexalobular_T20_first_call as (helo & shell & new & Hfirst & Hnew).
  eexists. eexists.
  split; [exact Hfirst |].
  split; [exact Hnew |].
  split; [reflexivity |].
  split; [reflexivity |].
  split.
  - apply makeIso10664_3_hit. cbn [FSCache]. apply cache_get_head.
  - split; [reflexivity |].
    exists (0 + 5). split; [reflexivity | lra].
Qed.

(** ** The length parser *)

Lemma split_not_nil (sep : ascii) (s : string) : split sep s <> [].
Proof.
  destruct s as [| c s']; cbn; [discriminate |].
  destruct (Ascii.eqb c sep); [discriminate |].
  destruct (split sep s'); discriminate.
Qed.

Lemma contains_char (sep c : ascii) (s : string) :
  contains (String sep EmptyString) (String c s)
  = if Ascii.eqb c sep then true else contains (String sep EmptyString) s.
Proof.
  cbn [contains String.prefix].
  destruct (ascii_dec sep c) as [E | E].
  - subst c. rewrite Ascii.eqb_refl. destruct s; reflexivity.
  - destruct (Ascii.eqb c sep) eqn:Eb; [| reflexivity].
    apply Ascii.eqb_eq in Eb. congruence.
Qed.

Lemma split_without (sep : ascii) (s : string) :
  contains (String sep EmptyString) s = false -> split sep s = [s].
Proof.
  induction s as [| c s IH]; intros H; [reflexivity |].
  rewrite contains_char in H. cbn [split].
  destruct (Ascii.eqb c sep); [discriminate |].
  rewrite (IH H). reflexivity.
Qed.

Lemma split_with (sep : ascii) (s : string) :
  contains (String sep EmptyString) s = true ->
  exists a b rest, split sep s = a :: b :: rest.
Proof.
  induction s as [| c s IH]; intros H; [discriminate |].
  rewrite contains_char in H. cbn [split].
  destruct (Ascii.eqb c sep).
  - destruct (split sep s) as [| b rest] eqn:E; [exfalso; exact (split_not_nil sep s E) |].
    exists EmptyString, b, rest. reflexivity.
  - destruct (IH H) as (a & b & rest & ->).
    exists (String c a), b, rest. reflexivity.
Qed.

(** The loop of [getLength] reads each component as the spec's term. *)
Lemma sum_components_terms (components : list string) (total : float) :
  sum_components components total = sum_terms components total.
Proof.
  revert total. induction components as [| item rest IH]; intros total; [reflexivity |].
  cbn [sum_components sum_terms]. unfold term_value.
  destruct (contains "/" item) eqn:Hc.
  - destruct (split_with "/" item Hc) as (a & b & more & ->).
    destruct (py_float a) as [x | e]; [| reflexivity]. cbn [and_then].
    destruct (py_float b) as [y | e]; [| reflexivity]. cbn [and_then].
    destruct (y =? 0)%float; [reflexivity |]. cbn [and_then]. apply IH.
  - rewrite (split_without "/" item Hc).
    destruct (py_float item) as [x | e]; [| reflexivity]. cbn [and_then]. apply IH.
Qed.

(** *** Strings of digits *)

Lemma digit_char_facts (d : nat) :
  (d < 10)%nat ->
  let c := digit_char d in
  digit_of c = Some (Z.of_nat d)
  /\ is_space c = false
  /\ Ascii.eqb c "-" = false /\ Ascii.eqb c "+" = false
  /\ Ascii.eqb c "." = false
  /\ Ascii.eqb c "i" = false /\ Ascii.eqb c "n" = false
  /\ lower c = c.
Proof.
  intros Hd.
  do 10 (destruct d as [| d]; [vm_compute; repeat split; reflexivity |]).
  lia.
Qed.

Lemma digits_rest_digits (ds : list nat) (acc count : Z) :
  Forall (fun d => (d < 10)%nat) ds ->
  digits_rest (map digit_char ds) acc count
  = (fold_left (fun a d => (10 * a + Z.of_nat d)%Z) ds acc,
     (count + Z.of_nat (List.length ds))%Z, []).
Proof.
  intros H. revert acc count. induction H as [| d ds Hd Hds IH]; intros acc count.
  - cbn. rewrite Z.add_0_r. reflexivity.
  - cbn [map digits_rest fold_left List.length].
    destruct (digit_char_facts d Hd) as (-> & _).
    rewrite IH. f_equal. f_equal. lia.
Qed.

Lemma rstrip_none (drop : ascii -> bool) (l : list ascii) :
  Forall (fun c => drop c = false) l ->
  rstrip drop (string_of_list_ascii l) = string_of_list_ascii l.
Proof.
  induction 1 as [| c l Hc Hl IH]; [reflexivity |].
  cbn [string_of_list_ascii rstrip]. rewrite IH, Hc.
  destruct (string_of_list_ascii l); reflexivity.
Qed.

Lemma lstrip_head (drop : ascii -> bool) (c : ascii) (s : string) :
  drop c = false -> lstrip drop (String c s) = String c s.
Proof. intros H. cbn [lstrip]. rewrite H. reflexivity. Qed.

Lemma contains_in_digits (l : list ascii) :
  Forall (fun c => Ascii.eqb c "i" = false) l ->
  contains "in" (string_of_list_ascii l) = false.
Proof.
  induction 1 as [| c l Hc Hl IH]; [reflexivity |].
  cbn [string_of_list_ascii contains String.prefix].
  destruct (ascii_dec "i" c) as [E | _].
  - subst c. discriminate Hc.
  - exact IH.
Qed.

Lemma binary_normalize_opp (m : positive) :
  binary_normalize prec emax (Z.neg m) 0 true
  = SFopp (binary_normalize prec emax (Z.pos m) 0 false).
Proof.
  unfold binary_normalize, binary_round.
  destruct (shl_align _ _ _) as [mz ez].
  unfold binary_round_aux.
  destruct (shr_fexp prec emax (Z.pos mz) ez loc_Exact) as [mrs' e'].
  destruct (shr_fexp _ _ _ _ _) as [mrs'' e''].
  destruct (shr_m mrs''); [reflexivity | | reflexivity].
  destruct (e'' <=? emax - prec)%Z; reflexivity.
Qed.

Lemma round_decimal_integer (v : Z) :
  (0 <= v < 2 ^ 63)%Z ->
  round_decimal false v 0 = of_uint63 (Uint63.of_Z v)
  /\ round_decimal true v 0 = (- of_uint63 (Uint63.of_Z v))%float.
Proof.
  intros Hv.
  assert (Hphi : Uint63.to_Z (Uint63.of_Z v) = v).
  { rewrite Uint63.of_Z_spec. apply Z.mod_small. exact Hv. }
  pose proof (of_uint63_spec (Uint63.of_Z v)) as Hspec. rewrite Hphi in Hspec.
  destruct v as [| m | m]; [split; reflexivity | | lia].
  unfold round_decimal. cbv zeta.
  replace (Z.pos m * 10 ^ 0)%Z with (Z.pos m) by lia.
  split.
  - rewrite <- Hspec. apply SF2Prim_Prim2SF.
  - change (- Z.pos m)%Z with (Z.neg m).
    rewrite binary_normalize_opp, <- Hspec, <- FloatAxioms.opp_spec.
    apply SF2Prim_Prim2SF.
Qed.

Lemma py_float_digits (ds : list nat) :
  ds <> [] -> Forall (fun d => (d < 10)%nat) ds ->
  py_float (digits_string ds) = Ok (round_decimal false (digits_value ds) 0)
  /\ py_float (String "-" (digits_string ds))
     = Ok (round_decimal true (digits_value ds) 0).
Proof.
  intros Hne Hds.
  destruct ds as [| d ds]; [contradiction |].
  pose proof (Forall_inv Hds) as Hd. pose proof (Forall_inv_tail Hds) as Hrest.
  destruct (digit_char_facts d Hd) as (Hdig & Hsp & Hm & Hp & Hdot & Hi & Hn & Hlow).
  assert (Hspace : Forall (fun c => is_space c = false) (map digit_char (d :: ds))).
  { apply Forall_map. eapply Forall_impl; [| exact Hds].
    intros a Ha. apply (digit_char_facts a Ha). }
  assert (Hdec : decimal_of (map digit_char (d :: ds)) = Some (digits_value (d :: ds), 0%Z)).
  { cbn [map decimal_of]. rewrite Hdot. cbn [digitpart]. rewrite Hdig.
    rewrite (digits_rest_digits ds _ _ Hrest). reflexivity. }
  assert (Hword : forall w,
            String.eqb (string_of_list_ascii (map lower (map digit_char (d :: ds)))) w
            = true -> w <> "inf"%string /\ w <> "infinity"%string /\ w <> "nan"%string).
  { intros w Hw. apply String.eqb_eq in Hw. subst w.
    cbn [map string_of_list_ascii]. rewrite Hlow.
    repeat split; intros E; injection E as E _;
      rewrite E in Hi, Hn; discriminate. }
  assert (Hnot : forall w, (w = "inf" \/ w = "infinity" \/ w = "nan")%string ->
            String.eqb (string_of_list_ascii (map lower (map digit_char (d :: ds)))) w
            = false).
  { intros w Hw. destruct (String.eqb _ w) eqn:E; [| reflexivity].
    destruct (Hword w E) as (H1 & H2 & H3). destruct Hw as [-> | [-> | ->]]; contradiction. }
  split.
  - unfold py_float, digits_string.
    change (string_of_list_ascii (map digit_char (d :: ds)))
      with (String (digit_char d) (string_of_list_ascii (map digit_char ds))).
    rewrite lstrip_head by exact Hsp.
    change (String (digit_char d) (string_of_list_ascii (map digit_char ds)))
      with (string_of_list_ascii (map digit_char (d :: ds))).
    rewrite rstrip_none by exact Hspace.
    rewrite list_ascii_of_string_of_list_ascii.
    change (sign_of (map digit_char (d :: ds)))
      with (sign_of (digit_char d :: map digit_char ds)).
    unfold sign_of. rewrite Hm, Hp.
    change (digit_char d :: map digit_char ds) with (map digit_char (d :: ds)).
    rewrite !Hnot by auto. cbn [orb]. rewrite Hdec. reflexivity.
  - unfold py_float, digits_string.
    rewrite lstrip_head by reflexivity.
    change (String "-" (string_of_list_ascii (map digit_char (d :: ds))))
      with (string_of_list_ascii ("-"%char :: map digit_char (d :: ds))).
    rewrite rstrip_none by (constructor; [reflexivity | exact Hspace]).
    rewrite list_ascii_of_string_of_list_ascii.
    change (sign_of ("-"%char :: map digit_char (d :: ds)))
      with (true, map digit_char (d :: ds)).
    cbv beta iota.
    rewrite !Hnot by auto. cbn [orb]. rewrite Hdec. reflexivity.
Qed.

Lemma digits_value_nonneg (ds : list nat) : (0 <= digits_value ds)%Z.
Proof.
  unfold digits_value.
  assert (H : forall acc, (0 <= acc)%Z ->
            (0 <= fold_left (fun a d => (10 * a + Z.of_nat d)%Z) ds acc)%Z).
  { induction ds as [| d ds IH]; intros acc Hacc; [exact Hacc |].
    cbn [fold_left]. apply IH. lia. }
  apply H. lia.
Qed.

(** [getLength] on a string of digits, and on the same string after a
    minus sign: the whole number, converted to binary64. *)
Lemma getLength_digits (ds : list nat) :
  ds <> [] -> Forall (fun d => (d < 10)%nat) ds -> (digits_value ds < 2 ^ 63)%Z ->
  getLength (PyStr (digits_string ds))
    = Ok (PyFloat (of_uint63 (Uint63.of_Z (digits_value ds))))
  /\ getLength (PyStr (String "-" (digits_string ds)))
    = Ok (PyFloat (- of_uint63 (Uint63.of_Z (digits_value ds)))%float).
Proof.
  intros Hne Hds Hv.
  pose proof (digits_value_nonneg ds) as H0.
  destruct (py_float_digits ds Hne Hds) as [Hpos Hneg].
  destruct (round_decimal_integer (digits_value ds) (conj H0 Hv)) as [Rpos Rneg].
  assert (Hi : Forall (fun c => Ascii.eqb c "i" = false) (map digit_char ds)).
  { apply Forall_map. eapply Forall_impl; [| exact Hds].
    intros a Ha. apply (digit_char_facts a Ha). }
  unfold getLength. split.
  - unfold digits_string at 1. rewrite contains_in_digits by exact Hi.
    cbn [negb]. rewrite Hpos. cbn [and_then]. rewrite Rpos. reflexivity.
  - change (String "-" (digits_string ds))
      with (string_of_list_ascii ("-"%char :: map digit_char ds)) at 1.
    rewrite contains_in_digits by (constructor; [reflexivity | exact Hi]).
    cbn [negb]. cbn [string_of_list_ascii]. fold (digits_string ds).
    rewrite Hneg. cbn [and_then]. rewrite Rneg. reflexivity.
Qed.

(** C8.  [getLength "10"] is [10.0]; [getLength "1/2in"] is within [1e-6]
    of [12.7] and [getLength "1 1/2in"] within [1e-6] of [38.1] (in
    binary64 arithmetic; the values are [12.7] and [38.099999999999994]).
    A string without [in] is read as a plain decimal: the samples give the
    value for a sign, a fraction, an exponent, digits beyond the precision,
    white space around the number and an underscore between digits, each
    against the binary64 constant of the same digits, and the strings that
    are no decimal are a [ValueError]; a string of decimal digits, with
    or without a minus sign before it, is read as the whole number it
    writes (below [2^63]), converted to binary64 as the machine converts
    an integer.  A string with [in] is read as the
    terms left after the characters [i] and [n] are stripped from its
    ends: terms separated by spaces, each a whole number or a fraction
    with [/], summed from the left, starting from 0, and multiplied by
    25.4. *)
Theorem getLength_parsing :
  getLength (PyStr "10") = Ok (PyFloat 10)
  /\ (exists x, getLength (PyStr "1/2in") = Ok (PyFloat x)
                /\ (abs (x - 12.7) <=? 1e-6)%float = true)
  /\ (exists x, getLength (PyStr "1 1/2in") = Ok (PyFloat x)
                /\ (abs (x - 38.1) <=? 1e-6)%float = true)
  /\ (getLength (PyStr "-10") = Ok (PyFloat (-10))
      /\ getLength (PyStr "2.5") = Ok (PyFloat 2.5)
      /\ getLength (PyStr "0.1") = Ok (PyFloat 0x1.999999999999ap-4)
      /\ getLength (PyStr "25.4") = Ok (PyFloat 0x1.9666666666666p+4)
      /\ getLength (PyStr "-123.456") = Ok (PyFloat (- 0x1.edd2f1a9fbe77p+6))
      /\ getLength (PyStr "0.30000000000000004") = Ok (PyFloat 0x1.3333333333334p-2)
      /\ getLength (PyStr "1e3") = Ok (PyFloat 1000)
      /\ getLength (PyStr "1.5E-3") = Ok (PyFloat 0x1.89374bc6a7efap-10)
      /\ getLength (PyStr "-2.5e-3") = Ok (PyFloat (- 0x1.47ae147ae147bp-9))
      /\ getLength (PyStr "1e23") = Ok (PyFloat 0x1.52d02c7e14af6p+76)
      /\ getLength (PyStr "9007199254740993") = Ok (PyFloat 9007199254740992)
      /\ getLength (PyStr " +7.25 ") = Ok (PyFloat 7.25)
      /\ getLength (PyStr ".5") = Ok (PyFloat 0.5)
      /\ getLength (PyStr "5.") = Ok (PyFloat 5)
      /\ getLength (PyStr "1_000") = Ok (PyFloat 1000)
      /\ getLength (PyStr "-0") = Ok (PyFloat (- 0))
      /\ getLength (PyStr "1e400") = Ok (PyFloat infinity)
      /\ getLength (PyStr "4.9e-324") = Ok (PyFloat 0x0.0000000000001p-1022))
  /\ (getLength (PyStr "") = Raise ValueError
      /\ getLength (PyStr "abc") = Raise ValueError
      /\ getLength (PyStr "1,5") = Raise ValueError
      /\ getLength (PyStr "1 1/2") = Raise ValueError
      /\ getLength (PyStr "1__0") = Raise ValueError
      /\ getLength (PyStr "--1") = Raise ValueError
      /\ getLength (PyStr (String (ascii_of_nat 28) "10")) = Raise ValueError)
  /\ (getLength (PyStr "1/2in") = Ok (PyFloat 0x1.9666666666666p+3)
      /\ getLength (PyStr "1 1/2in") = Ok (PyFloat 0x1.30cccccccccccp+5)
      /\ getLength (PyStr "3/8in") = Ok (PyFloat 0x1.30cccccccccccp+3)
      /\ getLength (PyStr "2 3/4in") = Ok (PyFloat 0x1.1766666666666p+6)
      /\ getLength (PyStr "-2in") = Ok (PyFloat (- 0x1.9666666666666p+5))
      /\ getLength (PyStr "-1/2in") = Ok (PyFloat (- 0x1.9666666666666p+3))
      /\ getLength (PyStr "0.5in") = Ok (PyFloat 0x1.9666666666666p+3)
      /\ getLength (PyStr "10 in") = Raise ValueError)
  /\ (forall ds : list nat,
        ds <> [] -> Forall (fun d => (d < 10)%nat) ds -> (digits_value ds < 2 ^ 63)%Z ->
        getLength (PyStr (digits_string ds))
          = Ok (PyFloat (of_uint63 (Uint63.of_Z (digits_value ds))))
        /\ getLength (PyStr (String "-" (digits_string ds)))
          = Ok (PyFloat (- of_uint63 (Uint63.of_Z (digits_value ds)))%float))
  /\ forall s : string,
       getLength (PyStr s)
       = if contains "in" s then inch_length s else plain_decimal s.
Proof.
  split; [vm_compute; reflexivity |].
  split; [eexists; split; vm_compute; reflexivity |].
  split; [eexists; split; vm_compute; reflexivity |].
  split; [repeat split; vm_compute; reflexivity |].
  split; [repeat split; vm_compute; reflexivity |].
  split; [repeat split; vm_compute; reflexivity |].
  split; [exact getLength_digits |].
  intros s. unfold getLength, inch_length, plain_decimal.
  destruct (contains "in" s); cbn [negb]; [| reflexivity].
  rewrite sum_components_terms. reflexivity.
Qed.

(** [float] on literals agrees with the reading of the same literals as
    binary64 constants. *)
Example py_float_samples :
  py_float "25.4" = Ok 25.4%float
  /\ py_float " 1_0.5e-1 " = Ok 1.05%float
  /\ py_float "-.5" = Ok (-0.5)%float
  /\ py_float "1e400" = Ok infinity
  /\ py_float "1/2" = Raise ValueError
  /\ py_float "" = Raise ValueError.
Proof. repeat split; vm_compute; reflexivity. Qed.

(** An inch expression with [in] inside, or with two spaces in a row, is
    a [ValueError]; a zero denominator is a [ZeroDivisionError]. *)
Example getLength_malformed :
  getLength (PyStr "1in 2") = Raise ValueError
  /\ getLength (PyStr "1  1/2in") = Raise ValueError
  /\ getLength (PyStr "1/0in") = Raise ZeroDivisionError.
Proof. repeat split; vm_compute; reflexivity. Qed.

(** C10.  An integer argument is returned as it is: the same integer, with
    no parsing and no conversion from inches.  The result is neither a
    float nor an exception, whereas the string of the same digits gives a
    float, and with [in] the float times 25.4. *)
Theorem getLength_int_passthrough (L : Z) :
  getLength (PyInt L) = Ok (PyInt L)
  /\ (forall f, getLength (PyInt L) <> Ok (PyFloat f))
  /\ (forall e, getLength (PyInt L) <> Raise e)
  /\ getLength (PyInt 1) = Ok (PyInt 1)
  /\ getLength (PyStr "1") = Ok (PyFloat 1)
  /\ getLength (PyStr "1in") = Ok (PyFloat 25.4).
Proof.
  split; [reflexivity |].
  split; [intros f H; discriminate H |].
  split; [intros e H; discriminate H |].
  repeat split; vm_compute; reflexivity.
Qed.

(** * Further properties *)

(** ** The length parser on strings *)

Lemma py_float_raises (s : string) (e : exn) :
  py_float s = Raise e -> e = ValueError.
Proof.
  unfold py_float.
  destruct (sign_of _) as [neg l].
  destruct (_ || _)%bool; [discriminate |].
  destruct (String.eqb _ "nan"); [discriminate |].
  destruct (decimal_of l) as [[m x] |]; [discriminate |].
  intros H. injection H as <-. reflexivity.
Qed.

Lemma sum_components_raises (components : list string) (total : float) (e : exn) :
  sum_components components total = Raise e ->
  e = ValueError \/ e = ZeroDivisionError.
Proof.
  revert total. induction components as [| item rest IH]; intros total H.
  - discriminate H.
  - cbn [sum_components] in H.
    destruct (contains "/" item) eqn:Hc.
    + destruct (split_with "/" item Hc) as (a & b & more & Hs).
      rewrite Hs in H.
      destruct (py_float a) as [x | e1] eqn:Ha; cbn [and_then] in H;
        [| injection H as <-; left; exact (py_float_raises a e1 Ha)].
      destruct (py_float b) as [y | e1] eqn:Hb; cbn [and_then] in H;
        [| injection H as <-; left; exact (py_float_raises b e1 Hb)].
      destruct (y =? 0)%float; [injection H as <-; right; reflexivity |].
      exact (IH _ H).
    + destruct (py_float item) as [x | e1] eqn:Ha; cbn [and_then] in H;
        [| injection H as <-; left; exact (py_float_raises item e1 Ha)].
      exact (IH _ H).
Qed.

(** X1.  For a string argument [getLength] gives a float, or raises
    [ValueError] or [ZeroDivisionError], and nothing else: no integer or
    string comes back, and the index [subcmpts[1]] never fails. *)
Theorem getLength_string_outcomes (s : string) :
  (exists f, getLength (PyStr s) = Ok (PyFloat f))
  \/ getLength (PyStr s) = Raise ValueError
  \/ getLength (PyStr s) = Raise ZeroDivisionError.
Proof.
  unfold getLength.
  destruct (negb (contains "in" s)).
  - destruct (py_float s) as [x | e] eqn:Hf; cbn [and_then].
    + left. eexists. reflexivity.
    + right. left. rewrite (py_float_raises s e Hf). reflexivity.
  - destruct (sum_components (split " " (strip "in" s)) 0) as [t | e] eqn:Hs;
      cbn [and_then].
    + left. eexists. reflexivity.
    + right. destruct (sum_components_raises _ _ e Hs) as [-> | ->]; auto.
Qed.

(** *** Strings put together *)

Open Scope string_scope.

Lemma prefix_refl (s : string) : String.prefix s s = true.
Proof.
  induction s as [| c s IH]; [reflexivity |].
  cbn. destruct (ascii_dec c c) as [_ | Hne]; [exact IH | contradiction].
Qed.

Lemma contains_suffix (sub s : string) : contains sub (s ++ sub) = true.
Proof.
  induction s as [| c s IH].
  - cbn [append]. destruct sub; cbn [contains]; rewrite ?prefix_refl; reflexivity.
  - cbn [append contains]. rewrite IH.
    destruct (String.prefix sub (String c (s ++ sub))); reflexivity.
Qed.

Lemma contains_char_app (c : ascii) (a b : string) :
  contains (String c EmptyString) (a ++ b)
  = (contains (String c EmptyString) a || contains (String c EmptyString) b)%bool.
Proof.
  induction a as [| x a IH]; [reflexivity |].
  cbn [append]. rewrite !contains_char.
  destruct (Ascii.eqb x c); [reflexivity | exact IH].
Qed.

Lemma contains_char_one (c x : ascii) :
  contains (String c EmptyString) (String x EmptyString) = Ascii.eqb x c.
Proof.
  rewrite contains_char. destruct (Ascii.eqb x c); reflexivity.
Qed.

Lemma char_in_contains (c : ascii) (chars : string) :
  char_in c chars = contains (String c EmptyString) chars.
Proof.
  induction chars as [| x chars IH]; [reflexivity |].
  rewrite contains_char. cbn [char_in].
  rewrite Ascii.eqb_sym. destruct (Ascii.eqb x c); [reflexivity | exact IH].
Qed.

Lemma keeps_in (s : string) :
  contains "i" s = false -> contains "n" s = false ->
  keeps (fun c => char_in c "in") s.
Proof.
  induction s as [| c s IH]; intros Hi Hn; [exact I |].
  rewrite contains_char in Hi, Hn.
  destruct (Ascii.eqb c "i") eqn:Ei; [discriminate |].
  destruct (Ascii.eqb c "n") eqn:En; [discriminate |].
  split; [| exact (IH Hi Hn)].
  cbn [char_in]. rewrite Ei, En. reflexivity.
Qed.

Lemma lstrip_keeps (drop : ascii -> bool) (s : string) :
  keeps drop s -> s <> EmptyString -> forall t, lstrip drop (s ++ t) = s ++ t.
Proof.
  destruct s as [| c s]; intros Hk Hne t; [contradiction |].
  destruct Hk as [Hc _]. cbn [append lstrip]. rewrite Hc. reflexivity.
Qed.

Lemma rstrip_keeps (drop : ascii -> bool) (s : string) :
  keeps drop s -> rstrip drop s = s.
Proof.
  induction s as [| c s IH]; intros Hk; [reflexivity |].
  destruct Hk as [Hc Hs]. cbn [rstrip]. rewrite (IH Hs).
  destruct s; [rewrite Hc |]; reflexivity.
Qed.

Lemma rstrip_dropped (drop : ascii -> bool) (s t : string) :
  rstrip drop t = EmptyString -> rstrip drop (s ++ t) = rstrip drop s.
Proof.
  intros Ht. induction s as [| c s IH]; [exact Ht |].
  cbn [append rstrip]. rewrite IH. reflexivity.
Qed.

(** The unit [in] comes off the end of a string that holds neither [i]
    nor [n]. *)
Lemma strip_unit (s : string) :
  contains "i" s = false -> contains "n" s = false ->
  strip "in" (s ++ "in") = s.
Proof.
  intros Hi Hn. pose proof (keeps_in s Hi Hn) as Hk.
  unfold strip.
  destruct s as [| c s]; [reflexivity |].
  rewrite lstrip_keeps by (assumption || discriminate).
  rewrite rstrip_dropped by reflexivity.
  apply rstrip_keeps. exact Hk.
Qed.

Lemma append_assoc (a b c : string) : (a ++ b) ++ c = a ++ (b ++ c).
Proof.
  induction a as [| x a IH]; [reflexivity |].
  cbn [append]. rewrite IH. reflexivity.
Qed.

Lemma split_first (sep : ascii) (a b : string) :
  contains (String sep EmptyString) a = false ->
  split sep (a ++ String sep b) = a :: split sep b.
Proof.
  induction a as [| c a IH]; intros H.
  - cbn [append split]. rewrite Ascii.eqb_refl. reflexivity.
  - rewrite contains_char in H. cbn [append split].
    destruct (Ascii.eqb c sep); [discriminate |].
    rewrite (IH H). reflexivity.
Qed.

(** An inch expression whose body holds neither [i] nor [n]: the body is
    what the loop reads. *)
Lemma getLength_inches (z : string) :
  contains "i" z = false -> contains "n" z = false ->
  getLength (PyStr (z ++ "in"))
  = (total <~ sum_components (split " " z) 0%float ;;
     Ok (PyFloat (total * 25.4)%float)).
Proof.
  intros Hi Hn. unfold getLength.
  rewrite contains_suffix. cbn [negb].
  rewrite (strip_unit z Hi Hn). reflexivity.
Qed.

(** X2.  Whole inches: for a string [s] without [i], [n], space and [/],
    [getLength (s + "in")] is [float(s)] times 25.4 (the sum starts from
    the integer 0), and it raises what [float(s)] raises. *)
Theorem getLength_whole_inches (s : string) :
  contains "i" s = false -> contains "n" s = false ->
  contains " " s = false -> contains "/" s = false ->
  getLength (PyStr (s ++ "in"))
  = (x <~ py_float s ;; Ok (PyFloat ((0 + x) * 25.4)%float)).
Proof.
  intros Hi Hn Hsp Hsl.
  rewrite (getLength_inches s Hi Hn).
  rewrite (split_without " " s Hsp).
  cbn [sum_components]. rewrite Hsl.
  destruct (py_float s); reflexivity.
Qed.

Lemma getLength_whole_inches_witness :
  getLength (PyStr ("-2" ++ "in"))
    = (x <~ py_float "-2" ;; Ok (PyFloat ((0 + x) * 25.4)%float))
  /\ py_float "-2" = Ok (- 2)%float
  /\ getLength (PyStr "-2in") = Ok (PyFloat (- 0x1.9666666666666p+5)%float)
  /\ getLength (PyStr "2.5in") = Ok (PyFloat 0x1.fcp+5%float).
Proof.
  split; [apply (getLength_whole_inches "-2"); reflexivity |].
  repeat split; vm_compute; reflexivity.
Defined.

(** X3.  A mixed fraction: for parts [w], [n], [d] without [i], [n], space
    and [/], [getLength (w + " " + n + "/" + d + "in")] is
    [(float(w) + float(n) / float(d)) * 25.4]; the parts are converted in
    this order, an unreadable part is a [ValueError] and a zero denominator
    a [ZeroDivisionError]. *)
Theorem getLength_mixed_fraction (w n d : string) :
  contains "i" w = false -> contains "n" w = false ->
  contains " " w = false -> contains "/" w = false ->
  contains "i" n = false -> contains "n" n = false ->
  contains " " n = false -> contains "/" n = false ->
  contains "i" d = false -> contains "n" d = false ->
  contains " " d = false -> contains "/" d = false ->
  getLength (PyStr (w ++ " " ++ n ++ "/" ++ d ++ "in"))
  = (a <~ py_float w ;;
     b <~ py_float n ;;
     c <~ py_float d ;;
     if (c =? 0)%float then Raise ZeroDivisionError
     else Ok (PyFloat ((0 + a + b / c) * 25.4)%float)).
Proof.
  intros Hwi Hwn Hws Hwl Hni Hnn Hns Hnl Hdi Hdn Hds Hdl.
  replace (w ++ " " ++ n ++ "/" ++ d ++ "in")
    with ((w ++ " " ++ n ++ "/" ++ d) ++ "in")
    by (rewrite !append_assoc; reflexivity).
  rewrite getLength_inches;
    [| rewrite !contains_char_app, Hwi, Hni, Hdi; reflexivity
     | rewrite !contains_char_app, Hwn, Hnn, Hdn; reflexivity].
  change (w ++ " " ++ n ++ "/" ++ d) with (w ++ String " " (n ++ "/" ++ d)).
  rewrite (split_first " " w _ Hws).
  rewrite split_without
    by (rewrite !contains_char_app, Hns, Hds; reflexivity).
  cbn [sum_components]. rewrite Hwl.
  destruct (py_float w) as [a | e]; [| reflexivity]. cbn [and_then].
  rewrite !contains_char_app. rewrite Hnl. cbn [orb contains String.prefix].
  change (n ++ "/" ++ d) with (n ++ String "/" d).
  rewrite (split_first "/" n d Hnl). rewrite (split_without "/" d Hdl).
  destruct (py_float n) as [b | e]; [| reflexivity]. cbn [and_then].
  destruct (py_float d) as [c | e]; [| reflexivity]. cbn [and_then].
  destruct (c =? 0)%float; reflexivity.
Qed.

Lemma getLength_mixed_fraction_witness :
  getLength (PyStr ("-1" ++ " " ++ "-1" ++ "/" ++ "2" ++ "in"))
    = (a <~ py_float "-1" ;;
       b <~ py_float "-1" ;;
       c <~ py_float "2" ;;
       if (c =? 0)%float then Raise ZeroDivisionError
       else Ok (PyFloat ((0 + a + b / c) * 25.4)%float))
  /\ py_float "-1" = Ok (- 1)%float
  /\ getLength (PyStr "-1 -1/2in") = Ok (PyFloat (- 0x1.30cccccccccccp+5)%float)
  /\ getLength (PyStr "2 3/4in") = Ok (PyFloat 0x1.1766666666666p+6%float).
Proof.
  split; [apply (getLength_mixed_fraction "-1" "-1" "2"); reflexivity |].
  repeat split; vm_compute; reflexivity.
Defined.

(** X4.  Parts of a fraction after the second are not read: with [n] and
    [d] as before and any [rest] without [i], [n] and space,
    [n + "/" + d + "/" + rest + "in"] gives what [n + "/" + d + "in"]
    gives, whatever [rest] is. *)
Theorem getLength_extra_parts_ignored (n d rest : string) :
  contains "i" n = false -> contains "n" n = false ->
  contains " " n = false -> contains "/" n = false ->
  contains "i" d = false -> contains "n" d = false ->
  contains " " d = false -> contains "/" d = false ->
  contains "i" rest = false -> contains "n" rest = false ->
  contains " " rest = false ->
  getLength (PyStr (n ++ "/" ++ d ++ "/" ++ rest ++ "in"))
  = getLength (PyStr (n ++ "/" ++ d ++ "in")).
Proof.
  intros Hni Hnn Hns Hnl Hdi Hdn Hds Hdl Hri Hrn Hrs.
  replace (n ++ "/" ++ d ++ "/" ++ rest ++ "in")
    with ((n ++ "/" ++ d ++ "/" ++ rest) ++ "in")
    by (rewrite !append_assoc; reflexivity).
  replace (n ++ "/" ++ d ++ "in") with ((n ++ "/" ++ d) ++ "in")
    by (rewrite !append_assoc; reflexivity).
  rewrite !getLength_inches;
    try (rewrite !contains_char_app, ?Hni, ?Hnn, ?Hdi, ?Hdn, ?Hri, ?Hrn; reflexivity).
  rewrite !split_without
    by (rewrite !contains_char_app, ?Hns, ?Hds, ?Hrs; reflexivity).
  cbn [sum_components].
  rewrite !contains_char_app. rewrite Hnl. cbn [orb contains String.prefix].
  change (n ++ "/" ++ d ++ "/" ++ rest) with (n ++ String "/" (d ++ String "/" rest)).
  change (n ++ "/" ++ d) with (n ++ String "/" d).
  rewrite !(split_first "/" n _ Hnl).
  rewrite (split_first "/" d rest Hdl). rewrite (split_without "/" d Hdl).
  destruct (split "/" rest); reflexivity.
Qed.

Lemma getLength_extra_parts_ignored_witness :
  getLength (PyStr ("1" ++ "/" ++ "2" ++ "/" ++ "x/3" ++ "in"))
  = getLength (PyStr ("1" ++ "/" ++ "2" ++ "in")).
Proof.
  apply (getLength_extra_parts_ignored "1" "2" "x/3"); reflexivity.
Defined.

Close Scope string_scope.

(** ** createScrew *)

Lemma getLength_of_string (s : string) (v : PyVal) :
  getLength (PyStr s) = Ok v -> exists x, v = PyFloat x.
Proof.
  intros H.
  destruct (getLength_string_outcomes s) as [[f Hf] | [Hr | Hr]];
    rewrite H in *; [| discriminate | discriminate].
  injection Hf as ->. eauto.
Qed.

Lemma createScrew_body_none (function : string) (s : Session) :
  fst (createScrew_body function s) = Returns None ->
  (function = ""%string
   /\ the_world (snd (createScrew_body function s)) = the_world s)
  \/ (exists b fa',
        attrs (the_host s) function = Some (Method b)
        /\ fst (b (with_leftHanded (the_screw s) (fa_leftHanded (the_attribs s)))
                  fa' (the_world s)) = Ok VNone).
Proof.
  unfold createScrew_body.
  destruct (if String.eqb (diameter (the_attribs s)) "Custom" then _ else _)
    as [row | e]; [| discriminate].
  destruct (String.eqb function "") eqn:Ef; cbn [negb].
  - intros _. apply String.eqb_eq in Ef. left. split; [exact Ef | reflexivity].
  - destruct (attrs (the_host s) function) as [[b |] |]; try discriminate.
    destruct (b _ _ _) as [[[screw | | v] | e] w'] eqn:Eb; try discriminate.
    intros _. right. exists b. eexists. split; [reflexivity |].
    cbn [fa_leftHanded with_dimTable] in Eb. rewrite Eb. reflexivity.
Qed.

Lemma resolve_loaded (function : string) (h : Host) (a : Attr) :
  attrs h function = None -> FsFunctions h function = Loaded a ->
  attrs (setattr function a h) function = Some a /\ resolve function h = Some a.
Proof.
  intros Hn Hl. unfold resolve, setattr. cbn [attrs].
  rewrite String.eqb_refl, Hn, Hl. split; reflexivity.
Qed.

(** X5.  What [None] means.  When [createScrew] returns [None], either the
    object was not available, or the length could not be read
    ([ValueError]), or the name of the function was empty, and then no
    kernel algorithm has run and the cache is as it was; or else the
    method it called has itself returned [None]. *)
Theorem createScrew_none (function : string) (s : Session) :
  fst (createScrew function s) = Returns None ->
  ((objAvailable (the_screw s) = false
    \/ (exists len, calc_len (the_attribs s) = Some len
                    /\ getLength len = Raise ValueError)
    \/ function = ""%string)
   /\ the_world (snd (createScrew function s)) = the_world s)
  \/ (exists b fa',
        resolve function (the_host s) = Some (Method b)
        /\ fst (b (with_leftHanded (the_screw s) (fa_leftHanded (the_attribs s)))
                  fa' (the_world s)) = Ok VNone).
Proof.
  assert (Hbody : forall fa h,
            fa_leftHanded fa = fa_leftHanded (the_attribs s) ->
            (forall b, attrs h function = Some (Method b) ->
                       resolve function (the_host s) = Some (Method b)) ->
            fst (createScrew_body function (mkSession (the_screw s) fa h (the_world s)))
              = Returns None ->
            (function = ""%string
             /\ the_world (snd (createScrew_body function
                                  (mkSession (the_screw s) fa h (the_world s))))
                = the_world s)
            \/ (exists b fa',
                  resolve function (the_host s) = Some (Method b)
                  /\ fst (b (with_leftHanded (the_screw s)
                                             (fa_leftHanded (the_attribs s)))
                            fa' (the_world s)) = Ok VNone)).
  { intros fa h Hlh Hres H.
    destruct (createScrew_body_none function _ H) as [Hempty | (b & fa' & Hb & Hnone)].
    - left. exact Hempty.
    - right. exists b, fa'. cbn [the_host the_screw the_attribs the_world] in *.
      rewrite Hlh in Hnone. split; [apply Hres; exact Hb | exact Hnone]. }
  unfold createScrew.
  destruct (objAvailable (the_screw s)); cbn [negb];
    [| intros _; left; split; auto].
  destruct (calc_len (the_attribs s)) as [len |] eqn:Hlen.
  - destruct (getLength len) as [v | e] eqn:Hg.
    + destruct (attrs (the_host s) function) as [a |] eqn:Ha.
      * intros H.
        assert (Hown : forall b, attrs (the_host s) function = Some (Method b) ->
                                 resolve function (the_host s) = Some (Method b))
          by (intros b Hb; unfold resolve; rewrite Hb; reflexivity).
        destruct (Hbody (with_calc_len (the_attribs s) (Some v)) (the_host s) eq_refl Hown H)
          as [[-> Hw] | Hm]; [left; split; [auto | exact Hw] | right; exact Hm].
      * destruct (FsFunctions (the_host s) function) as [a | |] eqn:Hl;
          try discriminate.
        destruct (resolve_loaded function (the_host s) a Ha Hl) as [Hset Hres].
        intros H.
        assert (Hnew : forall b,
                  attrs (setattr function a (the_host s)) function = Some (Method b) ->
                  resolve function (the_host s) = Some (Method b))
          by (intros b Hb; rewrite Hset in Hb; rewrite Hres; exact Hb).
        destruct (Hbody (with_calc_len (the_attribs s) (Some v))
                    (setattr function a (the_host s)) eq_refl Hnew H)
          as [[-> Hw] | Hm]; [left; split; [auto | exact Hw] | right; exact Hm].
    + destruct e; try discriminate.
      intros _. left. split; [| reflexivity]. right. left. eauto.
  - destruct (attrs (the_host s) function) as [a |] eqn:Ha.
    + intros H.
      assert (Hown : forall b, attrs (the_host s) function = Some (Method b) ->
                               resolve function (the_host s) = Some (Method b))
        by (intros b Hb; unfold resolve; rewrite Hb; reflexivity).
      destruct (Hbody (the_attribs s) (the_host s) eq_refl Hown H)
        as [[-> Hw] | Hm]; [left; split; [auto | exact Hw] | right; exact Hm].
    + destruct (FsFunctions (the_host s) function) as [a | |] eqn:Hl;
        try discriminate.
      destruct (resolve_loaded function (the_host s) a Ha Hl) as [Hset Hres].
      intros H.
      assert (Hnew : forall b,
                attrs (setattr function a (the_host s)) function = Some (Method b) ->
                resolve function (the_host s) = Some (Method b))
        by (intros b Hb; rewrite Hset in Hb; rewrite Hres; exact Hb).
      destruct (Hbody (the_attribs s) (setattr function a (the_host s)) eq_refl Hnew H)
        as [[-> Hw] | Hm]; [left; split; [auto | exact Hw] | right; exact Hm].
Qed.

Lemma createScrew_none_witness :
  ((objAvailable (the_screw (exampleSession (PyStr "abc"))) = false
    \/ (exists len, calc_len (the_attribs (exampleSession (PyStr "abc"))) = Some len
                    /\ getLength len = Raise ValueError)
    \/ "makeScrew"%string = ""%string)
   /\ the_world (snd (createScrew "makeScrew" (exampleSession (PyStr "abc"))))
      = the_world (exampleSession (PyStr "abc")))
  \/ (exists b fa',
        resolve "makeScrew" (the_host (exampleSession (PyStr "abc"))) = Some (Method b)
        /\ fst (b (with_leftHanded (the_screw (exampleSession (PyStr "abc")))
                     (fa_leftHanded (the_attribs (exampleSession (PyStr "abc")))))
                  fa' (the_world (exampleSession (PyStr "abc")))) = Ok VNone).
Proof.
  apply (createScrew_none "makeScrew" (exampleSession (PyStr "abc"))).
  vm_compute. reflexivity.
Defined.

(** The method [setTuner] called through [createScrew] returns [None]: the
    object is available, no length is read and the name is not empty. *)
Example createScrew_setTuner :
  fst (createScrew "setTuner"
         (mkSession Screw_init (mkAttribs None "ISO4017" "Custom" false None)
                    tunerHost emptyWorld))
  = Returns None.
Proof. reflexivity. Qed.

Lemma createScrew_passes_on (function : string) (s : Session) (len : PyVal) (e : exn) :
  objAvailable (the_screw s) = true ->
  calc_len (the_attribs s) = Some len ->
  getLength len = Raise e ->
  e <> ValueError ->
  createScrew function s = (Raises (Exn e), s).
Proof.
  intros Ha Hlen Hg Hne. unfold createScrew.
  rewrite Ha, Hlen, Hg. cbn [negb].
  destruct e; try reflexivity. contradiction.
Qed.

(** X6.  Only [ValueError] is caught.  When the object is available and
    [getLength] raises another exception for the length (a zero
    denominator, a length that is a float), [createScrew] raises it and
    changes nothing: no message is printed and [None] is not returned. *)
Theorem createScrew_uncaught (function : string) (s : Session) (len : PyVal) (e : exn) :
  objAvailable (the_screw s) = true ->
  calc_len (the_attribs s) = Some len ->
  getLength len = Raise e ->
  e <> ValueError ->
  createScrew function s = (Raises (Exn e), s).
Proof.
  exact (createScrew_passes_on function s len e).
Qed.

Lemma createScrew_uncaught_witness :
  createScrew "makeScrew" (exampleSession (PyStr "1/0in"))
  = (Raises (Exn ZeroDivisionError), exampleSession (PyStr "1/0in")).
Proof.
  apply (createScrew_uncaught "makeScrew" (exampleSession (PyStr "1/0in"))
           (PyStr "1/0in") ZeroDivisionError).
  - reflexivity.
  - reflexivity.
  - vm_compute. reflexivity.
  - discriminate.
Defined.

Lemma createScrew_body_attribs (function : string) (s : Session) :
  objAvailable (the_screw (snd (createScrew_body function s)))
    = objAvailable (the_screw s)
  /\ calc_len (the_attribs (snd (createScrew_body function s)))
    = calc_len (the_attribs s).
Proof.
  unfold createScrew_body.
  destruct (if String.eqb (diameter (the_attribs s)) "Custom" then _ else _)
    as [row | e]; [| split; reflexivity].
  destruct (negb (String.eqb function "")); [| split; reflexivity].
  destruct (attrs (the_host s) function) as [[b |] |]; try (split; reflexivity).
  destruct (b _ _ _) as [[[screw | | v] | e] w']; split; reflexivity.
Qed.

(** X7.  The length is converted in place.  After a call whose string
    length was read, the attributes hold the float; a second call with the
    same attributes hands this float to [getLength], which raises
    [TypeError], and [createScrew] does not catch it. *)
Theorem createScrew_twice (function again : string) (s : Session) (str : string)
    (v : PyVal) :
  objAvailable (the_screw s) = true ->
  calc_len (the_attribs s) = Some (PyStr str) ->
  getLength (PyStr str) = Ok v ->
  let s' := snd (createScrew function s) in
  (exists x, calc_len (the_attribs s') = Some (PyFloat x))
  /\ createScrew again s' = (Raises (Exn TypeError), s').
Proof.
  intros Ha Hlen Hg s'.
  destruct (getLength_of_string str v Hg) as [x ->].
  assert (H : objAvailable (the_screw s') = true
              /\ calc_len (the_attribs s') = Some (PyFloat x)).
  { subst s'. unfold createScrew. rewrite Ha, Hlen, Hg. cbn [negb].
    destruct (attrs (the_host s) function) as [a |].
    - destruct (createScrew_body_attribs function
                  (mkSession (the_screw s)
                     (with_calc_len (the_attribs s) (Some (PyFloat x)))
                     (the_host s) (the_world s))) as [H1 H2].
      rewrite H1, H2. split; [exact Ha | reflexivity].
    - destruct (FsFunctions (the_host s) function) as [a | |];
        [| split; [exact Ha | reflexivity] | split; [exact Ha | reflexivity]].
      destruct (createScrew_body_attribs function
                  (mkSession (the_screw s)
                     (with_calc_len (the_attribs s) (Some (PyFloat x)))
                     (setattr function a (the_host s)) (the_world s))) as [H1 H2].
      rewrite H1, H2. split; [exact Ha | reflexivity]. }
  destruct H as [Ha' Hlen'].
  split; [eauto |].
  apply (createScrew_passes_on again s' (PyFloat x) TypeError);
    [exact Ha' | exact Hlen' | reflexivity | discriminate].
Qed.

Lemma createScrew_twice_witness :
  let s' := snd (createScrew "makeScrew" (exampleSession (PyStr "16"))) in
  (exists x, calc_len (the_attribs s') = Some (PyFloat x))
  /\ createScrew "makeScrew" s' = (Raises (Exn TypeError), s').
Proof.
  apply (createScrew_twice "makeScrew" "makeScrew" (exampleSession (PyStr "16")) "16"
           (PyFloat 16)).
  - reflexivity.
  - reflexivity.
  - vm_compute. reflexivity.
Defined.

Lemma with_leftHanded_twice (self : Screw) (a b : bool) :
  with_leftHanded (with_leftHanded self a) b = with_leftHanded self b.
Proof. reflexivity. Qed.

Lemma createScrew_body_handed (function : string) (lh : bool) (s : Session) :
  fst (createScrew_body function (handed lh s)) = fst (createScrew_body function s)
  /\ the_world (snd (createScrew_body function (handed lh s)))
     = the_world (snd (createScrew_body function s))
  /\ (forall screw, fst (createScrew_body function s) = Returns (Some screw) ->
        leftHanded (the_screw (snd (createScrew_body function s)))
        = fa_leftHanded (the_attribs s)).
Proof.
  unfold createScrew_body, handed. cbn [the_screw the_attribs the_host the_world].
  destruct (if String.eqb (diameter (the_attribs s)) "Custom" then _ else _)
    as [row | e]; [| repeat split; intros; discriminate].
  rewrite with_leftHanded_twice.
  destruct (negb (String.eqb function "")); [| repeat split; intros; discriminate].
  destruct (attrs (the_host s) function) as [[b |] |];
    try (repeat split; intros; discriminate).
  destruct (b _ _ _) as [[[screw | | v] | e] w']; repeat split; intros; discriminate.
Qed.

(** X8.  Handedness comes from the attributes.  The handedness the object
    had before the call has no influence on what [createScrew] returns or
    raises nor on the world it leaves; and whenever a builder has returned
    a shape, the object is left with the handedness of the attributes,
    which the builder has worked with. *)
Theorem createScrew_handedness (function : string) (lh : bool) (s : Session) :
  fst (createScrew function (handed lh s)) = fst (createScrew function s)
  /\ the_world (snd (createScrew function (handed lh s)))
     = the_world (snd (createScrew function s))
  /\ (forall screw, fst (createScrew function s) = Returns (Some screw) ->
        leftHanded (the_screw (snd (createScrew function s)))
        = fa_leftHanded (the_attribs s)).
Proof.
  unfold createScrew.
  change (objAvailable (the_screw (handed lh s))) with (objAvailable (the_screw s)).
  change (the_attribs (handed lh s)) with (the_attribs s).
  change (the_host (handed lh s)) with (the_host s).
  change (the_world (handed lh s)) with (the_world s).
  destruct (negb (objAvailable (the_screw s)));
    [repeat split; intros; discriminate |].
  destruct (match calc_len (the_attribs s) with Some _ => _ | None => _ end)
    as [fa | e] eqn:Ep.
  - assert (Hlh : fa_leftHanded fa = fa_leftHanded (the_attribs s)).
    { destruct (calc_len (the_attribs s)) as [len |];
        [destruct (getLength len) |]; inversion Ep; reflexivity. }
    rewrite <- Hlh.
    destruct (attrs (the_host s) function) as [a |].
    + exact (createScrew_body_handed function lh
               (mkSession (the_screw s) fa (the_host s) (the_world s))).
    + destruct (FsFunctions (the_host s) function) as [a | |];
        try (repeat split; intros; discriminate).
      exact (createScrew_body_handed function lh
               (mkSession (the_screw s) fa (setattr function a (the_host s))
                          (the_world s))).
  - destruct e; repeat split; intros; discriminate.
Qed.

(** ** getDia *)

Lemma rstrip_fixed (drop : ascii -> bool) (s : string) :
  rstrip drop (rstrip drop s) = rstrip drop s.
Proof.
  induction s as [| c s IH]; [reflexivity |].
  cbn [rstrip].
  destruct (rstrip drop s) as [| x r] eqn:E.
  - destruct (drop c) eqn:Ec; [reflexivity |].
    cbn [rstrip]. rewrite Ec. reflexivity.
  - cbn [rstrip] in *. rewrite IH. reflexivity.
Qed.

Lemma lstrip_head_kept (drop : ascii -> bool) (s : string) :
  head_kept drop (lstrip drop s).
Proof.
  induction s as [| c s IH]; [exact I |].
  cbn [lstrip]. destruct (drop c) eqn:Ec; [exact IH | exact Ec].
Qed.

Lemma rstrip_head_kept (drop : ascii -> bool) (s : string) :
  head_kept drop s -> head_kept drop (rstrip drop s).
Proof.
  destruct s as [| c s]; intros H; [exact I |].
  cbn [head_kept] in H. cbn [rstrip].
  destruct (rstrip drop s); [rewrite H |]; exact H.
Qed.

Lemma lstrip_of_head_kept (drop : ascii -> bool) (s : string) :
  head_kept drop s -> lstrip drop s = s.
Proof.
  destruct s as [| c s]; intros H; [reflexivity |].
  cbn [head_kept] in H. cbn [lstrip]. rewrite H. reflexivity.
Qed.

Lemma strip_fixed (chars s : string) :
  strip chars (strip chars s) = strip chars s.
Proof.
  unfold strip.
  rewrite lstrip_of_head_kept
    by (apply rstrip_head_kept, lstrip_head_kept).
  apply rstrip_fixed.
Qed.

Open Scope string_scope.

Lemma strip_wrapped (s : string) :
  strip "()" ("(" ++ strip "()" s ++ ")") = strip "()" s.
Proof.
  pose proof (rstrip_head_kept (fun c => char_in c "()") _
                (lstrip_head_kept (fun c => char_in c "()") s)) as Hk.
  fold (strip "()" s) in Hk.
  unfold strip at 1.
  change (lstrip (fun c => char_in c "()") ("(" ++ strip "()" s ++ ")"))
    with (lstrip (fun c => char_in c "()") (strip "()" s ++ ")")).
  destruct (strip "()" s) as [| c x] eqn:E; [reflexivity |].
  rewrite lstrip_of_head_kept by exact Hk.
  rewrite rstrip_dropped by reflexivity.
  rewrite <- E. unfold strip. apply rstrip_fixed.
Qed.

(** X9.  Parentheses around a size label do not count: [getDia] looks up
    the label without the parentheses at its ends, so a label, the label
    stripped, and the stripped label put in parentheses all resolve alike
    (to the same diameter or the same [KeyError]). *)
Theorem getDia_parentheses (self : Screw) (DiaList : string -> option (list R))
    (s : string) (isNut : bool) :
  getDia self DiaList (DiaLabel (strip "()" s)) isNut
    = getDia self DiaList (DiaLabel s) isNut
  /\ getDia self DiaList (DiaLabel ("(" ++ strip "()" s ++ ")")) isNut
    = getDia self DiaList (DiaLabel s) isNut.
Proof.
  unfold getDia. rewrite strip_fixed, strip_wrapped. split; reflexivity.
Qed.

Close Scope string_scope.

(** X10.  Scaling for printing.  With the print mode on, the diameter of a
    nut thread is scaled with the nut coefficients only and that of a
    screw thread with the screw coefficients only; coefficients [1] and
    [0] give the diameter of the mode switched off; and a label the table
    does not hold is a [KeyError] in either mode. *)
Theorem getDia_scaling (self : Screw) (DiaList : string -> option (list R))
    (d : DiaArg) (nutA nutB screwA screwB : R) :
  (forall a b, getDia (printing self nutA nutB a b) DiaList d true
               = getDia (printing self nutA nutB screwA screwB) DiaList d true)
  /\ (forall a b, getDia (printing self a b screwA screwB) DiaList d false
                  = getDia (printing self nutA nutB screwA screwB) DiaList d false)
  /\ (forall x, getDia (printing self nutA nutB screwA screwB) DiaList (DiaNumber x) true
                = Ok (nutA * x + nutB))
  /\ (forall x, getDia (printing self nutA nutB screwA screwB) DiaList (DiaNumber x) false
                = Ok (screwA * x + screwB))
  /\ (forall isNut x, getDia (printing self 1 0 1 0) DiaList d isNut = Ok x
                      <-> getDia Screw_init DiaList d isNut = Ok x)
  /\ (forall isNut e, getDia (printing self nutA nutB screwA screwB) DiaList d isNut
                        = Raise e
                      <-> getDia Screw_init DiaList d isNut = Raise e).
Proof.
  unfold getDia, printing. cbn [sm3DPrintMode smNutThrScaleA smNutThrScaleB
    smScrewThrScaleA smScrewThrScaleB Screw_init].
  repeat split; try reflexivity;
    destruct d as [s | x0];
    try destruct (DiaList (strip "()" s)) as [[| d0 row] |];
    cbn [and_then]; try destruct isNut;
    intros H; try discriminate H; try exact H;
    injection H as <-; f_equal; lra.
Qed.

(** ** The other thread builders *)

(** X11.  A pitch of zero is a [ZeroDivisionError] in each builder that
    divides by the pitch, raised before any kernel algorithm of the thread
    runs: [CreateThreadCutter], [CreateInnerThreadCutter] and
    [makeDin7998Thread] leave the world as it is, and [makeShellthread]
    has by then made only the blank. *)
Theorem zero_pitch_raises (self : Screw) (K : Kernel) (dia blen : R) (w : World) :
  CreateThreadCutter self K dia 0 blen w = (Raise ZeroDivisionError, w)
  /\ CreateInnerThreadCutter self dia 0 blen w = (Raise ZeroDivisionError, w)
  /\ (forall zs ze zt ri ro,
        makeDin7998Thread self K zs ze zt ri ro 0 w = (Raise ZeroDivisionError, w))
  /\ (forall withcham ztop tlen,
        makeShellthread self K dia 0 blen withcham ztop tlen w
        = (Raise ZeroDivisionError,
           journalled [ base_body dia 0 blen withcham;
                        Revolve (base_profile dia 0 blen withcham)
                                (mkVector 0 0 0) (mkVector 0 0 1) 360 ] w)).
Proof.
  assert (Hcut : forall w0, CreateThreadCutter self K dia 0 blen w0
                            = (Raise ZeroDivisionError, w0)).
  { intros w0. unfold CreateThreadCutter, floordiv, bind.
    destruct (Req_dec_T 0 0) as [_ | Hne]; [reflexivity | contradiction]. }
  split; [apply Hcut |].
  split.
  { unfold CreateInnerThreadCutter, floordiv, bind.
    destruct (Req_dec_T 0 0) as [_ | Hne]; [reflexivity | contradiction]. }
  split.
  { intros zs ze zt ri ro. unfold makeDin7998Thread, truediv, bind.
    destruct (Req_dec_T 0 0) as [_ | Hne]; [reflexivity | contradiction]. }
  intros withcham ztop tlen.
  apply makeShellthread_passes_on. apply Hcut.
Qed.

Lemma CreateInnerThreadCutter_eq (self : Screw) (dia P blen : R) (w : World) :
  P <> 0 ->
  CreateInnerThreadCutter self dia P blen w
  = (Ok (inner_cutter self dia P blen),
     journalled [inner_cutter self dia P blen] w).
Proof.
  intros HP.
  unfold CreateInnerThreadCutter, floordiv, bind.
  destruct (Req_dec_T P 0) as [E | _]; [contradiction |].
  reflexivity.
Qed.

(** X12.  The helix of the inner thread cutter.  For a pitch [P > 0] and a
    length [blen >= 0], [CreateInnerThreadCutter] sweeps its profile once
    (one kernel algorithm) along a helix of pitch [P] whose height is the
    number [floor (blen / P) + 2], not that number of turns: the helix is
    more than [blen + 1] long for a pitch up to 1, and at most [blen] long
    for a pitch above 1 and a length of [2 * P / (P - 1)] or more. *)
Theorem CreateInnerThreadCutter_helix_height (self : Screw) (dia P blen : R)
    (w : World) :
  0 < P -> 0 <= blen ->
  CreateInnerThreadCutter self dia P blen w
    = (Ok (inner_cutter self dia P blen),
       journalled [inner_cutter self dia P blen] w)
  /\ axial_extent (inner_cutter_helix self dia P blen)
     = Some (inner_cutter_height P blen)
  /\ (P <= 1 -> blen + 1 < inner_cutter_height P blen)
  /\ (1 < P -> 2 * P / (P - 1) <= blen -> inner_cutter_height P blen <= blen).
Proof.
  intros HP Hb.
  destruct (Zfloor_bound (blen / P)) as [Hlo Hhi].
  assert (Hq : 0 <= blen / P).
  { apply Rmult_le_pos; [exact Hb |]. apply Rlt_le, Rinv_0_lt_compat, HP. }
  assert (Hmul : blen / P * P = blen) by (field; lra).
  split; [apply CreateInnerThreadCutter_eq; lra |].
  split.
  - unfold axial_extent, inner_cutter_helix. cbn [zspan vz].
    unfold inner_cutter_height in *.
    rewrite Rmax_right by lra. rewrite Rmin_left by lra.
    f_equal. lra.
  - unfold inner_cutter_height. split.
    + intros HP1. assert (blen <= blen / P) by nra. lra.
    + intros HP1 Hlong.
      assert (Hl : 2 * P <= blen * (P - 1)).
      { apply Rmult_le_compat_r with (r := P - 1) in Hlong; [| lra].
        replace (2 * P / (P - 1) * (P - 1)) with (2 * P) in Hlong by (field; lra).
        exact Hlong. }
      assert (blen / P + 2 <= blen); [| lra].
      apply Rmult_le_reg_r with (r := P); [exact HP |].
      rewrite Rmult_plus_distr_r, Hmul. lra.
Qed.

Lemma CreateInnerThreadCutter_helix_height_witness :
  CreateInnerThreadCutter Screw_init 10 2 20 emptyWorld
    = (Ok (inner_cutter Screw_init 10 2 20),
       journalled [inner_cutter Screw_init 10 2 20] emptyWorld)
  /\ axial_extent (inner_cutter_helix Screw_init 10 2 20)
     = Some (inner_cutter_height 2 20)
  /\ (2 <= 1 -> 20 + 1 < inner_cutter_height 2 20)
  /\ (1 < 2 -> 2 * 2 / (2 - 1) <= 20 -> inner_cutter_height 2 20 <= 20).
Proof.
  apply (CreateInnerThreadCutter_helix_height Screw_init 10 2 20 emptyWorld); lra.
Defined.

(** *** Rounding to binary64 *)





















(** ** Profiles and outlines *)

Lemma tan_60 : tan (radians 60) = sqrt 3.
Proof.
  unfold radians. replace (60 * PI / 180) with (PI / 3) by lra. exact tan_PI3.
Qed.

Lemma sqrt3_square : sqrt 3 * sqrt 3 = 3.
Proof. apply sqrt_sqrt. lra. Qed.

Lemma over_sqrt3 (x : R) : x / sqrt 3 = x * sqrt 3 / 3.
Proof.
  pose proof sqrt3_pos as Hs. pose proof sqrt3_square as H3.
  apply Rmult_eq_reg_r with (r := sqrt 3); [| lra].
  replace (x * sqrt 3 / 3 * sqrt 3) with (x * (sqrt 3 * sqrt 3) / 3) by lra.
  rewrite H3. field. lra.
Qed.

(** X15.  The profiles of the wood-screw thread.  The profile of the body
    is an equilateral triangle: its height is the thread depth [ro - ri]
    and each side is [2 * (ro - ri) / sqrt 3] long; it stands with its base
    at the radius [ri - 0.03].  The profile at the tip is a right triangle
    with two sides of half that length, at the radius [0.03]. *)
Theorem wood_thread_profiles (ze zt ri ro : R) :
  let t := ro - ri in
  let b := t / sqrt 3 in
  let A := mkVector 0 0 (- b) in
  let B := mkVector 0 0 b in
  let C := mkVector t 0 0 in
  let A' := mkVector 0 0 (- (b * 0.5)) in
  let B' := mkVector 0 0 (b * 0.5) in
  let C' := mkVector (2 * (b * 0.5)) 0 (b * 0.5) in
  wood_top_profile ze zt ri ro
    = Translated (mkVector (ri - 0.03) 0 (b + (ze - zt)))
        (Wire [Line A B; Line B C; Line C A])
  /\ dist2 A B = 4 / 3 * t ^ 2
  /\ dist2 B C = 4 / 3 * t ^ 2
  /\ dist2 C A = 4 / 3 * t ^ 2
  /\ wood_tip_profile ri ro
     = Translated (mkVector 0.03 0 (3 * (b * 0.5)))
         (Wire [Line A' B'; Line B' C'; Line C' A'])
  /\ dist2 A' B' = 1 / 3 * t ^ 2
  /\ dist2 B' C' = 1 / 3 * t ^ 2
  /\ dist2 C' A' = dist2 A' B' + dist2 B' C'.
Proof.
  intros t b A B C A' B' C'.
  pose proof sqrt3_square as H3.
  assert (Hb : b * b = t * t / 3).
  { subst b. rewrite over_sqrt3. nra. }
  unfold wood_top_profile, wood_tip_profile.
  rewrite tan_60. fold t. fold b.
  unfold dist2. subst A B C A' B' C'. cbn [vx vy vz].
  repeat split; try reflexivity; nra.
Qed.

Lemma rotateZ_60 (x y z : R) :
  rotateZ (radians 60) (mkVector x y z)
  = mkVector (x / 2 - sqrt 3 / 2 * y) (sqrt 3 / 2 * x + y / 2) z.
Proof.
  unfold rotateZ, radians. cbn [vx vy vz].
  replace (60 * PI / 180) with (PI / 3) by lra.
  rewrite cos_PI3, sin_PI3. f_equal; lra.
Qed.

Lemma hexagon_points_closed (s z : R) :
  (let '(vhex, polygon) :=
     hexagon_points 6 (radians 60) (mkVector (s / sqrt 3) 0 z) [] in
   polygon ++ [vhex]) = regular_hexagon s z.
Proof.
  pose proof sqrt3_square as H3.
  assert (H3s : s * sqrt 3 * sqrt 3 = 3 * s) by (rewrite Rmult_assoc, H3; ring).
  cbn [hexagon_points app]. unfold regular_hexagon.
  rewrite !over_sqrt3.
  assert (E1 : rotateZ (radians 60) (mkVector (s * sqrt 3 / 3) 0 z)
               = mkVector (s * sqrt 3 / 3 / 2) (s / 2) z)
    by (rewrite rotateZ_60; f_equal; nra).
  assert (E2 : rotateZ (radians 60) (mkVector (s * sqrt 3 / 3 / 2) (s / 2) z)
               = mkVector (- (s * sqrt 3 / 3 / 2)) (s / 2) z)
    by (rewrite rotateZ_60; f_equal; nra).
  assert (E3 : rotateZ (radians 60) (mkVector (- (s * sqrt 3 / 3 / 2)) (s / 2) z)
               = mkVector (- (s * sqrt 3 / 3)) 0 z)
    by (rewrite rotateZ_60; f_equal; nra).
  assert (E4 : rotateZ (radians 60) (mkVector (- (s * sqrt 3 / 3)) 0 z)
               = mkVector (- (s * sqrt 3 / 3 / 2)) (- (s / 2)) z)
    by (rewrite rotateZ_60; f_equal; nra).
  assert (E5 : rotateZ (radians 60) (mkVector (- (s * sqrt 3 / 3 / 2)) (- (s / 2)) z)
               = mkVector (s * sqrt 3 / 3 / 2) (- (s / 2)) z)
    by (rewrite rotateZ_60; f_equal; nra).
  assert (E6 : rotateZ (radians 60) (mkVector (s * sqrt 3 / 3 / 2) (- (s / 2)) z)
               = mkVector (s * sqrt 3 / 3) 0 z)
    by (rewrite rotateZ_60; f_equal; nra).
  rewrite E1, E2, E3, E4, E5, E6. reflexivity.
Qed.

(** X16.  The hexagon of the hexagon tools.  The loop that turns the first
    corner [(s / sqrt 3, 0, z)] six times by 60 degrees, which
    [makeHextool] and [makeAllen2] share, ends where it began and gives
    the closed outline of the regular hexagon of width [s] across flats:
    two of its sides lie at [y = s / 2] and [y = - s / 2].  When
    [makeHextool] returns, it has cut that hexagon out of the disc of
    diameter [cir_hex] at the height [- 0.1 * k_hex] and extruded the face
    by [1.2 * k_hex]: these two kernel algorithms are all it has run, the
    tool is the extrusion, and objects and cache are as before. *)
Theorem makeHextool_hexagon (self : Screw) (s_hex k_hex cir_hex : R) (w : World) :
  (forall s z,
     (let '(vhex, polygon) :=
        hexagon_points 6 (radians 60) (mkVector (s / sqrt 3) 0 z) [] in
      polygon ++ [vhex]) = regular_hexagon s z)
  /\ (forall tool w',
        makeHextool self s_hex k_hex cir_hex w = (Ok tool, w') ->
        tool = Extrude (hextool_face s_hex k_hex cir_hex) (mkVector 0 0 (k_hex * 1.2))
        /\ journal w'
           = [ Extrude (hextool_face s_hex k_hex cir_hex) (mkVector 0 0 (k_hex * 1.2));
               hextool_face s_hex k_hex cir_hex ] ++ journal w
        /\ objects w' = objects w
        /\ FSCache w' = FSCache w).
Proof.
  split; [exact hexagon_points_closed |].
  intros tool w'.
  unfold makeHextool, hextool_face.
  pose proof (hexagon_points_closed s_hex (- k_hex * 0.1)) as Hhex.
  destruct (hexagon_points 6 (radians 60) _ []) as [vhex polygon].
  rewrite Hhex. unfold bind, run, ret. cbn [objects FSCache journal].
  intros H. injection H as <- <-. repeat split.
Qed.

(** Equal shapes: the same constructors down to equal numbers. *)
Ltac same_shape :=
  repeat match goal with
    | |- @eq R _ _ => lra
    | |- @eq _ _ _ => reflexivity
    | |- @eq _ _ _ => progress f_equal
    end.

(** X17.  The depth of the external thread is the depth of the chamfer.
    The root of the profile [CreateThreadCutter] sweeps (the middle of its
    arc) lies at the radius [dia / 2 - cham_t P], where
    [cham_t P = P * sqrt 3 / 2 * 17 / 24] is the depth [cutChamfer] works
    with: the chamfer tool starts at the very radius the thread is cut
    down to.  The lead-out helix has the radius [dia / 2 + cham_t P / 2]
    and is moved back by [cham_t P / 2]. *)
Theorem thread_depth_is_chamfer_depth (self : Screw) (dia P blen l : R) :
  let crest := dia / 2 + sqrt 3 * 3 / 80 * P in
  let flank := dia / 2 - 5 / 16 * sqrt 3 * P in
  let root := dia / 2 - cham_t P in
  thread_profile_wire dia P blen
  = Translated (mkVector 0 0 (- (thread_turns P blen * P)))
      (Wire [ Line (mkVector crest 0 (- (0.475 * P))) (mkVector flank 0 (- (P / 8)));
              Arc (mkVector flank 0 (- (P / 8))) (mkVector root 0 0)
                  (mkVector flank 0 (P / 8));
              Line (mkVector flank 0 (P / 8)) (mkVector crest 0 (0.475 * P));
              Line (mkVector crest 0 (0.475 * P)) (mkVector crest 0 (- (0.475 * P))) ])
  /\ lead_out_helix self dia P
     = Translated (mkVector (- (cham_t P / 2)) 0 0)
         (LongHelix P (P / 2) (dia / 2 + cham_t P / 2) 0 (leftHanded self))
  /\ chamfer_cutter dia P l
     = Revolve (Face (Wire
         [ Line (mkVector 0 0 (- l)) (mkVector root 0 (- l));
           Line (mkVector root 0 (- l))
                (mkVector (dia / 2 + cham_t P) 0 (- l + cham_t P + cham_t P));
           Line (mkVector (dia / 2 + cham_t P) 0 (- l + cham_t P + cham_t P))
                (mkVector (dia / 2 + cham_t P) 0 (- l - P - cham_t P));
           Line (mkVector (dia / 2 + cham_t P) 0 (- l - P - cham_t P))
                (mkVector 0 0 (- l - P - cham_t P));
           Line (mkVector 0 0 (- l - P - cham_t P)) (mkVector 0 0 (- l)) ]))
         (mkVector 0 0 0) (mkVector 0 0 1) 360.
Proof.
  intros crest flank root. subst crest flank root.
  unfold thread_profile_wire, lead_out_helix, chamfer_cutter, cham_t, sqrt3.
  repeat split; same_shape.
Qed.

(** X18.  The bore of a nut is the crest of its thread.  The innermost
    radius of the profiles of the internal thread, in the strip
    [makeInnerThread_2] sweeps and in the cutter of
    [CreateInnerThreadCutter], is half of
    [GetInnerThreadMinDiameter dia P 0]; with the default epsilon the
    minimum diameter is 0.001 more than that. *)
Theorem inner_thread_crest (self : Screw) (dia P : R) :
  let crest := GetInnerThreadMinDiameter self dia P (Some 0) / 2 in
  let r := dia / 2 in
  let groove := r + P * cos30 * 1 / 24 in
  thread_strip self dia P
  = PipeShell
      (Wire [Translated (mkVector 0 0 (- P * 9 / 16))
               (LongHelix P P (dia * Tuner self / 1000) 0 (leftHanded self))])
      [Wire [ Line (mkVector r 0 0) (mkVector crest 0 (- P * 5 / 16));
              Line (mkVector crest 0 (- P * 5 / 16)) (mkVector crest 0 (- P * 9 / 16));
              Line (mkVector crest 0 (- P * 9 / 16)) (mkVector r 0 (- P * 14 / 16));
              Arc (mkVector r 0 (- P * 14 / 16)) (mkVector groove 0 (- P * 31 / 32))
                  (mkVector r 0 (- P)) ]]
      false true
  /\ inner_cutter_profile dia P
     = Translated (mkVector 0 0 (- P))
         (Wire [ Line (mkVector crest 0 (P * 7 / 16)) (mkVector r 0 (P * 2 / 16));
                 Arc (mkVector r 0 (P * 2 / 16)) (mkVector groove 0 (P * 2 / 32))
                     (mkVector r 0 0);
                 Line (mkVector r 0 0) (mkVector crest 0 (- P * 5 / 16));
                 Line (mkVector crest 0 (- P * 5 / 16)) (mkVector crest 0 (P * 7 / 16)) ])
  /\ GetInnerThreadMinDiameter self dia P None = 2 * crest + 0.001.
Proof.
  intros crest r groove. subst crest r groove.
  unfold thread_strip, inner_cutter_profile, GetInnerThreadMinDiameter.
  cbv zeta.
  unfold GetClosedWire, closingEdges, AddPoint, AddArc, Reset.
  cbn [firstPoint lastPoint fm_edges app].
  repeat split; same_shape.
Qed.

(** ** The tap thread *)

Lemma edges_on_plane_outcomes (K : Kernel) (test : R -> bool) (edges acc : list Shape)
    (w : World) :
  (exists l, edges_on_plane K test edges acc w = (Ok l, w))
  \/ (edges_on_plane K test edges acc w = (Raise IndexError, w)
      /\ exists edge, (List.length (Vertexes K edge) < 2)%nat).
Proof.
  revert acc. induction edges as [| kante rest IH]; intros acc.
  - left. eexists. reflexivity.
  - cbn [edges_on_plane]. unfold bind, index, ret, raise.
    destruct (Vertexes K kante) as [| v0 [| v1 vs]] eqn:Ev; cbn [nth_error];
      cbv beta iota.
    + right. split; [reflexivity |]. exists kante. rewrite Ev. cbn. lia.
    + destruct (test (vz v0)); [| apply IH].
      right. split; [reflexivity |]. exists kante. rewrite Ev. cbn. lia.
    + destruct (test (vz v0)); [| apply IH].
      destruct (test (vz v1)); apply IH.
Qed.

Lemma tap_run (self : Screw) (K : Kernel) (d P : R) (rotations : Z) (l : R)
    (w : World) :
  let out := makeInnerThread_2 self K d P rotations None l w in
  ((exists shell bot,
      fst out = Ok (Some (Solid shell))
      /\ journal (snd out)
         = [ Solid shell;
             Common bot (tap_box d P (- IZR rotations * P + 0));
             Common (thread_strip self d P) (tap_box d P (-3 * P));
             thread_strip self d P ] ++ journal w)
   \/ fst out = Raise IndexError)
  /\ objects (snd out) = objects w
  /\ FSCache (snd out) = FSCache w.
Proof.
  intros out. subst out.
  remember (makeInnerThread_2 self K d P rotations None l w) as out eqn:E.
  unfold makeInnerThread_2 in E. cbv zeta in E.
  unfold bind at 1, run at 1 in E.
  unfold bind at 1, run at 1 in E.
  unfold bind at 1 in E.
  match type of E with
  | context [edges_on_plane ?K0 ?t ?e ?a ?w0] =>
      destruct (edges_on_plane_outcomes K0 t e a w0)
        as [[top_edges Htop] | [Htop Hedge]];
      rewrite Htop in E
  end;
    [| subst out; split; [right; reflexivity | split; reflexivity]].
  unfold bind at 1, index at 1 in E.
  destruct (nth_error (Faces K (Face (Wire (sortEdges K top_edges)))) 0)
    as [f0 |] eqn:Ef.
  2:{ subst out. split; [right; reflexivity | split; reflexivity]. }
  unfold ret at 1 in E.
  destruct (stack_turns K (Z.to_nat (rotations - 2)) _ _ _) as [TheShell TheFaces].
  destruct (stack_turns K (Z.to_nat (rotations - (rotations - 2))) _ _ _)
    as [TheShell' botFaces].
  unfold bind at 1, run at 1 in E. unfold bind at 1 in E.
  match type of E with
  | context [edges_on_plane ?K0 ?t ?e ?a ?w0] =>
      destruct (edges_on_plane_outcomes K0 t e a w0)
        as [[bot_edges Hbot] | [Hbot Hedge]];
      rewrite Hbot in E
  end;
    [| subst out; split; [right; reflexivity | split; reflexivity]].
  unfold bind at 1, run at 1 in E. unfold ret in E.
  subst out.
  split; [left | split; reflexivity].
  eexists. eexists. split; reflexivity.
Qed.

(** X19.  The tap thread never comes back empty.  Without an outer
    diameter [makeInnerThread_2] never returns [None], which the nut
    branch returns on a failure: when it returns, the value is a solid,
    made last after the sweep of one turn and the two cuts of its ends
    with a box (four kernel algorithms, none of them a cut or a fusion of
    solids).  It reads neither the length [l] nor the objects nor the
    cache. *)
Theorem tap_thread_outcomes (self : Screw) (K : Kernel) (d P : R) (rotations : Z)
    (l : R) (w : World) :
  let out := makeInnerThread_2 self K d P rotations None l w in
  fst out <> Ok None
  /\ (forall r, fst out = Ok r ->
        exists shell bot,
          r = Some (Solid shell)
          /\ journal (snd out)
             = [ Solid shell;
                 Common bot (tap_box d P (- IZR rotations * P + 0));
                 Common (thread_strip self d P) (tap_box d P (-3 * P));
                 thread_strip self d P ] ++ journal w)
  /\ objects (snd out) = objects w
  /\ FSCache (snd out) = FSCache w
  /\ (forall l', makeInnerThread_2 self K d P rotations None l' w = out).
Proof.
  intros out.
  destruct (tap_run self K d P rotations l w) as (Hout & Hobj & Hcache).
  fold out in Hout, Hobj, Hcache.
  split.
  { destruct Hout as [(shell & bot & -> & _) | ->]; discriminate. }
  split.
  { intros r Hr.
    destruct Hout as [(shell & bot & Hok & Hj) | Hraise].
    - exists shell, bot. split; [congruence | exact Hj].
    - rewrite Hraise in Hr. discriminate Hr. }
  split; [exact Hobj |].
  split; [exact Hcache |].
  intros l'. reflexivity.
Qed.

(** ** The tool factories and the cache *)

Lemma journal_grows_refl (w : World) : journal_grows w w.
Proof. exists []. reflexivity. Qed.

Lemma journal_grows_trans (w1 w2 w3 : World) :
  journal_grows w1 w2 -> journal_grows w2 w3 -> journal_grows w1 w3.
Proof.
  intros [a Ha] [b Hb]. exists (b ++ a). rewrite Hb, Ha. apply app_assoc.
Qed.

Lemma silent_ret {A : Type} (a : A) : silent (ret a).
Proof. intros w. repeat split. apply journal_grows_refl. Qed.

Lemma silent_raise {A : Type} (e : exn) : silent (@raise A e).
Proof. intros w. repeat split. apply journal_grows_refl. Qed.

Lemma silent_run (s : Shape) : silent (run s).
Proof. intros w. repeat split. exists [s]. reflexivity. Qed.

Lemma silent_RevolveZ (self : Screw) (profile : Shape) (angle : option R) :
  silent (RevolveZ self profile angle).
Proof. apply silent_run. Qed.

Lemma silent_truediv (a b : R) : silent (truediv a b).
Proof.
  unfold truediv. destruct (Req_dec_T b 0); [apply silent_raise | apply silent_ret].
Qed.

Lemma silent_math_acos (x : R) : silent (math_acos x).
Proof.
  unfold math_acos. destruct (Rlt_dec 1 (Rabs x)); [apply silent_raise | apply silent_ret].
Qed.

Lemma silent_index {A : Type} (l : list A) (i : nat) : silent (index l i).
Proof.
  unfold index. destruct (nth_error l i); [apply silent_ret | apply silent_raise].
Qed.

Lemma silent_table_get {A : Type} (table : string -> option A) (code : string) :
  silent (table_get table code).
Proof.
  unfold table_get. destruct (table code); [apply silent_ret | apply silent_raise].
Qed.

Lemma silent_bind {A B : Type} (m : M A) (k : A -> M B) :
  silent m -> (forall a, silent (k a)) -> silent (bind m k).
Proof.
  intros Hm Hk w. unfold bind.
  destruct (Hm w) as (Ho & Hc & Hj).
  destruct (m w) as [[a | e] w1]; cbn [fst snd] in *.
  - destruct (Hk a w1) as (Ho' & Hc' & Hj').
    repeat split; [congruence | congruence |].
    eapply journal_grows_trans; eassumption.
  - repeat split; assumption.
Qed.

Lemma silent_faces_from (faces : list Shape) (first n : nat) (acc : list Shape) :
  silent (faces_from faces first n acc).
Proof.
  revert first acc. induction n as [| n IH]; intros first acc; cbn [faces_from].
  - apply silent_ret.
  - apply silent_bind; [apply silent_index | intros f; apply IH].
Qed.

Lemma silent_cut_corners (K : Kernel) (n : nat) (pl_rot : Placement)
    (corner : Shape) (corner_Placement cutplace : Placement)
    (cornerShell : Shape) (cornerShell_Placement addPlace : Placement)
    (crossShell : Shape) (crossFaces : list Shape) :
  silent (cut_corners K n pl_rot corner corner_Placement cutplace
                      cornerShell cornerShell_Placement addPlace crossShell crossFaces).
Proof.
  revert corner_Placement cutplace cornerShell_Placement addPlace crossShell crossFaces.
  induction n as [| n IH]; intros; cbn [cut_corners].
  - apply silent_ret.
  - cbv zeta. apply silent_bind; [apply silent_run | intros s; apply IH].
Qed.

Lemma careful_of_silent {A : Type} (key : Key) (m : M A) : silent m -> careful key m.
Proof.
  intros Hm w. destruct (Hm w) as (Ho & Hc & Hj).
  split; [exact Hj |].
  destruct (fst (m w)).
  - split; [exists []; rewrite Ho, app_nil_r; reflexivity | left; exact Hc].
  - split; assumption.
Qed.

Lemma careful_bind {A B : Type} (key : Key) (m : M A) (k : A -> M B) :
  silent m -> (forall a, careful key (k a)) -> careful key (bind m k).
Proof.
  intros Hm Hk w. unfold bind.
  destruct (Hm w) as (Ho & Hc & Hj).
  destruct (m w) as [[a | e] w1]; cbn [fst snd] in *.
  - destruct (Hk a w1) as (Hj' & H').
    split; [eapply journal_grows_trans; eassumption |].
    destruct (fst (k a w1)).
    + unfold keeps_geometry in *. rewrite <- Ho, <- Hc. exact H'.
    + rewrite <- Ho, <- Hc. exact H'.
  - split; [exact Hj | split; assumption].
Qed.

Lemma careful_FSGetKey {B : Type} (args : list KeyArg) (k : Key * option CacheVal -> M B) :
  (forall res, careful args (k (args, res))) ->
  careful args (bind (FSGetKey args) k).
Proof.
  intros Hk w. unfold bind, FSGetKey. apply Hk.
Qed.

Lemma map_geom_update_nth (r : ref) (pl : Placement) (l : list Obj) :
  map geom (update_nth r (fun o => mkObj (geom o) pl) l) = map geom l.
Proof.
  revert r. induction l as [| o l IH]; intros r; destruct r; cbn; try reflexivity.
  rewrite IH. reflexivity.
Qed.

Lemma careful_reset_pair (key : Key) (res : CacheVal) (pl : Placement) :
  careful key (reset_pair res pl ;;; ret res).
Proof.
  intros w. destruct res as [r | r0 r1];
    unfold reset_pair, bind, set_Placement, raise, ret; cbn [fst snd objects FSCache journal].
  - split; [exists []; reflexivity | split; reflexivity].
  - split; [exists []; reflexivity |].
    split; [| left; reflexivity].
    exists []. cbn [objects]. rewrite !map_geom_update_nth, app_nil_r. reflexivity.
Qed.

Ltac silent_tac :=
  repeat first
    [ apply silent_ret | apply silent_raise | apply silent_run
    | apply silent_RevolveZ | apply silent_truediv | apply silent_math_acos
    | apply silent_index | apply silent_table_get | apply silent_faces_from
    | apply silent_cut_corners
    | apply silent_bind; [| intros ?]
    | match goal with
      | |- silent (if ?c then _ else _) => destruct c
      | |- silent (match ?x with _ => _ end) => destruct x
      | |- silent (let (_, _) := ?x in _) => destruct x
      end
    | progress cbv beta zeta ].

(** The end of a build: the shapes are stored, the cache is written, the
    value is returned. *)
Ltac careful_end :=
  intros w; unfold bind, new_object, FSCache_set, ret;
  cbn [fst snd objects FSCache journal];
  split; [exists []; reflexivity |];
  split; [| right; eexists; reflexivity];
  unfold keeps_geometry; cbn [objects]; rewrite ?map_app, <- ?app_assoc;
  eexists; reflexivity.

Ltac careful_tac :=
  repeat first
    [ apply careful_bind; [solve [silent_tac] | intros ?]
    | match goal with
      | |- careful _ (match ?x with _ => _ end) => destruct x
      | |- careful _ (let (_, _) := ?x in _) => destruct x
      end
    | progress cbv beta zeta ].

Lemma makeIso10664_3_careful (self : Screw) (K : Kernel) (T : FsDataTables)
    (RType : option string) (t_hl h_hl : option R) :
  careful (hexalobular_key (arg RType "T20"%string) (arg t_hl 3) (arg h_hl 0))
          (makeIso10664_3 self K T RType t_hl h_hl).
Proof.
  unfold makeIso10664_3, hexalobular_key. cbv zeta.
  apply careful_FSGetKey. intros [res |].
  - apply careful_of_silent, silent_ret.
  - careful_tac. careful_end.
Qed.

Lemma makeCross_H3_careful (self : Screw) (K : Kernel) (T : FsDataTables)
    (CrossType : option string) (m h : option R) :
  careful (cross_key (arg CrossType "2"%string) (arg m 6.9) (arg h 0))
          (makeCross_H3 self K T CrossType m h).
Proof.
  unfold makeCross_H3, cross_key. cbv zeta.
  apply careful_FSGetKey. intros [res |].
  - apply careful_of_silent, silent_ret.
  - careful_tac. careful_end.
Qed.

Lemma makeAllen2_careful (self : Screw) (K : Kernel) (s_a t_a h_a t_2 : option R) :
  careful (allen_key (arg s_a 3) (arg t_a 1.5) (arg h_a 2) (arg t_2 0))
          (makeAllen2 self K s_a t_a h_a t_2).
Proof.
  unfold makeAllen2, allen_key. cbv zeta.
  apply careful_FSGetKey. intros [res |].
  - apply careful_reset_pair.
  - careful_tac. careful_end.
Qed.

Lemma cutChamfer_careful (self : Screw) (dia P l : R) :
  careful (chamfer_key dia P l) (cutChamfer self dia P l).
Proof.
  unfold cutChamfer, chamfer_key. cbv zeta.
  apply careful_FSGetKey. intros [res |].
  - apply careful_of_silent, silent_ret.
  - careful_tac. careful_end.
Qed.

Lemma frame_of_careful {A : Type} (key : Key) (m : M A) (w : World) :
  careful key m -> frame key w (m w).
Proof.
  intros H. destruct (H w) as (Hj & H'). unfold frame.
  split; [| split; [| split; [exact Hj |]]].
  - intros k Hk. destruct (fst (m w)).
    + destruct H' as (_ & [Hc | [v Hc]]); rewrite Hc; [reflexivity |].
      cbn [cache_get]. destruct (Key_eq_dec key k) as [E | _]; [| reflexivity].
      exfalso. apply Hk. symmetry. exact E.
    + destruct H' as (_ & Hc). rewrite Hc. reflexivity.
  - intros r o Hr. unfold object in *. destruct (fst (m w)).
    + destruct H' as ([new Hg] & _).
      assert (Hn : nth_error (map geom (objects (snd (m w)))) r = Some (geom o)).
      { rewrite Hg. rewrite nth_error_app1.
        - rewrite nth_error_map, Hr. reflexivity.
        - rewrite length_map. apply nth_error_Some. rewrite Hr. discriminate. }
      rewrite nth_error_map in Hn.
      destruct (nth_error (objects (snd (m w))) r) as [o' |]; [| discriminate Hn].
      exists o'. split; [reflexivity |]. cbn in Hn. congruence.
    + destruct H' as (Ho & _). rewrite Ho. exists o. split; [exact Hr | reflexivity].
  - intros e He. rewrite He in H'. exact H'.
Qed.

(** X21.  A tool factory minds its own key.  Whatever [cutChamfer],
    [makeAllen2], [makeIso10664_3] or [makeCross_H3] is called with and
    however the call ends, the cache answers as before for every other
    key, every stored object keeps its geometry (the shapes handed out
    earlier are never rebuilt or replaced), and the journal has only
    grown; a call that raises leaves objects and cache as they were, so a
    failed build is not cached. *)
Theorem tool_factories_frame (self : Screw) (K : Kernel) (T : FsDataTables) (w : World) :
  (forall dia P l, frame (chamfer_key dia P l) w (cutChamfer self dia P l w))
  /\ (forall s_a t_a h_a t_2,
        frame (allen_key (arg s_a 3) (arg t_a 1.5) (arg h_a 2) (arg t_2 0)) w
              (makeAllen2 self K s_a t_a h_a t_2 w))
  /\ (forall RType t_hl h_hl,
        frame (hexalobular_key (arg RType "T20"%string) (arg t_hl 3) (arg h_hl 0)) w
              (makeIso10664_3 self K T RType t_hl h_hl w))
  /\ (forall CrossType m h,
        frame (cross_key (arg CrossType "2"%string) (arg m 6.9) (arg h 0)) w
              (makeCross_H3 self K T CrossType m h w)).
Proof.
  split; [| split; [| split]]; intros; apply frame_of_careful.
  - apply cutChamfer_careful.
  - apply makeAllen2_careful.
  - apply makeIso10664_3_careful.
  - apply makeCross_H3_careful.
Qed.

Lemma makeAllen2_builds (self : Screw) (K : Kernel) (s_a t_a h_a t_2 : R)
    (w : World) :
  cache_get (FSCache w) (allen_key s_a t_a h_a t_2) = None ->
  s_a <> 0 ->
  (forall s, Faces K s <> []) ->
  exists hex_depth roundtool allenShell,
    let solidHex :=
      Extrude (Face (Polygon (regular_hexagon s_a 1))) (mkVector 0 0 hex_depth) in
    let n := List.length (objects w) in
    makeAllen2 self K (Some s_a) (Some t_a) (Some h_a) (Some t_2) w
    = (Ok (CPair n (S n)),
       mkWorld (objects w ++ [ mkObj solidHex (at_height h_a);
                               mkObj allenShell (at_height h_a) ])
               ((allen_key s_a t_a h_a t_2, CPair n (S n)) :: FSCache w)
               ([Cut solidHex roundtool; solidHex; roundtool] ++ journal w)).
Proof.
  intros Hmiss Hs Hf.
  pose proof sqrt3_pos as H3.
  unfold makeAllen2. cbn [arg].
  unfold bind at 1, FSGetKey. fold (allen_key s_a t_a h_a t_2). rewrite Hmiss.
  pose proof (hexagon_points_closed s_a 1) as Hhex.
  destruct (hexagon_points 6 (radians 60) _ []) as [vhex polygon].
  rewrite Hhex.
  assert (Hq : 2 * s_a / sqrt 3 <> 0).
  { intros E. apply Hs.
    assert (2 * s_a / sqrt 3 * sqrt 3 = 2 * s_a) by (field; lra). nra. }
  match goal with
  | |- context [bind ?m _ w] =>
      assert (Hp : exists fm hd, m w = (Ok (fm, hd), w))
  end.
  { destruct (Req_dec_T t_2 0) as [_ | _]; [| eexists; eexists; reflexivity].
    unfold bind, truediv.
    destruct (Req_dec_T ((s_a / 3) ^ 2) 0) as [E | _];
      [exfalso; cbn [pow] in E; nra |].
    unfold ret at 1.
    destruct (Req_dec_T (2 * s_a / sqrt 3) 0) as [E | _]; [contradiction |].
    unfold ret at 1.
    destruct (Req_dec_T (s_a / 3) 0) as [E | _]; [exfalso; lra |].
    eexists. eexists. reflexivity. }
  destruct Hp as (fm & hd & Hp).
  unfold bind at 1. rewrite Hp.
  unfold bind at 1, RevolveZ, run at 1.
  unfold bind at 1, run at 1.
  unfold bind at 1, run at 1.
  unfold bind at 1, index at 1.
  destruct (Faces K (Cut _ _)) as [| allen0 faces] eqn:Ef;
    [exfalso; exact (Hf _ Ef) |].
  cbn [nth_error]. unfold ret at 1.
  unfold bind, new_object, FSCache_set, ret.
  cbn [objects FSCache journal].
  rewrite length_app, <- app_assoc. cbn [List.length app]. rewrite Nat.add_1_r.
  do 3 eexists. reflexivity.
Qed.

(** X22.  The first call of [makeAllen2] for a key width other than zero,
    with a kernel that gives every shape a face: the tool is built with
    three kernel algorithms (the revolved cone, the extruded hexagon, the
    cut of the two); the extruded outline is the regular hexagon of width
    [s_a] across flats; the hexagon solid and the shell are stored at the
    height [h_a], as the two newest objects, and the pair is cached under
    the key of the four arguments. *)
Theorem makeAllen2_first_call (self : Screw) (K : Kernel) (s_a t_a h_a t_2 : R)
    (w : World) :
  cache_get (FSCache w) (allen_key s_a t_a h_a t_2) = None ->
  s_a <> 0 ->
  (forall s, Faces K s <> []) ->
  exists hex_depth roundtool allenShell,
    let solidHex :=
      Extrude (Face (Polygon (regular_hexagon s_a 1))) (mkVector 0 0 hex_depth) in
    let n := List.length (objects w) in
    makeAllen2 self K (Some s_a) (Some t_a) (Some h_a) (Some t_2) w
    = (Ok (CPair n (S n)),
       mkWorld (objects w ++ [ mkObj solidHex (at_height h_a);
                               mkObj allenShell (at_height h_a) ])
               ((allen_key s_a t_a h_a t_2, CPair n (S n)) :: FSCache w)
               ([Cut solidHex roundtool; solidHex; roundtool] ++ journal w)).
Proof.
  exact (makeAllen2_builds self K s_a t_a h_a t_2 w).
Qed.

Lemma makeAllen2_first_call_witness :
  cache_get (FSCache emptyWorld) (allen_key 3 1.5 2 0) = None
  /\ 3 <> 0
  /\ (forall s, Faces exampleKernel s <> [])
  /\ exists hex_depth roundtool allenShell,
       let solidHex :=
         Extrude (Face (Polygon (regular_hexagon 3 1))) (mkVector 0 0 hex_depth) in
       let n := List.length (objects emptyWorld) in
       makeAllen2 Screw_init exampleKernel (Some 3) (Some 1.5) (Some 2) (Some 0)
                  emptyWorld
       = (Ok (CPair n (S n)),
          mkWorld (objects emptyWorld ++ [ mkObj solidHex (at_height 2);
                                           mkObj allenShell (at_height 2) ])
                  ((allen_key 3 1.5 2 0, CPair n (S n)) :: FSCache emptyWorld)
                  ([Cut solidHex roundtool; solidHex; roundtool] ++ journal emptyWorld)).
Proof.
  assert (Hf : forall s, Faces exampleKernel s <> []) by (intros s; discriminate).
  assert (Hs : 3 <> 0) by lra.
  split; [reflexivity |].
  split; [exact Hs |].
  split; [exact Hf |].
  exact (makeAllen2_first_call Screw_init exampleKernel 3 1.5 2 0 emptyWorld
           eq_refl Hs Hf).
Defined.

(** X23.  The Allen tool is built once.  When a call of [makeAllen2] has
    returned, the same call made next returns the same pair; it runs no
    kernel algorithm, does not write the cache and leaves the geometry of
    every stored object as it is (it only puts the two members back at the
    height asked for). *)
Theorem makeAllen2_second_call (self : Screw) (K : Kernel)
    (s_a t_a h_a t_2 : R) (w w' : World) (v : CacheVal) :
  makeAllen2 self K (Some s_a) (Some t_a) (Some h_a) (Some t_2) w = (Ok v, w') ->
  exists w'',
    makeAllen2 self K (Some s_a) (Some t_a) (Some h_a) (Some t_2) w' = (Ok v, w'')
    /\ journal w'' = journal w'
    /\ FSCache w'' = FSCache w'
    /\ map geom (objects w'') = map geom (objects w').
Proof.
  intros H.
  destruct (makeAllen2_caches self K s_a t_a h_a t_2 w w' v H) as (Hc & r0 & r1 & ->).
  eexists. split; [apply makeAllen2_hit; exact Hc |].
  cbn [journal FSCache objects].
  split; [reflexivity |]. split; [reflexivity |].
  rewrite !map_geom_update_nth. reflexivity.
Qed.

Lemma makeAllen2_second_call_witness :
  exists v w',
    makeAllen2 Screw_init exampleKernel (Some 3) (Some 1.5) (Some 2) (Some 0)
               emptyWorld = (Ok v, w')
    /\ exists w'',
         makeAllen2 Screw_init exampleKernel (Some 3) (Some 1.5) (Some 2) (Some 0) w'
           = (Ok v, w'')
         /\ journal w'' = journal w'
         /\ FSCache w'' = FSCache w'
         /\ map geom (objects w'') = map geom (objects w').
Proof.
  assert (Hf : forall s, Faces exampleKernel s <> []) by (intros s; discriminate).
  assert (Hs : 3 <> 0) by lra.
  destruct (makeAllen2_builds Screw_init exampleKernel 3 1.5 2 0 emptyWorld
              eq_refl Hs Hf) as (hex_depth & roundtool & allenShell & Hfirst).
  cbv zeta in Hfirst.
  eexists. eexists. split; [exact Hfirst |].
  exact (makeAllen2_second_call Screw_init exampleKernel 3 1.5 2 0 emptyWorld _ _
           Hfirst).
Defined.

(** X24.  The hexalobular tool is built once.  When a call of
    [makeIso10664_3] has returned, the same call made next returns the
    same pair and leaves the whole world as it is: no kernel algorithm
    runs, nothing is stored, the cache is not written and no placement is
    touched. *)
Theorem makeIso10664_3_second_call (self : Screw) (K : Kernel) (T : FsDataTables)
    (RType : string) (t_hl h_hl : R) (w w' : World) (v : CacheVal) :
  makeIso10664_3 self K T (Some RType) (Some t_hl) (Some h_hl) w = (Ok v, w') ->
  makeIso10664_3 self K T (Some RType) (Some t_hl) (Some h_hl) w' = (Ok v, w')
  /\ cache_get (FSCache w') (hexalobular_key RType t_hl h_hl) = Some v.
Proof.
  intros H.
  pose proof (makeIso10664_3_caches self K T RType t_hl h_hl w w' v H) as Hc.
  split; [apply makeIso10664_3_hit; exact Hc | exact Hc].
Qed.

Lemma makeIso10664_3_second_call_witness :
  exists v w',
    makeIso10664_3 Screw_init exampleKernel exampleTables
                   (Some "T20"%string) (Some 3) (Some 0) emptyWorld = (Ok v, w')
    /\ makeIso10664_3 Screw_init exampleKernel exampleTables
                      (Some "T20"%string) (Some 3) (Some 0) w' = (Ok v, w')
    /\ cache_get (FSCache w') (hexalobular_key "T20" 3 0) = Some v.
Proof.
  destruct hexalobular_T20_first_call as (helo & shell & new & Hfirst & _).
  eexists. eexists. split; [exact Hfirst |].
  exact (makeIso10664_3_second_call Screw_init exampleKernel exampleTables
           "T20"%string 3 0 emptyWorld _ _ Hfirst).
Defined.

(** One kernel algorithm run at the head of the call: the shape is named
    and the world it leaves is brought to its record form. *)
Ltac run_step :=
  lazymatch goal with
  | |- context [bind (run ?S) _ _] =>
      let s := fresh "s" in
      set (s := S); unfold bind at 1, run at 1;
      cbn [objects FSCache journal emptyWorld]
  end.

(** The first call for the size 2 (diameter 6.9, height 0) in the empty
    world builds the tool: nine kernel algorithms run, two objects are
    stored at height 0 and the pair is cached under the key. *)
Lemma cross_first_call :
  exists cross shell new,
    makeCross_H3 Screw_init exampleKernel crossTables
                 (Some "2"%string) (Some 6.9) (Some 0) emptyWorld =
      (Ok (CPair 0%nat 1%nat),
       mkWorld [mkObj cross (at_height 0); mkObj shell (at_height 0)]
               [(cross_key "2" 6.9 0, CPair 0%nat 1%nat)] new)
    /\ List.length new = 9%nat.
Proof.
  pose proof PI_RGT_0 as Hpi.
  unfold makeCross_H3. cbn [arg].
  unfold bind at 1, FSGetKey. cbn [FSCache emptyWorld cache_get].
  unfold bind at 1, table_get. cbn [iso4757def crossTables].
  destruct (string_dec "2" "2") as [_ | Hne]; [| exfalso; apply Hne; reflexivity].
  unfold ret at 1.
  cbv zeta.
  assert (Hc : 0 < cos (radians 5.75)).
  { apply cos_gt_0; unfold radians; lra. }
  assert (Ht : 0 < tan (radians (140 / 2))).
  { apply tan_gt_0; unfold radians; lra. }
  assert (Hta : 0 < tan (radians (140 / 2)) / cos (radians 5.75)).
  { apply Rmult_lt_0_compat; [exact Ht | apply Rinv_0_lt_compat; exact Hc]. }
  lazymatch goal with
  | |- context [cut_corners _ _ ?pl] => set (pl_rot := pl)
  end.
  unfold RevolveZ at 1.
  run_step. run_step.
  unfold bind at 1, truediv at 1.
  destruct (Req_dec_T (cos (radians 5.75)) 0) as [E | _]; [exfalso; lra |].
  unfold ret at 1.
  unfold bind at 1, truediv at 1.
  destruct (Req_dec_T (cos (radians 5.75)) 0) as [E | _]; [exfalso; lra |].
  unfold ret at 1.
  unfold bind at 1, truediv at 1.
  rewrite tan_atan.
  destruct (Req_dec_T _ 0) as [E | _]; [exfalso; lra |].
  unfold ret at 1.
  run_step. run_step.
  cbn [Faces exampleKernel map seq].
  unfold bind at 1, index at 1. cbn [nth_error]. unfold ret at 1.
  unfold bind at 1, index at 1. cbn [nth_error]. unfold ret at 1.
  unfold bind at 1, index at 1. cbn [nth_error]. unfold ret at 1.
  unfold bind at 1, index at 1. cbn [nth_error]. unfold ret at 1.
  run_step.
  cbn [cut_corners].
  unfold bind at 1.
  run_step. run_step. run_step.
  unfold ret at 1.
  cbn [faces_from index nth_error bind ret app map seq].
  run_step.
  unfold bind, new_object, FSCache_set, ret.
  cbn [objects FSCache journal emptyWorld app List.length].
  do 3 eexists. split; reflexivity.
Qed.

(** X25.  The cross recess tool is built once.  When a call of
    [makeCross_H3] has returned, the pair is cached under its key, and
    the same call made next returns the same pair and leaves the whole
    world as it is. *)
Theorem makeCross_H3_second_call (self : Screw) (K : Kernel) (T : FsDataTables)
    (CrossType : string) (m h : R) (w w' : World) (v : CacheVal) :
  makeCross_H3 self K T (Some CrossType) (Some m) (Some h) w = (Ok v, w') ->
  makeCross_H3 self K T (Some CrossType) (Some m) (Some h) w' = (Ok v, w')
  /\ cache_get (FSCache w') (cross_key CrossType m h) = Some v.
Proof.
  intros H.
  pose proof (makeCross_H3_caches self K T CrossType m h w w' v H) as Hc.
  split; [apply makeCross_H3_hit; exact Hc | exact Hc].
Qed.

Lemma makeCross_H3_second_call_witness :
  exists v w',
    makeCross_H3 Screw_init exampleKernel crossTables
                 (Some "2"%string) (Some 6.9) (Some 0) emptyWorld = (Ok v, w')
    /\ List.length (journal w') = 9%nat
    /\ makeCross_H3 Screw_init exampleKernel crossTables
                    (Some "2"%string) (Some 6.9) (Some 0) w' = (Ok v, w')
    /\ cache_get (FSCache w') (cross_key "2" 6.9 0) = Some v.
Proof.
  destruct cross_first_call as (cross & shell & new & Hfirst & Hnew).
  eexists. eexists. split; [exact Hfirst |].
  split; [exact Hnew |].
  exact (makeCross_H3_second_call Screw_init exampleKernel crossTables
           "2"%string 6.9 0 emptyWorld _ _ Hfirst).
Defined.

(** X26.  The chamfer tool is built once.  When a call of [cutChamfer]
    has returned, the tool is cached under the three arguments, and the
    same call made next returns the same tool and leaves the world as it
    is.  The call that found nothing under the key has run one kernel
    algorithm, the revolution of the profile, and has stored the tool
    unmoved as the newest object; the call that found the key has left
    the world as it was. *)
Theorem cutChamfer_cached (self : Screw) (dia P l : R) (w w' : World) (v : CacheVal) :
  cutChamfer self dia P l w = (Ok v, w') ->
  cutChamfer self dia P l w' = (Ok v, w')
  /\ cache_get (FSCache w') (chamfer_key dia P l) = Some v
  /\ (cache_get (FSCache w) (chamfer_key dia P l) = None ->
        v = COne (List.length (objects w))
        /\ journal w' = chamfer_cutter dia P l :: journal w
        /\ object w' (List.length (objects w))
           = Some (mkObj (chamfer_cutter dia P l) identityPlacement))
  /\ (cache_get (FSCache w) (chamfer_key dia P l) <> None -> w' = w).
Proof.
  intros H.
  destruct (cache_get (FSCache w) (chamfer_key dia P l)) as [c |] eqn:Hc.
  - rewrite (cutChamfer_hit self dia P l w c Hc) in H. injection H as <- <-.
    split; [apply cutChamfer_hit; exact Hc |].
    split; [exact Hc |].
    split; [intros Hnone; discriminate Hnone | reflexivity].
  - rewrite (cutChamfer_miss self dia P l w Hc) in H. injection H as <- <-.
    split; [apply cutChamfer_hit; apply cache_get_head |].
    split; [apply cache_get_head |].
    split; [| intros Hsome; exfalso; apply Hsome; reflexivity].
    intros _. split; [reflexivity |]. split; [reflexivity |].
    unfold object. cbn [objects]. apply nth_error_new.
Qed.

Lemma cutChamfer_cached_witness :
  exists v w',
    cutChamfer Screw_init 10 1 5 emptyWorld = (Ok v, w')
    /\ cutChamfer Screw_init 10 1 5 w' = (Ok v, w')
    /\ cache_get (FSCache w') (chamfer_key 10 1 5) = Some v
    /\ (cache_get (FSCache emptyWorld) (chamfer_key 10 1 5) = None ->
          v = COne (List.length (objects emptyWorld))
          /\ journal w' = chamfer_cutter 10 1 5 :: journal emptyWorld
          /\ object w' (List.length (objects emptyWorld))
             = Some (mkObj (chamfer_cutter 10 1 5) identityPlacement))
    /\ (cache_get (FSCache emptyWorld) (chamfer_key 10 1 5) <> None -> w' = emptyWorld).
Proof.
  eexists. eexists.
  assert (Hfirst := cutChamfer_miss Screw_init 10 1 5 emptyWorld eq_refl).
  split; [exact Hfirst |].
  exact (cutChamfer_cached Screw_init 10 1 5 emptyWorld _ _ Hfirst).
Defined.

(** X27.  A size the table does not hold.  With nothing cached under the
    key, [makeIso10664_3] and [makeCross_H3] raise a [KeyError] for a size
    code their table does not hold, before any kernel algorithm runs:
    the world is as before, and nothing is cached. *)
Theorem recess_unknown_size (self : Screw) (K : Kernel) (T : FsDataTables)
    (RType CrossType : string) (t_hl h_hl m h : R) (w : World) :
  iso10664def T RType = None ->
  iso4757def T CrossType = None ->
  cache_get (FSCache w) (hexalobular_key RType t_hl h_hl) = None ->
  cache_get (FSCache w) (cross_key CrossType m h) = None ->
  makeIso10664_3 self K T (Some RType) (Some t_hl) (Some h_hl) w
    = (Raise (KeyError RType), w)
  /\ makeCross_H3 self K T (Some CrossType) (Some m) (Some h) w
     = (Raise (KeyError CrossType), w).
Proof.
  intros Hiso Hcross Hc1 Hc2. split.
  - unfold makeIso10664_3. cbn [arg]. unfold bind at 1, FSGetKey.
    fold (hexalobular_key RType t_hl h_hl). rewrite Hc1.
    unfold bind at 1, table_get. rewrite Hiso. reflexivity.
  - unfold makeCross_H3. cbn [arg]. unfold bind at 1, FSGetKey.
    fold (cross_key CrossType m h). rewrite Hc2.
    unfold bind at 1, table_get. rewrite Hcross. reflexivity.
Qed.

Lemma recess_unknown_size_witness :
  makeIso10664_3 Screw_init exampleKernel exampleTables
                 (Some "T99"%string) (Some 3) (Some 0) emptyWorld
    = (Raise (KeyError "T99"), emptyWorld)
  /\ makeCross_H3 Screw_init exampleKernel exampleTables
                  (Some "2"%string) (Some 6.9) (Some 0) emptyWorld
     = (Raise (KeyError "2"), emptyWorld).
Proof.
  apply (recess_unknown_size Screw_init exampleKernel exampleTables
           "T99"%string "2"%string 3 0 6.9 0 emptyWorld); reflexivity.
Defined.

(** ** The nut thread *)

(** X28.  The tests of the nut thread, for any kernel.  When
    [makeInnerThread_2] with an outer diameter returns, it returns [None]
    if and only if the bottom general fuse maps fewer than two shapes, or
    the top chamfer cut has more faces than the chamfer shell it cuts, or
    the top general fuse maps fewer than two shapes; a shell is returned
    only when all three tests have passed.  In every call, each general
    fuse is run with the tolerance [5e-4] and at most two are run: none is
    tried again with another tolerance.  The chamfer length, [l] and
    [rotations] enter the tests only through the shapes handed to the
    kernel. *)
Theorem nut_thread_tests
    (self : Screw) (K : Kernel) (d P : R) (rotations : Z) (da l : R) (w : World) :
  let out := makeInnerThread_2 self K d P rotations (Some da) l w in
  (forall r, fst out = Ok r ->
     (r = None <->
        bottom_fuse_fails self K d P da
        \/ top_cut_fails self K d P rotations da l
        \/ top_fuse_fails self K d P rotations da l))
  /\ exists new,
       journal (snd out) = new ++ journal w
       /\ (forall tol, In tol (fuse_tolerances new) -> tol = 5e-4)
       /\ (List.length (fuse_tolerances new) <= 2)%nat.
Proof.
  intros out.
  destruct (makeInnerThread_2_nut_cases self K d P rotations da l w)
    as [(new & _ & E & Htol & Hlen) | (shell & E)]; cbv zeta in E; fold out in E.
  { rewrite E. cbn [fst snd journalled journal]. split.
    - intros r Hr. discriminate Hr.
    - exists new. split; [reflexivity | split; assumption]. }
  rewrite E. clear E out.
  unfold bottom_fuse_fails, top_cut_fails, top_fuse_fails.
  fold (nut_top_cut_step self K d P rotations da l).
  destruct (List.length (bottomMap0 self K d P da) <? 2)%nat eqn:Hb;
    [| destruct (List.length (Faces K (top_chamferShell self K d P rotations))
                 <? List.length (Faces K (nut_top_cut_step self K d P rotations da l)))%nat
         eqn:Hc;
       [| destruct (List.length (topMap0 self K d P rotations da l) <? 2)%nat eqn:Ht]];
    repeat match goal with
      | H : (_ <? _)%nat = true |- _ => apply Nat.ltb_lt in H
      | H : (_ <? _)%nat = false |- _ => apply Nat.ltb_ge in H
      end;
    cbn [fst snd journalled journal].
  - split.
    + intros r Hr. injection Hr as <-. split; [intros _; left; exact Hb | reflexivity].
    + eexists. split; [reflexivity |].
      unfold nut_bottom_steps, thread_strip, bottom_Solid, top_Solid. cbn.
      split; [intros tol [<- | []]; reflexivity | lia].
  - split.
    + intros r Hr. injection Hr as <-.
      split; [intros _; right; left; exact Hc | reflexivity].
    + exists (nut_top_cut_step self K d P rotations da l
              :: rev (nut_bottom_steps self K d P da l)).
      split; [reflexivity |].
      unfold nut_top_cut_step, nut_bottom_steps, thread_strip, bottom_Solid, top_Solid. cbn.
      split; [intros tol [<- | []]; reflexivity | lia].
  - split.
    + intros r Hr. injection Hr as <-.
      split; [intros _; right; right; exact Ht | reflexivity].
    + exists (nut_top_fuse_step self K d P rotations da l
              :: nut_top_cut_step self K d P rotations da l
              :: rev (nut_bottom_steps self K d P da l)).
      split; [reflexivity |].
      unfold nut_top_fuse_step, nut_top_cut_step, nut_bottom_steps,
        thread_strip, bottom_Solid, top_Solid. cbn.
      split; [intros tol [<- | [<- | []]]; reflexivity | lia].
  - split.
    + intros r Hr. injection Hr as <-.
      split; [intros E; discriminate E | intros [H | [H | H]]; lia].
    + exists (nut_top_fuse_step self K d P rotations da l
              :: nut_top_cut_step self K d P rotations da l
              :: rev (nut_bottom_steps self K d P da l)).
      split; [reflexivity |].
      unfold nut_top_fuse_step, nut_top_cut_step, nut_bottom_steps,
        thread_strip, bottom_Solid, top_Solid. cbn.
      split; [intros tol [<- | [<- | []]]; reflexivity | lia].
Qed.

Lemma nut_thread_tests_witness :
  let out := makeInnerThread_2 Screw_init looseKernel 10 1.5 6 (Some 10.5) 8 emptyWorld in
  fst out = Ok None
  /\ bottom_fuse_fails Screw_init looseKernel 10 1.5 10.5
  /\ (forall r, fst out = Ok r ->
        (r = None <->
           bottom_fuse_fails Screw_init looseKernel 10 1.5 10.5
           \/ top_cut_fails Screw_init looseKernel 10 1.5 6 10.5 8
           \/ top_fuse_fails Screw_init looseKernel 10 1.5 6 10.5 8))
  /\ exists new,
       journal (snd out) = new ++ journal emptyWorld
       /\ (forall tol, In tol (fuse_tolerances new) -> tol = 5e-4)
       /\ (List.length (fuse_tolerances new) <= 2)%nat.
Proof.
  intros out.
  split; [exact nut_thread_none |].
  split; [unfold bottom_fuse_fails; cbn; lia |].
  exact (nut_thread_tests Screw_init looseKernel 10 1.5 6 10.5 8 emptyWorld).
Defined.
